(** * VoiceMemo Assistant

    A shallow embedding of the bot's message-processing core: the
    length-bounded summariser ([bot/llm.py]), the SQLite record store
    ([bot/database.py]) and the Telegram handlers
    ([bot/telegram_handler.py], in its aiogram and python-telegram-bot
    variants), with the single-file prototype they grew out of beside
    them, followed by the properties established for them. *)

From Stdlib Require Import ZArith NArith List String Ascii Bool Lia.
From Stdlib Require Import PrimFloat Uint63.
From stdpp Require Import base option list strings gmap sorting.

Local Open Scope Z_scope.

(** ** Python values *)

Module Py.

(** A Python [str] is a sequence of Unicode code points. *)
Definition char : Type := N.
Definition str : Type := list char.

Definition len (s : str) : Z := Z.of_nat (length s).

(** An ASCII literal, read as a [str]. *)
Definition lit (s : string) : str :=
  (fun a => N_of_ascii a) <$> list_ascii_of_string s.

Definition in_range (lo hi c : N) : bool :=
  ((lo <=? c) && (c <=? hi))%N.

(** The code points for which [str.isspace] holds; [str.strip()]
    removes exactly these (Unicode 14, as shipped with CPython 3.11). *)
Definition whitespace_ranges : list (N * N) :=
  [ (9, 13); (28, 32); (133, 133); (160, 160); (5760, 5760);
    (8192, 8202); (8232, 8233); (8239, 8239); (8287, 8287);
    (12288, 12288) ]%N.

Definition isspace (c : char) : bool :=
  existsb (fun r => in_range (fst r) (snd r) c) whitespace_ranges.

(** Category Nd comes in runs of ten consecutive code points, digit
    zero first.  These are the zeros; [\d] in a [str] pattern and
    [int()] both use this table. *)
Definition decimal_zeros : list N :=
  [ 48; 1632; 1776; 1984; 2406; 2534; 2662; 2790; 2918; 3046; 3174;
    3302; 3430; 3558; 3664; 3792; 3872; 4160; 4240; 6112; 6160; 6470;
    6608; 6784; 6800; 6992; 7088; 7232; 7248; 42528; 43216; 43264;
    43472; 43504; 43600; 44016; 65296; 66720; 68912; 69734; 69872;
    69942; 70096; 70384; 70736; 70864; 71248; 71360; 71472; 71904;
    72016; 72784; 73040; 73120; 92768; 92864; 93008; 120782; 120792;
    120802; 120812; 120822; 123200; 123632; 125264; 130032 ]%N.

Definition decimal_value (c : char) : option Z :=
  (fun z => Z.of_N (c - z)) <$>
    List.find (fun z => in_range z (z + 9) c) decimal_zeros.

Definition isdecimal (c : char) : bool :=
  match decimal_value c with Some _ => true | None => false end.

Fixpoint lstrip (s : str) : str :=
  match s with
  | c :: r => if isspace c then lstrip r else s
  | [] => []
  end.

Definition rstrip (s : str) : str := rev (lstrip (rev s)).

(** [s.strip()] *)
Definition strip (s : str) : str := lstrip (rstrip s).

(** The longest run of decimal digits [s] starts with. *)
Fixpoint leading_digits (s : str) : str :=
  match s with
  | c :: r => if isdecimal c then c :: leading_digits r else []
  | [] => []
  end.

Definition trailing_digits (s : str) : str :=
  rev (leading_digits (rev s)).

(** [int(ds)] on a run of decimal digits. *)
Definition int (ds : str) : Z :=
  fold_left (fun acc c => 10 * acc + default 0 (decimal_value c)) ds 0.

(** Without [re.MULTILINE], [$] matches at the end of the string and
    also just before a newline that ends it. *)
Definition before_final_newline (s : str) : str :=
  match rev s with
  | 10%N :: r => rev r
  | _ => s
  end.

(** [re.search(r"#?(\d+)$", s)]: group 1 of the leftmost match, which
    is the whole digit run the string ends with. *)
Definition search_trailing_id (s : str) : option str :=
  match trailing_digits (before_final_newline s) with
  | [] => None
  | ds => Some ds
  end.

(** [re.search(r"^#(\d+)", s)] and [re.match(r"^#(\d+)", s)]: group 1. *)
Definition match_leading_id (s : str) : option str :=
  match s with
  | 35%N :: r =>
      match leading_digits r with
      | [] => None
      | ds => Some ds
      end
  | _ => None
  end.

(** An [int] as the binary64 [float] arithmetic converts it; exact
    below 2^53 in magnitude, which covers every length and setting
    the summariser handles. *)
Definition float_of_int (z : Z) : float :=
  match z with
  | Z0 => PrimFloat.zero
  | Zpos _ => PrimFloat.of_uint63 (Uint63.of_Z z)
  | Zneg p => PrimFloat.opp (PrimFloat.of_uint63 (Uint63.of_Z (Zpos p)))
  end.

(** Truthiness of the values the handlers test with [and] / [if]. *)
Definition truthy_int (z : option Z) : bool :=
  match z with Some v => negb (v =? 0) | None => false end.

Definition truthy_str (s : option str) : bool :=
  match s with Some (_ :: _) => true | _ => false end.

(** The exceptions the code below can meet. *)
Inductive exn :=
| RequestException
| OpenAIError
| TransportError
| TranscriptionError
| AttributeError
| UnboundLocalError
| OverflowError
| TypeError.

(** A call returns a value or raises. *)
Inductive result (A : Type) :=
| Returned (a : A)
| Raised (e : exn).
Arguments Returned {A} a.
Arguments Raised {A} e.

Definition result_map {A B : Type} (f : A -> B) (r : result A) : result B :=
  match r with
  | Returned a => Returned (f a)
  | Raised e => Raised e
  end.

(** An [int] that [sqlite3] can bind as a statement parameter: SQLite's
    INTEGER is a signed 64-bit number, and binding any other [int]
    raises [OverflowError] before the statement runs. *)
Definition fits_int64 (z : Z) : bool := (- 2 ^ 63 <=? z) && (z <? 2 ^ 63).

End Py.

Import Py.

(** ** The record store ([bot/database.py]) *)

Module DB.

(** One row of [voice_messages]. *)
Record Row := {
  id : Z;                   (* INTEGER PRIMARY KEY AUTOINCREMENT *)
  telegram_file_id : str;   (* TEXT UNIQUE NOT NULL *)
  text : str;
  summarized : str;
  note : option str;
  sent_at : str;
  user_id : Z;
  username : option str
}.

(** The table in rowid order, and [seq]: the counter AUTOINCREMENT
    keeps in [sqlite_sequence], no smaller than any id the table has
    handed out; the next id is one more. *)
Record Database := {
  rows : list Row;
  seq : Z
}.

(** The table [_CREATE_TABLE_SQL] creates. *)
Definition empty : Database := {| rows := []; seq := 0 |}.

Definition has_id (record_id : Z) (r : Row) : bool := id r =? record_id.

Definition has_file_id (file_id : str) (r : Row) : bool :=
  bool_decide (telegram_file_id r = file_id).

(** [cursor.rowcount > 0] for a statement whose WHERE clause is [hit]. *)
Definition rowcount (hit : Row -> bool) (db : Database) : Z :=
  Z.of_nat (length (List.filter hit (rows db))).

Definition update_where (hit : Row -> bool) (set : Row -> Row)
    (db : Database) : Database :=
  {| rows := List.map (fun r => if hit r then set r else r) (rows db);
     seq := seq db |}.

Definition delete_where (hit : Row -> bool) (db : Database) : Database :=
  {| rows := List.filter (fun r => negb (hit r)) (rows db);
     seq := seq db |}.

(** The [DO UPDATE SET] list of the upsert. *)
Definition set_excluded (text' summary' sent_at' : str) (user_id' : Z)
    (username' : option str) (r : Row) : Row :=
  {| id := id r;
     telegram_file_id := telegram_file_id r;
     text := text';
     summarized := summary';
     note := note r;
     sent_at := sent_at';
     user_id := user_id';
     username := username' |}.

(** [INSERT ... ON CONFLICT(telegram_file_id) DO UPDATE ... RETURNING id].
    The statement returns one row on either path, so [row[0]] is
    always there.  The insert takes the next id before the conflict is
    found, and the counter keeps it: an upsert that ends as an update
    uses up one id. *)
Definition save_message (db : Database) (file_id text' summary' sent_at' : str)
    (user_id' : Z) (username' : option str) : Database * Z :=
  match List.find (has_file_id file_id) (rows db) with
  | Some old =>
      ({| rows :=
            rows (update_where (has_file_id file_id)
                    (set_excluded text' summary' sent_at' user_id' username')
                    db);
          seq := seq db + 1 |},
       id old)
  | None =>
      let record_id := seq db + 1 in
      ({| rows := rows db ++
                  [ {| id := record_id;
                       telegram_file_id := file_id;
                       text := text';
                       summarized := summary';
                       note := None;
                       sent_at := sent_at';
                       user_id := user_id';
                       username := username' |} ];
          seq := record_id |},
       record_id)
  end.

(** [SELECT ... WHERE id = ?] and [fetchone()]; binding [record_id]
    comes first and may raise. *)
Definition fetch_record_by_id (db : Database) (record_id : Z)
    : result (option Row) :=
  if fits_int64 record_id
  then Returned (List.find (has_id record_id) (rows db))
  else Raised OverflowError.

Definition fetch_record_by_telegram_file_id (db : Database) (file_id : str)
    : option Row :=
  List.find (has_file_id file_id) (rows db).

(** [DELETE ... WHERE id = ?], then [rowcount > 0]; when binding
    [record_id] raises, no statement has run. *)
Definition delete_record_by_id (db : Database) (record_id : Z)
    : Database * result bool :=
  if fits_int64 record_id
  then (delete_where (has_id record_id) db,
        Returned (0 <? rowcount (has_id record_id) db))
  else (db, Raised OverflowError).

Definition delete_record_by_telegram_file_id (db : Database) (file_id : str)
    : Database * bool :=
  (delete_where (has_file_id file_id) db,
   0 <? rowcount (has_file_id file_id) db).

Definition set_summarized (new_summary : str) (r : Row) : Row :=
  {| id := id r;
     telegram_file_id := telegram_file_id r;
     text := text r;
     summarized := new_summary;
     note := note r;
     sent_at := sent_at r;
     user_id := user_id r;
     username := username r |}.

Definition set_note (note' : str) (r : Row) : Row :=
  {| id := id r;
     telegram_file_id := telegram_file_id r;
     text := text r;
     summarized := summarized r;
     note := Some note';
     sent_at := sent_at r;
     user_id := user_id r;
     username := username r |}.

(** [UPDATE voice_messages SET summarized = ? WHERE id = ?].  The two
    updates are called with the pending id of a session only, an id
    that [fetch_record_by_id] has found and [sqlite3] can therefore
    bind. *)
Definition update_summary (db : Database) (record_id : Z) (new_summary : str)
    : Database * bool :=
  (update_where (has_id record_id) (set_summarized new_summary) db,
   0 <? rowcount (has_id record_id) db).

(** [UPDATE voice_messages SET note = ? WHERE id = ?] *)
Definition add_note_to_record (db : Database) (record_id : Z) (note' : str)
    : Database * bool :=
  (update_where (has_id record_id) (set_note note') db,
   0 <? rowcount (has_id record_id) db).

(** What the schema's constraints and AUTOINCREMENT guarantee of any
    table the operations above produce. *)
Record wf (db : Database) : Prop := {
  wf_ids : NoDup (id <$> rows db);
  wf_file_ids : NoDup (telegram_file_id <$> rows db);
  wf_seq : Forall (fun r => 1 <= id r <= seq db) (rows db);
  wf_seq_nonneg : 0 <= seq db
}.

End DB.

(** ** Telegram-side data *)

Module Telegram.

Definition bytes : Type := list N.

Record Voice := { file_id : str }.

(** The message a message replies to: the handlers read its [voice]
    and its [text] only. *)
Record Reply := {
  reply_voice : option Voice;
  reply_text : option str
}.

Record User := { user_id : Z; username : option str }.

Record Message := {
  message_id : Z;
  from_user : User;
  text : option str;
  voice : option Voice;
  reply_to_message : option Reply
}.

(** The texts the handlers send, by the constant or literal that
    holds them. *)
Inductive notice :=
| MSG_VOICE_PROCESSING
| RECOGNITION_FAILED          (* "Не удалось распознать текст. ..." *)
| SUMMARY_REPLY_HEADER (record_id : Z) (summary : str)
| PROCESSING_FAILED           (* "Произошла ошибка при обработке сообщения. ..." *)
| MSG_DELETE_SUCCESS (record_id : Z)
| VOICE_RECORD_DELETED        (* "✅ Запись удалена." *)
| MSG_DELETE_NOT_FOUND
| DELETE_USAGE                (* "❓ Не удалось определить запись ...": the three formats *)
| EDIT_USAGE                  (* "Чтобы отредактировать резюме ..." *)
| MSG_EDIT_OR_ADD_NOTE_PROMPT (* with the edit / note / cancel keyboard *)
| MSG_SUMMARY_UPDATED
| MSG_NOTE_ADDED
| CHOICE_FAILED               (* "Произошла ошибка. Пожалуйста, попробуйте снова." *)
| CHOICE_CANCELLED            (* "Операция отменена." *)
| EDIT_ABANDONED              (* "Операция редактирования отменена. ..." *)
| FILE_SUMMARY (file_id summary : str). (* the prototype's "#{file_id} ... {summary}" *)


Inductive action :=
| Answer (n : notice)         (* a new message in the chat *)
| EditText (n : notice).      (* the bot's earlier message, rewritten *)

End Telegram.

(** ** Collaborators, state and effects *)

Module Sys.

(** The two wordings of the summary prompt: the package's
    [PROMPT_SUMMARY_TEMPLATE], and the f-string the prototype builds
    in [_generate] (other words around the same three fields). *)
Inductive wording := PROMPT_SUMMARY_TEMPLATE | PROTOTYPE_PROMPT.

(** A summary prompt: a wording with its three fields filled in. *)
Record Prompt := { template : wording; min_len : Z; max_len : Z; text : str }.

(** [requests.post] to Ollama, [raise_for_status] and [resp.json()]:
    a [RequestException] (timeout, connection fault, error status,
    a body that is not JSON); a JSON object whose ["response"] is a
    string or is missing; or any other JSON (not an object, or with a
    ["response"] that is null or not a string), on which [.get] or
    [.strip] raises [AttributeError]. *)
Inductive ollama_outcome :=
| RequestFault
| OllamaJson (response : option str)
| OllamaMalformed.

(** [openai.ChatCompletion.create]: any exception, or a completion. *)
Inductive openai_outcome :=
| OpenAIFault
| Completion (content : str).

(** How the outside answers: the k-th generation request, a file
    download, a transcription. [None] stands for a raised error. *)
Record Env := {
  ollama : nat -> Prompt -> ollama_outcome;
  openai : nat -> Prompt -> openai_outcome;
  download : str -> option Telegram.bytes;
  transcribe_ogg_bytes : Telegram.bytes -> option str
}.

Inductive conv_state := IDLE | AWAITING_CHOICE.

(** [models/schemas.py], and the keys the handlers keep in
    [user_data] / the FSM data. *)
Record UserState := { record_id : option Z; new_text : option str }.

Definition no_data : UserState := {| record_id := None; new_text := None |}.

Record World := {
  env : Env;
  requests : list Prompt;              (* generation requests made so far *)
  db : DB.Database;
  outbox : list Telegram.action;
  state : conv_state;                  (* of this chat and user *)
  user_data : UserState;
  timeout_due : option Z               (* when the conversation times out *)
}.

Definition with_requests (f : list Prompt -> list Prompt) (w : World) : World :=
  {| env := env w; requests := f (requests w); db := db w;
     outbox := outbox w; state := state w; user_data := user_data w;
     timeout_due := timeout_due w |}.

Definition with_db (d : DB.Database) (w : World) : World :=
  {| env := env w; requests := requests w; db := d;
     outbox := outbox w; state := state w; user_data := user_data w;
     timeout_due := timeout_due w |}.

Definition with_outbox (f : list Telegram.action -> list Telegram.action)
    (w : World) : World :=
  {| env := env w; requests := requests w; db := db w;
     outbox := f (outbox w); state := state w; user_data := user_data w;
     timeout_due := timeout_due w |}.

Definition with_state (s : conv_state) (w : World) : World :=
  {| env := env w; requests := requests w; db := db w;
     outbox := outbox w; state := s; user_data := user_data w;
     timeout_due := timeout_due w |}.

Definition with_user_data (u : UserState) (w : World) : World :=
  {| env := env w; requests := requests w; db := db w;
     outbox := outbox w; state := state w; user_data := u;
     timeout_due := timeout_due w |}.

Definition with_timeout_due (t : option Z) (w : World) : World :=
  {| env := env w; requests := requests w; db := db w;
     outbox := outbox w; state := state w; user_data := user_data w;
     timeout_due := t |}.

(** A computation: it runs in a world and returns or raises, leaving
    a world behind. *)
Definition io (A : Type) : Type := World -> result A * World.

#[export] Instance io_ret : MRet io := fun A a w => (Returned a, w).

#[export] Instance io_bind : MBind io := fun A B f m w =>
  match m w with
  | (Returned a, w') => f a w'
  | (Raised e, w') => (Raised e, w')
  end.

Definition raise {A : Type} (e : exn) : io A := fun w => (Raised e, w).

(** [try: body / except: handler] *)
Definition try_except {A : Type} (body : io A) (handler : exn -> io A) : io A :=
  fun w =>
    match body w with
    | (Raised e, w') => handler e w'
    | r => r
    end.

Definition gets {A : Type} (f : World -> A) : io A := fun w => (Returned (f w), w).

Definition modify (f : World -> World) : io unit := fun w => (Returned tt, f w).

Definition send (a : Telegram.action) : io unit :=
  modify (with_outbox (fun o => o ++ [a])).

(** A database call: run it on the store, keep the new store, hand
    back what it returns. *)
Definition on_db {A : Type} (f : DB.Database -> DB.Database * A) : io A :=
  fun w => let '(d, a) := f (db w) in (Returned a, with_db d w).

(** A database call that may raise. *)
Definition try_db {A : Type} (f : DB.Database -> DB.Database * result A)
    : io A :=
  fun w => let '(d, r) := f (db w) in (r, with_db d w).

(** A query that may raise; the store stays as it is. *)
Definition query {A : Type} (f : DB.Database -> result A) : io A :=
  fun w => (f (db w), w).

End Sys.

Import Sys.

(** ** The summariser ([bot/llm.py]) *)

Module LLM.

Record LLMHandler := {
  use_local : bool;
  config : gmap string Z
}.

(** [config.get(key, fallback)] for the integer settings. *)
Definition config_get (self : LLMHandler) (key : string) (fallback : Z) : Z :=
  default fallback (config self !! key).

(** "Ошибка при генерации резюме. Пожалуйста, попробуйте позже." *)
Definition APOLOGY : str :=
  [ 1054; 1096; 1080; 1073; 1082; 1072; 32; 1087; 1088; 1080; 32; 1075;
    1077; 1085; 1077; 1088; 1072; 1094; 1080; 1080; 32; 1088; 1077; 1079;
    1102; 1084; 1077; 46; 32; 1055; 1086; 1078; 1072; 1083; 1091; 1081;
    1089; 1090; 1072; 44; 32; 1087; 1086; 1087; 1088; 1086; 1073; 1091;
    1081; 1090; 1077; 32; 1087; 1086; 1079; 1078; 1077; 46 ]%N.

Definition deviation_percent (self : LLMHandler) : Z :=
  config_get self "SUMMARY_DEVIATION_PERCENT" 20.

Definition max_tries (self : LLMHandler) : Z :=
  Z.max 1 (config_get self "SUMMARY_MAX_TRIES" 2).

(** [(min_len, max_len)] for a text of [n] characters. *)
Definition bounds (n : Z) : Z * Z :=
  if n <? 500 then (150, 250) else (Z.max 150 (n / 5), n / 3).

Definition min_allowed (min_len deviation : Z) : float :=
  (float_of_int min_len * (1 - float_of_int deviation / 100))%float.

Definition max_allowed (max_len deviation : Z) : float :=
  (float_of_int max_len * (1 + float_of_int deviation / 100))%float.

(** [min_allowed <= length <= max_allowed] *)
Definition within_allowed (min_len max_len deviation length : Z) : bool :=
  PrimFloat.leb (min_allowed min_len deviation) (float_of_int length)
  && PrimFloat.leb (float_of_int length) (max_allowed max_len deviation).

(** The request itself: it is logged, and the outside answers. *)
Definition post_ollama (prompt : Prompt) : io ollama_outcome :=
  fun w =>
    (Returned (ollama (env w) (length (requests w)) prompt),
     with_requests (fun l => l ++ [prompt]) w).

Definition create_openai (prompt : Prompt) : io openai_outcome :=
  fun w =>
    (Returned (openai (env w) (length (requests w)) prompt),
     with_requests (fun l => l ++ [prompt]) w).

Definition _ollama_call (self : LLMHandler) (prompt : Prompt) : io str :=
  try_except
    (resp ← post_ollama prompt;
     match resp with
     | RequestFault => raise RequestException
     | OllamaJson response => mret (strip (default [] response))
     | OllamaMalformed => raise AttributeError
     end)
    (fun e =>
       match e with
       | RequestException => mret APOLOGY
       | _ => raise e
       end).

Definition _openai_call (self : LLMHandler) (prompt : Prompt) : io str :=
  try_except
    (resp ← create_openai prompt;
     match resp with
     | OpenAIFault => raise OpenAIError
     | Completion content => mret (strip content)
     end)
    (fun _ => mret APOLOGY).

Section Summarize.

Variable self : LLMHandler.
Variable text : str.

(** The window the prompt asks for. *)
Definition min_len : Z := fst (bounds (len text)).
Definition max_len : Z := snd (bounds (len text)).

Definition _generate : io str :=
  let prompt := {| Sys.template := PROMPT_SUMMARY_TEMPLATE;
                   Sys.min_len := min_len; Sys.max_len := max_len;
                   Sys.text := text |} in
  s ← (if use_local self
       then _ollama_call self prompt
       else _openai_call self prompt);
  mret (strip s).

(** Whether the loop accepts a summary of this length. *)
Definition accepted (length : Z) : bool :=
  within_allowed min_len max_len (deviation_percent self) length.

(** [for attempt in range(max_tries)], with [remaining] iterations
    to go and [summary] as the loop has left it.  The warning the
    last iteration logs changes nothing. *)
Fixpoint attempts (remaining : nat) (summary : option str)
    : io (option str) :=
  match remaining with
  | O => mret summary
  | S k =>
      s ← _generate;
      if accepted (len s)
      then mret (Some s)
      else attempts k (Some s)
  end.

Definition summarize : io str :=
  summary ← attempts (Z.to_nat (max_tries self)) None;
  match summary with
  | Some s => mret s
  | None => raise UnboundLocalError
  end.

End Summarize.

End LLM.

(** ** The handlers both [telegram_handler.py] variants share *)

Module Handlers.

Import Telegram.

Record TelegramBot := { llm : LLM.LLMHandler }.

(** [bot.get_file] and the download that follows. *)
Definition download_voice (file_id : str) : io bytes :=
  got ← gets (fun w => download (env w) file_id);
  match got with
  | Some ogg_bytes => mret ogg_bytes
  | None => raise TransportError
  end.

(** [self.stt.transcribe_ogg_bytes] *)
Definition transcribe (ogg_bytes : bytes) : io str :=
  got ← gets (fun w => transcribe_ogg_bytes (env w) ogg_bytes);
  match got with
  | Some transcript => mret transcript
  | None => raise TranscriptionError
  end.

(** [edit_message_text(..., reply_to_message_id=...)] under aiogram,
    [edit_text(..., reply_to_message_id=...)] under
    python-telegram-bot: neither method has such a parameter, so the
    call raises [TypeError] and nothing is sent. *)
Definition edit_replying (n : notice) : io unit := raise TypeError.

(** [sent_at] is what [Utils.now_utc()] returned on entry.  Messages
    are put in the outbox as the handler asks for them. *)
Definition on_voice (self : TelegramBot) (message : Message) (sent_at : str)
    : io unit :=
  let user := from_user message in
  match voice message with
  | None => raise AttributeError
  | Some voice =>
      let file_id := file_id voice in
      send (Answer MSG_VOICE_PROCESSING);;
      try_except
        (ogg_bytes ← download_voice file_id;
         text ← transcribe ogg_bytes;
         if len text <? 5
         then send (EditText RECOGNITION_FAILED)
         else
           summary ← LLM.summarize (llm self) text;
           record_id ← on_db (fun d =>
             DB.save_message d file_id text summary sent_at
               (user_id user) (username user));
           edit_replying (SUMMARY_REPLY_HEADER record_id summary))
        (fun _ => send (EditText PROCESSING_FAILED))
  end.

(** The answer after [delete_record_by_id]. *)
Definition delete_by_id (record_id : Z) : io unit :=
  deleted ← try_db (fun d => DB.delete_record_by_id d record_id);
  if deleted : bool
  then send (Answer (MSG_DELETE_SUCCESS record_id))
  else send (Answer MSG_DELETE_NOT_FOUND).

Definition delete_by_file_id (file_id : str) : io unit :=
  deleted ← on_db (fun d => DB.delete_record_by_telegram_file_id d file_id);
  if deleted : bool
  then send (Answer VOICE_RECORD_DELETED)
  else send (Answer MSG_DELETE_NOT_FOUND).

Definition on_delete_command (message : Message) : io unit :=
  match text message with
  | None => raise AttributeError
  | Some raw =>
      let text := strip raw in
      match search_trailing_id text with
      | Some digits => delete_by_id (int digits)
      | None =>
          match reply_to_message message with
          | Some reply =>
              match reply_voice reply with
              | Some voice => delete_by_file_id (file_id voice)
              | None =>
                  match reply_text reply ≫= match_leading_id with
                  | Some digits => delete_by_id (int digits)
                  | None => send (Answer DELETE_USAGE)
                  end
              end
          | None => send (Answer DELETE_USAGE)
          end
      end
  end.

(** [if record_id and new_text]: the pair, when both are truthy. *)
Definition pending (data : UserState) : option (Z * str) :=
  match record_id data, new_text data with
  | Some record_id, Some new_text =>
      if truthy_int (Some record_id) && truthy_str (Some new_text)
      then Some (record_id, new_text)
      else None
  | _, _ => None
  end.

(** The record a summary-shaped reply names:
    [reply and reply.text and re.match(r"^#\d+", reply.text)]. *)
Definition replied_summary_id (message : Message) : option Z :=
  reply ← reply_to_message message;
  reply_text ← reply_text reply;
  int <$> match_leading_id reply_text.

(** The three choices, up to the point where the session is closed. *)
Definition apply_edit : io unit :=
  data ← gets user_data;
  match pending data with
  | Some (record_id, new_text) =>
      updated ← on_db (fun d => DB.update_summary d record_id new_text);
      if updated : bool
      then send (EditText MSG_SUMMARY_UPDATED)
      else send (EditText MSG_DELETE_NOT_FOUND)
  | None => send (EditText CHOICE_FAILED)
  end.

Definition apply_note : io unit :=
  data ← gets user_data;
  match pending data with
  | Some (record_id, note_text) =>
      added ← on_db (fun d => DB.add_note_to_record d record_id note_text);
      if added : bool
      then send (EditText MSG_NOTE_ADDED)
      else send (EditText MSG_DELETE_NOT_FOUND)
  | None => send (EditText CHOICE_FAILED)
  end.

(** The updates of one chat and user, as [setup_handlers] routes
    them.  The handlers for [/start], [/help], [/sum], [/delete] and
    for voice messages are registered before the dialog, and the first
    handler that takes an update is the only one to see it. *)
Inductive update :=
| TextReply (message : Message)   (* a text, not a command, sent as a reply *)
| CallbackQuery (data : str)      (* a keyboard button *)
| HandledBefore                   (* one of the four commands, or a voice message *)
| OtherMessage.                   (* any other message *)

End Handlers.

(** ** The dialog under python-telegram-bot
       ([voice_memo_assistant/bot/telegram_handler.py]) *)

Module Ptb.

Import Telegram Handlers.

(** What a conversation callback returns. *)
Inductive next_state := END | STATE_AWAITING_CHOICE.

Definition conversation_timeout : Z := 300.

Definition on_reply_to_summary_for_edit (message : Message) : io next_state :=
  match replied_summary_id message with
  | None => send (Answer EDIT_USAGE);; mret END
  | Some record_id =>
      record ← query (fun d => DB.fetch_record_by_id d record_id);
      match record with
      | None => send (Answer MSG_DELETE_NOT_FOUND);; mret END
      | Some _ =>
          modify (with_user_data
                    {| Sys.record_id := Some record_id;
                       Sys.new_text := text message |});;
          send (Answer MSG_EDIT_OR_ADD_NOTE_PROMPT);;
          mret STATE_AWAITING_CHOICE
      end
  end.

Definition handle_edit_summary_callback : io next_state :=
  apply_edit;;
  modify (with_user_data no_data);;
  mret END.

Definition handle_add_note_callback : io next_state :=
  apply_note;;
  modify (with_user_data no_data);;
  mret END.

Definition handle_cancel_callback : io next_state :=
  send (EditText CHOICE_CANCELLED);;
  modify (with_user_data no_data);;
  mret END.

Definition handle_cancel_edit : io next_state :=
  send (Answer EDIT_ABANDONED);;
  modify (with_user_data no_data);;
  mret END.

(** [ConversationHandler] with [conversation_timeout] and a job queue
    to run it: the timeout job, once due, has ended the conversation
    before anything later is looked at.  It leaves [user_data] alone. *)
Definition expire (now : Z) : io unit :=
  modify (fun w =>
    match state w, timeout_due w with
    | AWAITING_CHOICE, Some due =>
        if due <=? now
        then with_timeout_due None (with_state IDLE w)
        else w
    | _, _ => w
    end).

(** After a callback has run: the state it returned is stored, and the
    timeout is armed again unless the conversation ended. *)
Definition settle (now : Z) (next : next_state) : io unit :=
  match next with
  | END => modify (fun w => with_timeout_due None (with_state IDLE w))
  | STATE_AWAITING_CHOICE =>
      modify (fun w =>
        with_timeout_due (Some (now + conversation_timeout))
          (with_state AWAITING_CHOICE w))
  end.

(** [edit_handler] as [setup_handlers] builds it: one entry point,
    three buttons while awaiting the choice, and as fallback any
    message that comes as far as the dialog. *)
Definition edit_handler (now : Z) (u : update) : io unit :=
  expire now;;
  current ← gets state;
  match current, u with
  | _, HandledBefore => mret tt
  | IDLE, TextReply message =>
      on_reply_to_summary_for_edit message ≫= settle now
  | IDLE, _ => mret tt
  | AWAITING_CHOICE, CallbackQuery data =>
      if bool_decide (data = lit "edit")
      then handle_edit_summary_callback ≫= settle now
      else if bool_decide (data = lit "note")
      then handle_add_note_callback ≫= settle now
      else if bool_decide (data = lit "cancel")
      then handle_cancel_callback ≫= settle now
      else mret tt
  | AWAITING_CHOICE, _ => handle_cancel_edit ≫= settle now
  end.

(** Updates in the order they arrive, each with its time in seconds. *)
Fixpoint run (trace : list (Z * update)) : io unit :=
  match trace with
  | [] => mret tt
  | (now, u) :: rest => edit_handler now u;; run rest
  end.

End Ptb.

(** ** The dialog under aiogram ([bot/telegram_handler.py]) *)

Module Aiogram.

Import Telegram Handlers.

Definition on_reply_to_summary_for_edit (message : Message) : io unit :=
  match replied_summary_id message with
  | None => send (Answer EDIT_USAGE)
  | Some record_id =>
      record ← query (fun d => DB.fetch_record_by_id d record_id);
      match record with
      | None => send (Answer MSG_DELETE_NOT_FOUND)
      | Some _ =>
          modify (with_state AWAITING_CHOICE);;
          modify (with_user_data
                    {| Sys.record_id := Some record_id;
                       Sys.new_text := text message |});;
          send (Answer MSG_EDIT_OR_ADD_NOTE_PROMPT)
      end
  end.

(** [state.clear()] *)
Definition clear : io unit :=
  modify (fun w => with_user_data no_data (with_state IDLE w)).

Definition handle_edit_summary_callback : io unit :=
  apply_edit;; clear.

Definition handle_add_note_callback : io unit :=
  apply_note;; clear.

Definition handle_cancel_callback : io unit :=
  send (EditText CHOICE_CANCELLED);; clear.

(** The routes [setup_handlers] registers for the dialog: the reply
    handler whatever the state, the three buttons under
    [EditStates.waiting_for_choice]. *)
Definition dispatch (u : update) : io unit :=
  match u with
  | TextReply message => on_reply_to_summary_for_edit message
  | CallbackQuery data =>
      current ← gets state;
      match current with
      | AWAITING_CHOICE =>
          if bool_decide (data = lit "edit")
          then handle_edit_summary_callback
          else if bool_decide (data = lit "note")
          then handle_add_note_callback
          else if bool_decide (data = lit "cancel")
          then handle_cancel_callback
          else mret tt
      | IDLE => mret tt
      end
  | HandledBefore => mret tt
  | OtherMessage => mret tt
  end.

(** Updates in the order they arrive, each with its time in seconds;
    nothing here reads the time. *)
Fixpoint run (trace : list (Z * update)) : io unit :=
  match trace with
  | [] => mret tt
  | (_, u) :: rest => dispatch u;; run rest
  end.

End Aiogram.

(** ** The single-file prototype ([telegram_voice_daily_sum_bot.py]) *)

Module Prototype.

Import Telegram.

(** Its upsert replaces three columns and returns nothing; its table
    has no [note] column, which stays [None] here. *)
Definition set_excluded (text' summary' sent_at' : str) (r : DB.Row) : DB.Row :=
  {| DB.id := DB.id r;
     DB.telegram_file_id := DB.telegram_file_id r;
     DB.text := text';
     DB.summarized := summary';
     DB.note := DB.note r;
     DB.sent_at := sent_at';
     DB.user_id := DB.user_id r;
     DB.username := DB.username r |}.

Definition save_message (db : DB.Database) (file_id text' summary' sent_at' : str)
    (user_id' : Z) (username' : option str) : DB.Database :=
  match List.find (DB.has_file_id file_id) (DB.rows db) with
  | Some _ =>
      {| DB.rows :=
           DB.rows (DB.update_where (DB.has_file_id file_id)
                      (set_excluded text' summary' sent_at') db);
         DB.seq := DB.seq db + 1 |}
  | None =>
      let record_id := DB.seq db + 1 in
      {| DB.rows := DB.rows db ++
                    [ {| DB.id := record_id;
                         DB.telegram_file_id := file_id;
                         DB.text := text';
                         DB.summarized := summary';
                         DB.note := None;
                         DB.sent_at := sent_at';
                         DB.user_id := user_id';
                         DB.username := username' |} ];
         DB.seq := record_id |}
  end.

(** The two backend calls, with nothing around them. *)
Definition _ollama_call (prompt : Prompt) : io str :=
  resp ← LLM.post_ollama prompt;
  match resp with
  | RequestFault => raise RequestException
  | OllamaJson response => mret (strip (default [] response))
  | OllamaMalformed => raise AttributeError
  end.

Definition _openai_call (prompt : Prompt) : io str :=
  resp ← LLM.create_openai prompt;
  match resp with
  | OpenAIFault => raise OpenAIError
  | Completion content => mret (strip content)
  end.

Definition _generate (self : LLM.LLMHandler) (text : str) : io str :=
  let prompt := {| Sys.template := PROTOTYPE_PROMPT;
                   Sys.min_len := LLM.min_len text;
                   Sys.max_len := LLM.max_len text;
                   Sys.text := text |} in
  s ← (if LLM.use_local self then _ollama_call prompt else _openai_call prompt);
  mret (strip s).

Fixpoint attempts (self : LLM.LLMHandler) (text : str) (remaining : nat)
    (summary : option str) : io (option str) :=
  match remaining with
  | O => mret summary
  | S k =>
      s ← _generate self text;
      if LLM.accepted self text (len s)
      then mret (Some s)
      else attempts self text k (Some s)
  end.

Definition summarize (self : LLM.LLMHandler) (text : str) : io str :=
  summary ← attempts self text (Z.to_nat (LLM.max_tries self)) None;
  match summary with
  | Some s => mret s
  | None => raise UnboundLocalError
  end.

Definition on_voice (self : Handlers.TelegramBot) (message : Message)
    (sent_at : str) : io unit :=
  let user := from_user message in
  match voice message with
  | None => raise AttributeError
  | Some voice =>
      let file_id := file_id voice in
      ogg_bytes ← Handlers.download_voice file_id;
      text ← Handlers.transcribe ogg_bytes;
      summary ← summarize (Handlers.llm self) text;
      modify (fun w =>
        with_db (save_message (db w) file_id text summary sent_at
                   (user_id user) (username user)) w);;
      send (Answer (FILE_SUMMARY file_id summary))
  end.

End Prototype.

(** ** Vocabulary of the statements *)

Module Spec.

(** A row with this id is in the table. *)
Definition present (db : DB.Database) (record_id : Z) : Prop :=
  exists r : DB.Row, r ∈ DB.rows db /\ DB.id r = record_id.



(** *** The delete target, as the three ways of naming it are listed *)

Inductive target :=
| ById (record_id : Z)
| ByFileId (file_id : str).

(** 1. A number at the very end of the text, [#] before it or not. *)
Definition trailing_id (message : Telegram.Message) : option target :=
  raw ← Telegram.text message;
  digits ← search_trailing_id (strip raw);
  Some (ById (int digits)).

(** 2. The voice message replied to. *)
Definition replied_voice (message : Telegram.Message) : option target :=
  reply ← Telegram.reply_to_message message;
  voice ← Telegram.reply_voice reply;
  Some (ByFileId (Telegram.file_id voice)).

(** 3. The [#id] a replied-to text starts with. *)
Definition replied_summary (message : Telegram.Message) : option target :=
  reply ← Telegram.reply_to_message message;
  reply_text ← Telegram.reply_text reply;
  digits ← match_leading_id reply_text;
  Some (ById (int digits)).

(** The first of a list of attempts that yields something. *)
Fixpoint first_match {A : Type} (attempts : list (option A)) : option A :=
  match attempts with
  | Some a :: _ => Some a
  | None :: rest => first_match rest
  | [] => None
  end.

Definition resolve (message : Telegram.Message) : option target :=
  first_match [trailing_id message; replied_voice message;
               replied_summary message].

(** Whether the store holds a record the target names.  The [id]
    column holds 64-bit integers: an id beyond them names no record
    of any table, and cannot even be asked for. *)
Definition stored (db : DB.Database) (t : target) : bool :=
  match t with
  | ById record_id =>
      fits_int64 record_id && existsb (DB.has_id record_id) (DB.rows db)
  | ByFileId file_id => existsb (DB.has_file_id file_id) (DB.rows db)
  end.

(** Whether the store can be asked about the target. *)
Definition askable (t : target) : bool :=
  match t with
  | ById record_id => fits_int64 record_id
  | ByFileId _ => true
  end.

Definition without (db : DB.Database) (t : target) : DB.Database :=
  match t with
  | ById record_id => DB.delete_where (DB.has_id record_id) db
  | ByFileId file_id => DB.delete_where (DB.has_file_id file_id) db
  end.

Inductive outcome :=
| Deleted (t : target)
| NotFound
| Unresolvable
| Unaskable.

Definition delete_outcome (db : DB.Database) (message : Telegram.Message)
    : outcome :=
  match resolve message with
  | None => Unresolvable
  | Some t =>
      if stored db t then Deleted t
      else if askable t then NotFound
      else Unaskable
  end.

(** How the handler ends on each outcome. *)
Definition delete_result (o : outcome) : result unit :=
  match o with
  | Unaskable => Raised OverflowError
  | _ => Returned tt
  end.

Definition answered (n : Telegram.notice) (w : World) : World :=
  with_outbox (fun o => o ++ [Telegram.Answer n]) w.

(** What each outcome leaves behind: the store, and the one answer. *)
Definition after_delete (o : outcome) (w : World) : World :=
  match o with
  | Deleted (ById record_id) =>
      answered (Telegram.MSG_DELETE_SUCCESS record_id)
        (with_db (without (db w) (ById record_id)) w)
  | Deleted (ByFileId file_id) =>
      answered Telegram.VOICE_RECORD_DELETED
        (with_db (without (db w) (ByFileId file_id)) w)
  | NotFound => answered Telegram.MSG_DELETE_NOT_FOUND w
  | Unresolvable => answered Telegram.DELETE_USAGE w
  | Unaskable => w
  end.

Definition edited (n : Telegram.notice) (w : World) : World :=
  with_outbox (fun o => o ++ [Telegram.EditText n]) w.

(** [w'] is [w] after a choice was taken: the store is [d], the prompt
    was rewritten to [n], and the session is closed with nothing kept.
    The timeout is left out: only one of the two dialogs has one. *)
Definition closed_with (n : Telegram.notice) (d : DB.Database) (w w' : World)
    : Prop :=
  env w' = env w
  /\ requests w' = requests w
  /\ db w' = d
  /\ outbox w' = outbox w ++ [Telegram.EditText n]
  /\ state w' = IDLE
  /\ user_data w' = no_data.

(** A run of digits somewhere in the text with characters after it,
    none of them a digit. *)
Definition digits_then_others (text : str) : Prop :=
  exists before digits others : str,
    text = before ++ digits ++ others
    /\ digits <> [] /\ forallb isdecimal digits = true
    /\ others <> [] /\ forallb (fun c => negb (isdecimal c)) others = true.

(** The prompt every attempt of [summarize text] sends. *)
Definition prompt_for (text : str) : Prompt :=
  {| Sys.template := PROMPT_SUMMARY_TEMPLATE;
     Sys.min_len := LLM.min_len text;
     Sys.max_len := LLM.max_len text;
     Sys.text := text |}.

(** The prompt every attempt of the prototype's [summarize text] sends. *)
Definition prototype_prompt_for (text : str) : Prompt :=
  {| Sys.template := PROTOTYPE_PROMPT;
     Sys.min_len := LLM.min_len text;
     Sys.max_len := LLM.max_len text;
     Sys.text := text |}.

(** Whether the active backend fails on its k-th request. *)
Definition backend_faults (self : LLM.LLMHandler) (e : Env) (k : nat)
    (prompt : Prompt) : bool :=
  if LLM.use_local self
  then match ollama e k prompt with RequestFault => true | _ => false end
  else match openai e k prompt with OpenAIFault => true | _ => false end.

(** Whether the answer to the k-th request is one the code cannot
    read: Ollama's only, since [_openai_call] catches every exception. *)
Definition backend_malformed (self : LLM.LLMHandler) (e : Env) (k : nat)
    (prompt : Prompt) : bool :=
  LLM.use_local self
  && match ollama e k prompt with OllamaMalformed => true | _ => false end.

(** What the active backend hands back on its k-th request, when it
    does not fail. *)
Definition backend_text (self : LLM.LLMHandler) (e : Env) (k : nat)
    (prompt : Prompt) : str :=
  if LLM.use_local self
  then match ollama e k prompt with
       | OllamaJson response => default [] response
       | _ => []
       end
  else match openai e k prompt with
       | Completion content => content
       | OpenAIFault => []
       end.

(** The world once [m] more requests for [prompt] are on record. *)
Definition after_requests (prompt : Prompt) (m : nat) (w : World) : World :=
  with_requests (fun l => l ++ repeat prompt m) w.

(** The summary the attempt made as request number [k] yields. *)
Definition attempt (self : LLM.LLMHandler) (text : str) (e : Env) (k : nat)
    : str :=
  let prompt := prompt_for text in
  strip (if backend_faults self e k prompt
         then LLM.APOLOGY
         else strip (backend_text self e k prompt)).

End Spec.

(** ** Sample inputs *)

Module Sample.

(** A backend and a transport that fail on every call. *)
Definition offline : Env :=
  {| ollama := fun _ _ => RequestFault;
     openai := fun _ _ => OpenAIFault;
     download := fun _ => None;
     transcribe_ogg_bytes := fun _ => None |}.

(** A bot that has just started on an empty table. *)
Definition fresh (e : Env) : World :=
  {| env := e; requests := []; db := DB.empty; outbox := [];
     state := IDLE; user_data := no_data; timeout_due := None |}.

Definition sender : Telegram.User :=
  {| Telegram.user_id := 7; Telegram.username := Some (lit "ann") |}.

(** A text message that replies to nothing. *)
Definition plain (text : string) : Telegram.Message :=
  {| Telegram.message_id := 1;
     Telegram.from_user := sender;
     Telegram.text := Some (lit text);
     Telegram.voice := None;
     Telegram.reply_to_message := None |}.

(** An Ollama that answers every request with JSON the code cannot
    read, such as [{"response": null}]. *)
Definition garbled : Env :=
  {| ollama := fun _ _ => OllamaMalformed;
     openai := fun _ _ => OpenAIFault;
     download := fun _ => Some [79; 103; 103; 83]%N;
     transcribe_ogg_bytes := fun _ => Some (lit "hello there") |}.

(** A transport that delivers the audio and a recogniser that hears
    [transcript] in it; the backend stays down. *)
Definition hears (transcript : str) : Env :=
  {| ollama := fun _ _ => RequestFault;
     openai := fun _ _ => OpenAIFault;
     download := fun _ => Some [79; 103; 103; 83]%N;
     transcribe_ogg_bytes := fun _ => Some transcript |}.

Definition voice_note : Telegram.Message :=
  {| Telegram.message_id := 2;
     Telegram.from_user := sender;
     Telegram.text := None;
     Telegram.voice := Some {| Telegram.file_id := lit "AwACAgIAAx" |};
     Telegram.reply_to_message := None |}.

Definition bot : Handlers.TelegramBot :=
  {| Handlers.llm := {| LLM.use_local := true; LLM.config := ∅ |} |}.

(** The table after one voice note was stored: record 1. *)
Definition one_record : World :=
  with_db
    (fst (DB.save_message DB.empty (lit "AwACAgIAAx") (lit "the whole talk")
            (lit "old summary") (lit "2025-05-01T10:00:00+00:00") 7
            (Some (lit "ann"))))
    (fresh offline).

(** A text sent in reply to the bot's message about record 1. *)
Definition reply_to_summary (text : string) : Telegram.Message :=
  {| Telegram.message_id := 3;
     Telegram.from_user := sender;
     Telegram.text := Some (lit text);
     Telegram.voice := None;
     Telegram.reply_to_message :=
       Some {| Telegram.reply_voice := None;
               Telegram.reply_text := Some (lit "#1 old summary") |} |}.

(** A recogniser that hears [transcript] and an Ollama that answers
    every request with [summary]. *)
Definition answers (transcript summary : str) : Env :=
  {| ollama := fun _ _ => OllamaJson (Some summary);
     openai := fun _ _ => OpenAIFault;
     download := fun _ => Some [79; 103; 103; 83]%N;
     transcribe_ogg_bytes := fun _ => Some transcript |}.

(** An Ollama that is down for the first request and answers every
    later one with [summary]. *)
Definition recovers (summary : str) : Env :=
  {| ollama := fun k _ =>
       match k with
       | O => RequestFault
       | S _ => OllamaJson (Some summary)
       end;
     openai := fun _ _ => OpenAIFault;
     download := fun _ => None;
     transcribe_ogg_bytes := fun _ => None |}.

(** The session that reply opens under python-telegram-bot at time 0. *)
Definition awaiting : World :=
  snd (Ptb.edit_handler 0
         (Handlers.TextReply (reply_to_summary "better summary")) one_record).

(** The reply, then the edit button 301 seconds later. *)
Definition late_choice : list (Z * Handlers.update) :=
  [ (0, Handlers.TextReply (reply_to_summary "better summary"));
    (301, Handlers.CallbackQuery (lit "edit")) ].

End Sample.

(** ** Listing the summaries of a day
       ([fetch_summaries_by_date], [on_sum_command]) *)

Module Listing.

(** [a <= b] for TEXT under the BINARY collation: the UTF-8 byte order,
    which is the order of the code points. *)
Fixpoint str_leb (a b : str) : bool :=
  match a, b with
  | [], _ => true
  | _ :: _, [] => false
  | x :: a', y :: b' =>
      if (x <? y)%N then true
      else if (x =? y)%N then str_leb a' b'
      else false
  end.

Definition earlier (r1 r2 : DB.Row) : Prop :=
  str_leb (DB.sent_at r1) (DB.sent_at r2) = true.

#[export] Instance earlier_dec : RelDecision earlier.
Proof. intros r1 r2. unfold earlier. apply _. Defined.

(** LIKE folds the case of ASCII letters and of nothing else. *)
Definition fold_case (c : char) : char :=
  if in_range 65 90 c then (c + 32)%N else c.

(** [s LIKE pattern]: [%] stands for any run of characters, [_] for
    any one character. *)
Fixpoint like (pattern s : str) {struct pattern} : bool :=
  match pattern with
  | [] => match s with [] => true | _ :: _ => false end
  | p :: rest =>
      if (p =? 37)%N
      then (fix from (s : str) : bool :=
              like rest s
              || match s with [] => false | _ :: s' => from s' end) s
      else match s with
           | [] => false
           | c :: s' =>
               ((p =? 95)%N || (fold_case p =? fold_case c)%N) && like rest s'
           end
  end.

(** How the engine carries out [ORDER BY sent_at ASC].  SQL leaves the
    order of rows with equal [sent_at] to the engine, so the sort is a
    parameter of what follows; [sorts] is all that is known of it. *)
Definition sorter : Type := list DB.Row -> list DB.Row.

Definition sorts (order_by_sent_at : sorter) : Prop :=
  forall l : list DB.Row,
    order_by_sent_at l ≡ₚ l /\ StronglySorted earlier (order_by_sent_at l).

(** [SELECT id, sent_at, summarized, note ... WHERE sent_at LIKE ?
    ORDER BY sent_at ASC] with the parameter [date_str + "%"]. *)
Definition fetch_summaries_by_date (order_by_sent_at : sorter)
    (db : DB.Database) (date_str : str)
    : list (Z * str * str * option str) :=
  (fun r => (DB.id r, DB.sent_at r, DB.summarized r, DB.note r)) <$>
    order_by_sent_at
      (List.filter (fun r => like (date_str ++ [37%N]) (DB.sent_at r))
         (DB.rows db)).

(** The two line templates of the listing. *)
Inductive line :=
| SUMMARY_FOR_DATE_LINE (sent_at : str) (record_id : Z) (summary : str)
| SUMMARY_FOR_DATE_NOTE (note : str).

(** What the command answers; a listing is sent as its lines joined
    by blank lines. *)
Inductive reply :=
| MSG_DATE_FORMAT_ERROR
| MSG_NO_SUMMARIES_FOR_DATE (date_str : str)
| LISTING (lines : list line).

(** [re.match(r"^\d{4}-\d{2}-\d{2}$", date_str)] *)
Definition is_date (date_str : str) : bool :=
  match before_final_newline date_str with
  | [y1; y2; y3; y4; dash1; m1; m2; dash2; d1; d2] =>
      isdecimal y1 && isdecimal y2 && isdecimal y3 && isdecimal y4
      && (dash1 =? 45)%N && isdecimal m1 && isdecimal m2
      && (dash2 =? 45)%N && isdecimal d1 && isdecimal d2
  | _ => false
  end.

(** The body of the loop over the fetched tuples. *)
Definition lines_of (record : Z * str * str * option str) : list line :=
  let '(record_id, sent_at, summary, note) := record in
  SUMMARY_FOR_DATE_LINE sent_at record_id summary ::
  match note with
  | Some (c :: n) => [SUMMARY_FOR_DATE_NOTE (c :: n)]
  | _ => []
  end.

(** From the fetch to the answer: shared by both variants. *)
Definition answer_for (order_by_sent_at : sorter) (db : DB.Database)
    (date_str : str) : reply :=
  match fetch_summaries_by_date order_by_sent_at db date_str with
  | [] => MSG_NO_SUMMARIES_FOR_DATE date_str
  | summaries => LISTING (summaries ≫= lines_of)
  end.

(** [parts = text.split(maxsplit=1)]: what follows the first word and
    the white space after it, when anything does. *)
Fixpoint after_word (s : str) : str :=
  match s with
  | c :: r => if isspace c then s else after_word r
  | [] => []
  end.

Definition second_part (text : str) : option str :=
  match lstrip (after_word (lstrip text)) with
  | [] => None
  | part => Some part
  end.

Module Ptb.

(** [today] is [datetime.datetime.now().date().isoformat()]. *)
Definition on_sum_command (order_by_sent_at : sorter) (db : DB.Database)
    (text today : str) : reply :=
  match second_part (strip text) with
  | Some date_str =>
      if is_date date_str then answer_for order_by_sent_at db date_str
      else MSG_DATE_FORMAT_ERROR
  | None => answer_for order_by_sent_at db today
  end.

End Ptb.

Module Aiogram.

(** [args] is [command.args]. *)
Definition on_sum_command (order_by_sent_at : sorter) (db : DB.Database)
    (args : option str) (today : str) : reply :=
  match args with
  | Some (c :: a) =>
      if is_date (c :: a) then answer_for order_by_sent_at db (c :: a)
      else MSG_DATE_FORMAT_ERROR
  | _ => answer_for order_by_sent_at db today
  end.

End Aiogram.

End Listing.

(** ** Texts the bot writes and reads back *)

Module Render.

Definition digit (d : Z) : char := Z.to_N (48 + d).

(** The decimal digits of [n >= 0], most significant first; [fuel]
    bounds the number of divisions. *)
Fixpoint decimal (fuel : nat) (n : Z) : str :=
  match fuel with
  | O => [digit (n mod 10)]
  | S f =>
      if n <? 10 then [digit n]
      else decimal f (n / 10) ++ [digit (n mod 10)]
  end.

(** [str(n)], which is how [format] writes an [int] field. *)
Definition str_of_int (n : Z) : str :=
  if n <? 0
  then 45%N :: decimal (Z.to_nat (Z.log2 (- n))) (- n)
  else decimal (Z.to_nat (Z.log2 n)) n.

(** [SUMMARY_REPLY_HEADER_TEMPLATE.format(record_id=..., summary=...)]:
    [#], the id, a line break, the heading and the fenced summary. *)
Definition SUMMARY_REPLY_HEADER (record_id : Z) (summary : str) : str :=
  [35%N] ++ str_of_int record_id
  ++ [10; 128204; 32; 1056; 1077; 1079; 1102; 1084; 1077; 58; 10;
      96; 96; 96; 10]%N
  ++ summary ++ [10; 96; 96; 96]%N.

(** A message sent in reply to a text message of the bot. *)
Definition reply_to (replied_text : str) (text : option str)
    : Telegram.Message :=
  {| Telegram.message_id := 4;
     Telegram.from_user := Sample.sender;
     Telegram.text := text;
     Telegram.voice := None;
     Telegram.reply_to_message :=
       Some {| Telegram.reply_voice := None;
               Telegram.reply_text := Some replied_text |} |}.

End Render.

(** ** Histories of the store *)

Module Trace.

Inductive op :=
| Save (file_id text summary sent_at : str) (user_id : Z)
       (username : option str)
| DeleteById (record_id : Z)
| DeleteByFileId (file_id : str)
| UpdateSummary (record_id : Z) (new_summary : str)
| AddNote (record_id : Z) (note : str).

Definition step (d : DB.Database) (o : op) : DB.Database :=
  match o with
  | Save file_id text summary sent_at user_id username =>
      fst (DB.save_message d file_id text summary sent_at user_id username)
  | DeleteById record_id => fst (DB.delete_record_by_id d record_id)
  | DeleteByFileId file_id =>
      fst (DB.delete_record_by_telegram_file_id d file_id)
  | UpdateSummary record_id new_summary =>
      fst (DB.update_summary d record_id new_summary)
  | AddNote record_id note => fst (DB.add_note_to_record d record_id note)
  end.

Definition run (ops : list op) (d : DB.Database) : DB.Database :=
  fold_left step ops d.

End Trace.

(** ** Further vocabulary of the statements *)

Module Terms.

(** Characters that LIKE takes literally: no wildcard, and equal
    after case folding to themselves only. *)
Definition literal (p : char) : Prop :=
  p <> 37%N /\ p <> 95%N
  /\ forall c : char, Listing.fold_case p = Listing.fold_case c <-> p = c.

(** The columns the listing selects. *)
Definition selected (r : DB.Row) : Z * str * str * option str :=
  (DB.id r, DB.sent_at r, DB.summarized r, DB.note r).

(** The records of the day [date_str], in table order. *)
Definition of_day (date_str : str) (db : DB.Database) : list DB.Row :=
  filter (fun r => date_str `prefix_of` DB.sent_at r) (DB.rows db).

(** Every id the table [d] has handed out still means in [d'] what it
    meant in [d]: a row of [d'] with such an id is a row [d] had, under
    the same file id. *)
Definition extends (d d' : DB.Database) : Prop :=
  DB.seq d <= DB.seq d'
  /\ forall r' : DB.Row,
       r' ∈ DB.rows d' -> DB.id r' <= DB.seq d ->
       exists r : DB.Row,
         r ∈ DB.rows d
         /\ DB.id r = DB.id r'
         /\ DB.telegram_file_id r = DB.telegram_file_id r'.

(** [w'] is [w] after a reply was turned away with the answer [n]: no
    session is open and the pending data is what it was. *)
Definition declined_with (n : Telegram.notice) (w w' : World) : Prop :=
  env w' = env w
  /\ requests w' = requests w
  /\ db w' = db w
  /\ outbox w' = outbox w ++ [Telegram.Answer n]
  /\ state w' = IDLE
  /\ user_data w' = user_data w.

(** [w'] is [w] after a session was opened for [record_id] with the
    text [text] pending. *)
Definition opened_for (record_id : Z) (text : option str) (w w' : World)
    : Prop :=
  env w' = env w
  /\ requests w' = requests w
  /\ db w' = db w
  /\ outbox w' = outbox w ++ [Telegram.Answer Telegram.MSG_EDIT_OR_ADD_NOTE_PROMPT]
  /\ state w' = AWAITING_CHOICE
  /\ user_data w' = {| Sys.record_id := Some record_id; Sys.new_text := text |}.

(** The lines of a text: [s.split("\n")]. *)
Fixpoint lines (s : str) : list str :=
  match s with
  | [] => [[]]
  | c :: r =>
      if (c =? 10)%N then [] :: lines r
      else match lines r with
           | l :: ls => (c :: l) :: ls
           | [] => [[c]]
           end
  end.

(** What the attempt the prototype makes as request number [k]
    yields: the backend's text stripped, or the error of the call. *)
Definition prototype_attempt (self : LLM.LLMHandler) (text : str) (e : Env)
    (k : nat) : result str :=
  let prompt := Spec.prototype_prompt_for text in
  if LLM.use_local self
  then match ollama e k prompt with
       | RequestFault => Raised RequestException
       | OllamaJson response => Returned (strip (strip (default [] response)))
       | OllamaMalformed => Raised AttributeError
       end
  else match openai e k prompt with
       | OpenAIFault => Raised OpenAIError
       | Completion content => Returned (strip (strip content))
       end.

(** Whether the target names the row. *)
Definition names (t : Spec.target) (r : DB.Row) : bool :=
  match t with
  | Spec.ById record_id => DB.has_id record_id r
  | Spec.ByFileId file_id => DB.has_file_id file_id r
  end.

(** The notice that confirms a deletion. *)
Definition confirmation (t : Spec.target) : Telegram.notice :=
  match t with
  | Spec.ById record_id => Telegram.MSG_DELETE_SUCCESS record_id
  | Spec.ByFileId _ => Telegram.VOICE_RECORD_DELETED
  end.

End Terms.

Import Terms.

(** * Properties *)

(** ** Running a computation *)

Lemma bind_run {A B : Type} (m : io A) (f : A -> io B) (w : World) :
  (m ≫= f) w
  = match m w with
    | (Returned a, w') => f a w'
    | (Raised e, w') => (Raised e, w')
    end.
Proof. reflexivity. Qed.

(** One step of a handler that starts by reading the world. *)
Ltac run_gets := rewrite bind_run; unfold gets; cbv beta iota.

(** ** Running the summariser *)

Lemma after_requests_env prompt m w :
  env (Spec.after_requests prompt m w) = env w.
Proof. reflexivity. Qed.

Lemma after_requests_length prompt m w :
  length (requests (Spec.after_requests prompt m w)) = (length (requests w) + m)%nat.
Proof.
  unfold Spec.after_requests; simpl.
  rewrite length_app, repeat_length. reflexivity.
Qed.

Lemma after_requests_more prompt m w :
  Spec.after_requests prompt m (Spec.after_requests prompt 1 w)
  = Spec.after_requests prompt (S m) w.
Proof.
  unfold Spec.after_requests, with_requests; simpl.
  rewrite <- app_assoc. reflexivity.
Qed.

(** One attempt: a single request is put on record, and the summary is
    the backend's text, or the apology when the backend fails; an
    answer the code cannot read ends the attempt with [AttributeError]. *)
Lemma generate_run self text w :
  LLM._generate self text w
  = (if Spec.backend_malformed self (env w) (length (requests w))
          (Spec.prompt_for text)
     then Raised AttributeError
     else Returned (Spec.attempt self text (env w) (length (requests w))),
     Spec.after_requests (Spec.prompt_for text) 1 w).
Proof.
  unfold LLM._generate, Spec.attempt, Spec.backend_faults, Spec.backend_text,
    Spec.backend_malformed.
  unfold mbind, io_bind.
  destruct (LLM.use_local self); cbn [andb].
  - unfold LLM._ollama_call, try_except, mbind, io_bind, LLM.post_ollama; simpl.
    fold (Spec.prompt_for text).
    destruct (ollama (env w) (length (requests w)) (Spec.prompt_for text));
      reflexivity.
  - unfold LLM._openai_call, try_except, mbind, io_bind, LLM.create_openai; simpl.
    fold (Spec.prompt_for text).
    destruct (openai (env w) (length (requests w)) (Spec.prompt_for text));
      reflexivity.
Qed.

Lemma attempts_step self text n last w :
  LLM.attempts self text (S n) last w
  = match LLM._generate self text w with
    | (Returned s, w') =>
        if LLM.accepted self text (len s)
        then (Returned (Some s), w')
        else LLM.attempts self text n (Some s) w'
    | (Raised e, w') => (Raised e, w')
    end.
Proof.
  cbn [LLM.attempts]. unfold mbind, io_bind.
  destruct (LLM._generate self text w) as [[s|e] w']; [|reflexivity].
  destruct (LLM.accepted self text (len s)); reflexivity.
Qed.

(** The loop, run for [S n] iterations: it stops at some attempt [j],
    every earlier one having been read and rejected; the answer to [j]
    cannot be read and the loop raises, or [j] is accepted or the
    last. *)
Lemma attempts_run self text n : forall w last,
  exists j : nat,
    (j <= n)%nat
    /\ (forall i : nat, (i < j)%nat ->
          Spec.backend_malformed self (env w) (length (requests w) + i)
            (Spec.prompt_for text) = false
          /\ LLM.accepted self text
               (len (Spec.attempt self text (env w) (length (requests w) + i)))
             = false)
    /\ ((Spec.backend_malformed self (env w) (length (requests w) + j)
           (Spec.prompt_for text) = true
         /\ LLM.attempts self text (S n) last w
            = (Raised AttributeError,
               Spec.after_requests (Spec.prompt_for text) (S j) w))
        \/ (Spec.backend_malformed self (env w) (length (requests w) + j)
              (Spec.prompt_for text) = false
            /\ LLM.attempts self text (S n) last w
               = (Returned (Some (Spec.attempt self text (env w)
                                    (length (requests w) + j))),
                  Spec.after_requests (Spec.prompt_for text) (S j) w)
            /\ (LLM.accepted self text
                  (len (Spec.attempt self text (env w)
                          (length (requests w) + j)))
                = true
                \/ j = n))).
Proof.
  induction n as [|n IH]; intros w last.
  - exists 0%nat. rewrite Nat.add_0_r.
    split; [lia|]. split; [intros i Hi; lia|].
    rewrite attempts_step, generate_run.
    destruct (Spec.backend_malformed _ _ _ _); [left; split; reflexivity|].
    right. split; [reflexivity|].
    destruct (LLM.accepted _ _ _); split; auto.
  - rewrite attempts_step, generate_run.
    destruct (Spec.backend_malformed self (env w) (length (requests w))
                (Spec.prompt_for text)) eqn:Hbad.
    { exists 0%nat. rewrite Nat.add_0_r.
      split; [lia|]. split; [intros i Hi; lia|].
      left. split; [exact Hbad | reflexivity]. }
    destruct (LLM.accepted self text
                (len (Spec.attempt self text (env w) (length (requests w)))))
      eqn:Hacc.
    + exists 0%nat. rewrite Nat.add_0_r.
      split; [lia|]. split; [intros i Hi; lia|].
      right. split; [exact Hbad|]. split; [reflexivity | left; exact Hacc].
    + destruct (IH (Spec.after_requests (Spec.prompt_for text) 1 w)
                  (Some (Spec.attempt self text (env w) (length (requests w)))))
        as (j & Hj & Hrej & Hlast).
      rewrite after_requests_env, after_requests_length in *.
      exists (S j).
      replace (length (requests w) + S j)%nat
        with (length (requests w) + 1 + j)%nat by lia.
      split; [lia|]. split.
      * intros i Hi. destruct i as [|i].
        -- rewrite Nat.add_0_r. split; [exact Hbad | exact Hacc].
        -- replace (length (requests w) + S i)%nat
             with (length (requests w) + 1 + i)%nat by lia.
           apply Hrej. lia.
      * destruct Hlast as [[Hb Hrun] | (Hb & Hrun & Hlast)].
        -- left. split; [exact Hb|].
           rewrite Hrun, after_requests_more. reflexivity.
        -- right. split; [exact Hb|]. split.
           ++ rewrite Hrun, after_requests_more. reflexivity.
           ++ destruct Hlast as [Hok | ->];
                [left; exact Hok | right; reflexivity].
Qed.

Lemma max_tries_pos self : 1 <= LLM.max_tries self.
Proof. unfold LLM.max_tries. lia. Qed.

(** [summarize] as a whole: after exactly [j + 1] requests, with every
    earlier attempt read and rejected, it raises because the answer to
    attempt [j] cannot be read, or it returns the summary of attempt
    [j], which was accepted or was the last one allowed. *)
Lemma summarize_run self text w :
  exists j : nat,
    (S j <= Z.to_nat (LLM.max_tries self))%nat
    /\ (forall i : nat, (i < j)%nat ->
          Spec.backend_malformed self (env w) (length (requests w) + i)
            (Spec.prompt_for text) = false
          /\ LLM.accepted self text
               (len (Spec.attempt self text (env w) (length (requests w) + i)))
             = false)
    /\ ((Spec.backend_malformed self (env w) (length (requests w) + j)
           (Spec.prompt_for text) = true
         /\ LLM.summarize self text w
            = (Raised AttributeError,
               Spec.after_requests (Spec.prompt_for text) (S j) w))
        \/ (Spec.backend_malformed self (env w) (length (requests w) + j)
              (Spec.prompt_for text) = false
            /\ LLM.summarize self text w
               = (Returned (Spec.attempt self text (env w)
                              (length (requests w) + j)),
                  Spec.after_requests (Spec.prompt_for text) (S j) w)
            /\ (LLM.accepted self text
                  (len (Spec.attempt self text (env w)
                          (length (requests w) + j)))
                = true
                \/ S j = Z.to_nat (LLM.max_tries self)))).
Proof.
  pose proof (max_tries_pos self) as Hpos.
  destruct (Z.to_nat (LLM.max_tries self)) as [|n] eqn:Hn; [lia|].
  destruct (attempts_run self text n w None) as (j & Hj & Hrej & Hlast).
  exists j. split; [lia|]. split; [exact Hrej|].
  unfold LLM.summarize, mbind, io_bind. rewrite Hn.
  destruct Hlast as [[Hb Hrun] | (Hb & Hrun & Hlast)].
  - left. split; [exact Hb|]. rewrite Hrun. reflexivity.
  - right. split; [exact Hb|]. split; [rewrite Hrun; reflexivity|].
    destruct Hlast as [Hok | ->]; [left; exact Hok | right; reflexivity].
Qed.

(** Whatever the outcome, the requests made are on record. *)
Lemma summarize_requests self text w :
  exists j : nat,
    (S j <= Z.to_nat (LLM.max_tries self))%nat
    /\ snd (LLM.summarize self text w)
       = Spec.after_requests (Spec.prompt_for text) (S j) w.
Proof.
  destruct (summarize_run self text w)
    as (j & Hj & _ & [[_ Hrun] | (_ & Hrun & _)]);
    exists j; (split; [exact Hj|]); rewrite Hrun; reflexivity.
Qed.

(** ** The summary window *)

(** C1. For a text of [n] characters [summarize] works with the window
    [150, 250] when [n < 500] and [max(150, n // 5), n // 3] otherwise
    (so 100 gives [150, 250] and 3000 gives [600, 1000]), and every
    request it makes asks for exactly that window. *)
Theorem summarize_window (self : LLM.LLMHandler) (text : str) (w : World) :
  let n := len text in
  let window := (LLM.min_len text, LLM.max_len text) in
  (n < 500 -> window = (150, 250))
  /\ (500 <= n -> window = (Z.max 150 (n / 5), n / 3))
  /\ (n = 100 -> window = (150, 250))
  /\ (n = 3000 -> window = (600, 1000))
  /\ exists m : nat,
       (1 <= m)%nat
       /\ requests (snd (LLM.summarize self text w))
          = requests w ++
            repeat {| Sys.template := PROMPT_SUMMARY_TEMPLATE;
                      Sys.min_len := fst window; Sys.max_len := snd window;
                      Sys.text := text |} m.
Proof.
  intros n window.
  assert (Hw : window = LLM.bounds n).
  { subst window n. unfold LLM.min_len, LLM.max_len.
    destruct (LLM.bounds (len text)); reflexivity. }
  repeat split.
  - intros Hn. rewrite Hw. unfold LLM.bounds.
    destruct (Z.ltb_spec n 500); [reflexivity | lia].
  - intros Hn. rewrite Hw. unfold LLM.bounds.
    destruct (Z.ltb_spec n 500); [lia | reflexivity].
  - intros Hn. rewrite Hw, Hn. reflexivity.
  - intros Hn. rewrite Hw, Hn. reflexivity.
  - destruct (summarize_requests self text w) as (j & _ & Hrun).
    exists (S j). split; [lia|]. rewrite Hrun. reflexivity.
Qed.

(** ** The retry loop *)


(** ** Backend failures *)

Lemma strip_apology : strip LLM.APOLOGY = LLM.APOLOGY.
Proof. vm_compute. reflexivity. Qed.

Lemma attempt_of_fault self text e k :
  Spec.backend_faults self e k (Spec.prompt_for text) = true ->
  Spec.attempt self text e k = LLM.APOLOGY.
Proof.
  intros Hf. unfold Spec.attempt. rewrite Hf. apply strip_apology.
Qed.

Lemma fault_is_readable self text e k :
  Spec.backend_faults self e k (Spec.prompt_for text) = true ->
  Spec.backend_malformed self e k (Spec.prompt_for text) = false.
Proof.
  unfold Spec.backend_faults, Spec.backend_malformed.
  destruct (LLM.use_local self); [|reflexivity].
  destruct (ollama e k (Spec.prompt_for text)); try discriminate; reflexivity.
Qed.

Lemma openai_is_readable self k e prompt :
  LLM.use_local self = false ->
  Spec.backend_malformed self e k prompt = false.
Proof. intros Hcloud. unfold Spec.backend_malformed. rewrite Hcloud. reflexivity. Qed.

(** C3, where the code departs from it.  [_openai_call] catches every
    exception, [_ollama_call] only [RequestException]: with the local
    backend, an answer that arrives but is not a JSON object with a
    string under ["response"] raises [AttributeError], and the error
    leaves [summarize] at once, after that one request.  With the cloud
    backend [summarize] returns whatever happens. *)
Theorem unreadable_answer_leaves_summarize (self : LLM.LLMHandler) (text : str)
    (w : World) :
  LLM.use_local self = true ->
  ollama (env w) (length (requests w)) (Spec.prompt_for text) = OllamaMalformed ->
  LLM.summarize self text w
  = (Raised AttributeError, Spec.after_requests (Spec.prompt_for text) 1 w)
  /\ forall cloud : LLM.LLMHandler,
       LLM.use_local cloud = false ->
       exists (s : str) (w' : World),
         LLM.summarize cloud text w = (Returned s, w').
Proof.
  intros Hlocal Hanswer. split.
  - assert (Hbad : Spec.backend_malformed self (env w) (length (requests w))
                     (Spec.prompt_for text) = true).
    { unfold Spec.backend_malformed. rewrite Hlocal, Hanswer. reflexivity. }
    destruct (summarize_run self text w) as (j & _ & Hrej & Hlast).
    destruct j as [|j].
    + rewrite Nat.add_0_r in Hlast.
      destruct Hlast as [[_ Hrun] | (Hb & _)]; [exact Hrun | congruence].
    + destruct (Hrej 0%nat ltac:(lia)) as [Hb _].
      rewrite Nat.add_0_r in Hb. congruence.
  - intros cloud Hcloud.
    destruct (summarize_run cloud text w) as (j & _ & _ & Hlast).
    destruct Hlast as [[Hb _] | (_ & Hrun & _)].
    + rewrite (openai_is_readable cloud _ _ _ Hcloud) in Hb. discriminate.
    + eauto.
Qed.

Lemma unreadable_answer_leaves_summarize_witness :
  LLM.summarize (Handlers.llm Sample.bot) (lit "hello there")
    (Sample.fresh Sample.garbled)
  = (Raised AttributeError,
     Spec.after_requests (Spec.prompt_for (lit "hello there")) 1
       (Sample.fresh Sample.garbled)).
Proof.
  refine (proj1 (unreadable_answer_leaves_summarize (Handlers.llm Sample.bot)
                   (lit "hello there") (Sample.fresh Sample.garbled) _ _));
    reflexivity.
Defined.

(** ** The record store *)

Lemma rowcount_positive hit db :
  (0 <? DB.rowcount hit db) = true
  <-> exists r : DB.Row, r ∈ DB.rows db /\ hit r = true.
Proof.
  unfold DB.rowcount. destruct db as [rows sq]; cbn [DB.rows].
  induction rows as [|r rows IH]; cbn [List.filter].
  - split; [discriminate|]. intros (r & Hin & _). inversion Hin.
  - destruct (hit r) eqn:Hr.
    + split; [|intros _; cbn [length]; apply Z.ltb_lt; lia].
      intros _. exists r. split; [left|exact Hr].
    + rewrite IH. split.
      * intros (x & Hin & Hx). exists x. split; [right; exact Hin | exact Hx].
      * intros (x & Hin & Hx). inversion Hin; subst; [congruence|].
        exists x. split; assumption.
Qed.

Lemma has_id_true record_id r : DB.has_id record_id r = true <-> DB.id r = record_id.
Proof. unfold DB.has_id. apply Z.eqb_eq. Qed.

Lemma rowcount_present db record_id :
  (0 <? DB.rowcount (DB.has_id record_id) db) = true <-> Spec.present db record_id.
Proof.
  rewrite rowcount_positive. unfold Spec.present.
  split; intros (r & Hin & Hr); exists r; (split; [exact Hin|]);
    apply has_id_true; exact Hr.
Qed.

Lemma update_where_lookup hit set db i :
  DB.rows (DB.update_where hit set db) !! i
  = (fun r => if hit r then set r else r) <$> (DB.rows db !! i).
Proof.
  unfold DB.update_where; cbn [DB.rows].
  change (List.map ?f ?l) with (f <$> l). apply list_lookup_fmap.
Qed.


Lemma update_where_miss hit set db :
  (0 <? DB.rowcount hit db) = false -> DB.update_where hit set db = db.
Proof.
  intros Hnone. destruct db as [rows sq]. unfold DB.update_where; cbn [DB.rows DB.seq].
  f_equal. apply not_true_iff_false in Hnone. rewrite rowcount_positive in Hnone.
  cbn [DB.rows] in Hnone.
  induction rows as [|r rows IH]; [reflexivity|]. cbn [List.map].
  destruct (hit r) eqn:Hr.
  - exfalso. apply Hnone. exists r. split; [left | exact Hr].
  - f_equal. apply IH. intros (x & Hin & Hx). apply Hnone.
    exists x. split; [right; exact Hin | exact Hx].
Qed.


(** *** The invariant of the table *)

Lemma wf_empty : DB.wf DB.empty.
Proof.
  split; cbn; [constructor | constructor | constructor | lia].
Qed.

Lemma find_file_id_some file_id (l : list DB.Row) r :
  List.find (DB.has_file_id file_id) l = Some r ->
  r ∈ l /\ DB.telegram_file_id r = file_id.
Proof.
  intros Hf. apply List.find_some in Hf as [Hin Hhit].
  split; [apply list_elem_of_In; exact Hin|].
  unfold DB.has_file_id in Hhit. apply bool_decide_eq_true in Hhit. exact Hhit.
Qed.

Lemma find_file_id_none file_id (l : list DB.Row) :
  List.find (DB.has_file_id file_id) l = None ->
  forall r : DB.Row, r ∈ l -> DB.telegram_file_id r <> file_id.
Proof.
  intros Hf r Hin Heq. apply list_elem_of_In in Hin.
  pose proof (List.find_none _ _ Hf r Hin) as Hhit.
  unfold DB.has_file_id in Hhit. apply bool_decide_eq_false in Hhit.
  contradiction.
Qed.

(** An update that keeps [id] and [telegram_file_id] keeps the keys of
    the table. *)
Lemma update_where_keys hit set db :
  (forall r, DB.id (set r) = DB.id r) ->
  (forall r, DB.telegram_file_id (set r) = DB.telegram_file_id r) ->
  DB.id <$> DB.rows (DB.update_where hit set db) = DB.id <$> DB.rows db
  /\ DB.telegram_file_id <$> DB.rows (DB.update_where hit set db)
     = DB.telegram_file_id <$> DB.rows db.
Proof.
  intros Hid Hfid. unfold DB.update_where; cbn [DB.rows].
  induction (DB.rows db) as [|r l [IH1 IH2]]; [split; reflexivity|].
  cbn [List.map fmap list_fmap] in *.
  split; (f_equal; [destruct (hit r); auto | assumption]).
Qed.

Lemma update_where_wf hit set db :
  (forall r, DB.id (set r) = DB.id r) ->
  (forall r, DB.telegram_file_id (set r) = DB.telegram_file_id r) ->
  DB.wf db -> DB.wf (DB.update_where hit set db).
Proof.
  intros Hid Hfid [Hids Hfids Hseq Hnn].
  destruct (update_where_keys hit set db Hid Hfid) as [Hk1 Hk2].
  split.
  - rewrite Hk1. exact Hids.
  - rewrite Hk2. exact Hfids.
  - unfold DB.update_where; cbn [DB.rows DB.seq].
    change (List.map ?f ?l) with (f <$> l). apply Forall_fmap.
    eapply Forall_impl; [exact Hseq|]. intros r Hr. cbn.
    destruct (hit r); [rewrite Hid|]; exact Hr.
  - exact Hnn.
Qed.

Lemma NoDup_fmap_filter {A B : Type} (f : A -> B) (keep : A -> bool) (l : list A) :
  NoDup (f <$> l) -> NoDup (f <$> List.filter keep l).
Proof.
  induction l as [|a l IH]; intros Hnd; [constructor|].
  cbn [fmap list_fmap] in Hnd. inversion Hnd as [|? ? Hnot Hrest]; subst.
  cbn [List.filter]. destruct (keep a); [|apply IH; exact Hrest].
  cbn [fmap list_fmap]. constructor; [|apply IH; exact Hrest].
  intros Hin. apply Hnot. apply list_elem_of_fmap in Hin as (x & Hx & Hxin).
  apply list_elem_of_fmap. exists x. split; [exact Hx|].
  apply list_elem_of_In. apply list_elem_of_In in Hxin.
  apply List.filter_In in Hxin. tauto.
Qed.

Lemma delete_where_wf hit db : DB.wf db -> DB.wf (DB.delete_where hit db).
Proof.
  intros [Hids Hfids Hseq Hnn].
  unfold DB.delete_where. split; cbn [DB.rows DB.seq]; [| | |exact Hnn].
  - apply NoDup_fmap_filter. exact Hids.
  - apply NoDup_fmap_filter. exact Hfids.
  - rewrite Forall_forall in *. intros r Hin. apply Hseq.
    apply list_elem_of_In. apply list_elem_of_In in Hin.
    apply List.filter_In in Hin. tauto.
Qed.

(** Using up an id keeps the table well formed. *)
Lemma wf_next_id (d : DB.Database) :
  DB.wf d -> DB.wf {| DB.rows := DB.rows d; DB.seq := DB.seq d + 1 |}.
Proof.
  intros [Hids Hfids Hseq Hnn]. split; cbn [DB.rows DB.seq]; try assumption.
  - eapply Forall_impl; [exact Hseq|]. cbn. intros r Hr. lia.
  - lia.
Qed.

Lemma save_message_wf db file_id text summary sent_at user_id username :
  DB.wf db ->
  DB.wf (fst (DB.save_message db file_id text summary sent_at user_id username)).
Proof.
  intros Hwf. unfold DB.save_message.
  destruct (List.find (DB.has_file_id file_id) (DB.rows db)) as [old|] eqn:Hfind;
    cbn [fst].
  - apply (wf_next_id (DB.update_where _ _ db)).
    apply update_where_wf; [reflexivity | reflexivity | exact Hwf].
  - destruct Hwf as [Hids Hfids Hseq Hnn].
    pose proof (find_file_id_none _ _ Hfind) as Hfresh.
    split; cbn [DB.rows DB.seq].
    + rewrite fmap_app. apply NoDup_app. split; [exact Hids|]. split.
      * intros x Hx Hin. cbn in Hin. apply list_elem_of_singleton in Hin. subst x.
        apply list_elem_of_fmap in Hx as (r & Hr & Hrin).
        rewrite Forall_forall in Hseq. specialize (Hseq r Hrin). lia.
      * cbn. apply NoDup_singleton.
    + rewrite fmap_app. apply NoDup_app. split; [exact Hfids|]. split.
      * intros x Hx Hin. cbn in Hin. apply list_elem_of_singleton in Hin. subst x.
        apply list_elem_of_fmap in Hx as (r & Hr & Hrin).
        apply (Hfresh r Hrin). symmetry. exact Hr.
      * cbn. apply NoDup_singleton.
    + apply Forall_app. split.
      * eapply Forall_impl; [exact Hseq|]. cbn. intros r Hr. lia.
      * constructor; [cbn; lia | constructor].
    + lia.
Qed.

(** *** The upsert *)

(** With unique file ids, the conflict update rewrites one position. *)
Lemma update_at_file_id file_id set (l : list DB.Row) i r :
  NoDup (DB.telegram_file_id <$> l) ->
  l !! i = Some r ->
  DB.telegram_file_id r = file_id ->
  List.map (fun x => if DB.has_file_id file_id x then set x else x) l
  = <[i := set r]> l.
Proof.
  intros Hnd Hi Hr. change (List.map ?f ?l) with (f <$> l).
  apply list_eq. intros j. rewrite list_lookup_fmap.
  destruct (decide (i = j)) as [<-|Hne].
  - rewrite list_lookup_insert_eq by (eapply lookup_lt_Some; exact Hi).
    rewrite Hi. cbn. unfold DB.has_file_id.
    rewrite bool_decide_true by exact Hr. reflexivity.
  - rewrite list_lookup_insert_ne by exact Hne.
    destruct (l !! j) as [x|] eqn:Hj; [|reflexivity]. cbn.
    unfold DB.has_file_id. destruct (bool_decide_reflect (DB.telegram_file_id x = file_id)) as [Hx|];
      [|reflexivity].
    exfalso. apply Hne.
    apply (NoDup_lookup (DB.telegram_file_id <$> l) i j file_id Hnd).
    + rewrite list_lookup_fmap, Hi. cbn. congruence.
    + rewrite list_lookup_fmap, Hj. cbn. congruence.
Qed.

Lemma one_row_per_file_id file_id (l : list DB.Row) i r :
  NoDup (DB.telegram_file_id <$> l) ->
  l !! i = Some r ->
  DB.telegram_file_id r = file_id ->
  List.filter (DB.has_file_id file_id) l = [r].
Proof.
  revert i. induction l as [|x l IH]; intros i Hnd Hi Hr; [discriminate|].
  cbn [fmap list_fmap] in Hnd. apply NoDup_cons in Hnd as [Hnot Hrest].
  cbn [List.filter]. destruct i as [|i]; cbn in Hi.
  - injection Hi as ->. unfold DB.has_file_id at 1.
    rewrite bool_decide_true by exact Hr. f_equal.
    clear IH Hrest. induction l as [|y l IHl]; [reflexivity|].
    cbn [List.filter]. unfold DB.has_file_id at 1.
    rewrite bool_decide_false.
    + apply IHl. intros Hin. apply Hnot. cbn [fmap list_fmap]. right. exact Hin.
    + intros Hy. apply Hnot. cbn [fmap list_fmap]. rewrite Hr, <- Hy. left.
  - unfold DB.has_file_id at 1. rewrite bool_decide_false.
    + eapply IH; eauto.
    + intros Hx. apply Hnot. rewrite Hx, <- Hr.
      apply list_elem_of_fmap_2. eapply list_elem_of_lookup_2. exact Hi.
Qed.

(** After a persist the table holds a row for the file id, and the
    call returned that row's id. *)
Lemma save_message_stored db file_id text summary sent_at user_id username :
  let saved := DB.save_message db file_id text summary sent_at user_id username in
  exists (i : nat) (r : DB.Row),
    DB.rows (fst saved) !! i = Some r
    /\ DB.id r = snd saved
    /\ DB.telegram_file_id r = file_id.
Proof.
  cbv zeta. unfold DB.save_message.
  destruct (List.find (DB.has_file_id file_id) (DB.rows db)) as [old|] eqn:Hfind;
    cbn [fst snd DB.rows].
  - destruct (find_file_id_some _ _ _ Hfind) as [Hin Hfid].
    apply list_elem_of_lookup_1 in Hin as [i Hi].
    exists i. eexists. rewrite update_where_lookup, Hi. cbn.
    split; [reflexivity|]. unfold DB.has_file_id.
    rewrite bool_decide_true by exact Hfid. cbn. split; [reflexivity | exact Hfid].
  - exists (length (DB.rows db)). eexists. cbn [DB.rows].
    rewrite lookup_app_r by lia. rewrite Nat.sub_diag. cbn.
    split; [reflexivity|]. split; reflexivity.
Qed.

(** X23. In the package, persisting twice under one
    [telegram_file_id], whatever the other arguments: the second call
    returns the id the first one returned, the table then holds exactly one row with that file id,
    and that row sits where it sat, with its [id], [telegram_file_id]
    and [note] kept and its text, summary, timestamp and author
    columns replaced by the second call's; no row is added and no
    other row changes. *)
Theorem save_message_upserts (db : DB.Database) (file_id : str)
    (text1 summary1 sent_at1 : str) (user_id1 : Z) (username1 : option str)
    (text2 summary2 sent_at2 : str) (user_id2 : Z) (username2 : option str) :
  DB.wf db ->
  let first :=
    DB.save_message db file_id text1 summary1 sent_at1 user_id1 username1 in
  let second :=
    DB.save_message (fst first) file_id text2 summary2 sent_at2 user_id2
      username2 in
  snd second = snd first
  /\ DB.wf (fst second)
  /\ (exists r : DB.Row,
        List.filter (DB.has_file_id file_id) (DB.rows (fst second)) = [r])
  /\ exists (i : nat) (old : DB.Row),
       DB.rows (fst first) !! i = Some old
       /\ DB.id old = snd first
       /\ DB.telegram_file_id old = file_id
       /\ DB.rows (fst second)
          = <[i := {| DB.id := snd first;
                      DB.telegram_file_id := file_id;
                      DB.text := text2;
                      DB.summarized := summary2;
                      DB.note := DB.note old;
                      DB.sent_at := sent_at2;
                      DB.user_id := user_id2;
                      DB.username := username2 |}]> (DB.rows (fst first)).
Proof.
  intros Hwf first second.
  pose proof (save_message_wf db file_id text1 summary1 sent_at1 user_id1
                username1 Hwf) as Hwf1.
  fold first in Hwf1.
  destruct (save_message_stored db file_id text1 summary1 sent_at1 user_id1
              username1) as (i & old & Hi & Hid & Hfid).
  fold first in Hi, Hid.
  assert (Hfind : List.find (DB.has_file_id file_id) (DB.rows (fst first))
                  = Some old).
  { destruct (List.find (DB.has_file_id file_id) (DB.rows (fst first)))
      as [x|] eqn:Hx.
    - destruct (find_file_id_some _ _ _ Hx) as [Hin Hxf].
      apply list_elem_of_lookup_1 in Hin as [j Hj].
      assert (i = j) as <-.
      { apply (NoDup_lookup (DB.telegram_file_id <$> DB.rows (fst first)) i j
                 file_id (DB.wf_file_ids _ Hwf1)).
        - rewrite list_lookup_fmap, Hi. cbn. congruence.
        - rewrite list_lookup_fmap, Hj. cbn. congruence. }
      congruence.
    - exfalso. apply (find_file_id_none _ _ Hx old); [|exact Hfid].
      eapply list_elem_of_lookup_2. exact Hi. }
  assert (Hrows : DB.rows (fst second)
                  = <[i := DB.set_excluded text2 summary2 sent_at2 user_id2
                             username2 old]> (DB.rows (fst first))).
  { subst second. unfold DB.save_message. rewrite Hfind. cbn [fst].
    unfold DB.update_where; cbn [DB.rows].
    apply update_at_file_id; [apply (DB.wf_file_ids _ Hwf1) | exact Hi | exact Hfid]. }
  assert (Hwf2 : DB.wf (fst second)) by (apply save_message_wf; exact Hwf1).
  split.
  { subst second. unfold DB.save_message. rewrite Hfind. cbn [snd]. exact Hid. }
  split; [exact Hwf2|]. split.
  { eexists. eapply (one_row_per_file_id file_id _ i).
    - apply (DB.wf_file_ids _ Hwf2).
    - rewrite Hrows. apply list_lookup_insert_eq. eapply lookup_lt_Some. exact Hi.
    - cbn. exact Hfid. }
  exists i, old. split; [exact Hi|]. split; [exact Hid|]. split; [exact Hfid|].
  rewrite Hrows. unfold DB.set_excluded. rewrite Hid, Hfid. reflexivity.
Qed.

Lemma save_message_upserts_witness :
  let first :=
    DB.save_message DB.empty (lit "AwACAgIAAx") (lit "first take") (lit "one")
      (lit "2025-05-01T10:00:00+00:00") 7 (Some (lit "ann")) in
  let second :=
    DB.save_message (fst first) (lit "AwACAgIAAx") (lit "second take")
      (lit "two") (lit "2025-05-01T10:05:00+00:00") 8 None in
  snd second = snd first
  /\ DB.wf (fst second)
  /\ (exists r : DB.Row,
        List.filter (DB.has_file_id (lit "AwACAgIAAx")) (DB.rows (fst second)) = [r])
  /\ exists (i : nat) (old : DB.Row),
       DB.rows (fst first) !! i = Some old
       /\ DB.id old = snd first
       /\ DB.telegram_file_id old = lit "AwACAgIAAx"
       /\ DB.rows (fst second)
          = <[i := {| DB.id := snd first;
                      DB.telegram_file_id := lit "AwACAgIAAx";
                      DB.text := lit "second take";
                      DB.summarized := lit "two";
                      DB.note := DB.note old;
                      DB.sent_at := lit "2025-05-01T10:05:00+00:00";
                      DB.user_id := 8;
                      DB.username := None |}]> (DB.rows (fst first)).
Proof.
  apply (save_message_upserts DB.empty (lit "AwACAgIAAx")). exact wf_empty.
Defined.

(** ** Resolving the record to delete *)

Lemma with_db_same w : with_db (db w) w = w.
Proof. destruct w; reflexivity. Qed.

Lemma rowcount_existsb hit d :
  (0 <? DB.rowcount hit d) = existsb hit (DB.rows d).
Proof.
  unfold DB.rowcount. induction (DB.rows d) as [|r l IH]; [reflexivity|].
  cbn [List.filter existsb]. destruct (hit r); [|exact IH].
  cbn [length orb]. apply Z.ltb_lt. lia.
Qed.

Lemma delete_where_miss hit d :
  existsb hit (DB.rows d) = false -> DB.delete_where hit d = d.
Proof.
  destruct d as [rows sq]. unfold DB.delete_where; cbn [DB.rows DB.seq].
  intros Hnone. f_equal. induction rows as [|r l IH]; [reflexivity|].
  cbn [existsb] in Hnone. apply orb_false_iff in Hnone as [Hr Hl].
  cbn [List.filter]. rewrite Hr. cbn [negb]. f_equal. apply IH. exact Hl.
Qed.

Lemma delete_by_id_run record_id w :
  let o :=
    if Spec.stored (db w) (Spec.ById record_id)
    then Spec.Deleted (Spec.ById record_id)
    else if Spec.askable (Spec.ById record_id) then Spec.NotFound
    else Spec.Unaskable in
  Handlers.delete_by_id record_id w
  = (Spec.delete_result o, Spec.after_delete o w).
Proof.
  cbv zeta.
  unfold Handlers.delete_by_id, mbind, io_bind, try_db, DB.delete_record_by_id.
  cbn [Spec.stored Spec.askable].
  destruct (fits_int64 record_id); cbn [andb].
  - rewrite rowcount_existsb.
    destruct (existsb (DB.has_id record_id) (DB.rows (db w))) eqn:Hhit.
    + reflexivity.
    + rewrite (delete_where_miss _ _ Hhit), with_db_same. reflexivity.
  - rewrite with_db_same. reflexivity.
Qed.

Lemma delete_by_file_id_run file_id w :
  let o :=
    if Spec.stored (db w) (Spec.ByFileId file_id)
    then Spec.Deleted (Spec.ByFileId file_id)
    else if Spec.askable (Spec.ByFileId file_id) then Spec.NotFound
    else Spec.Unaskable in
  Handlers.delete_by_file_id file_id w
  = (Spec.delete_result o, Spec.after_delete o w).
Proof.
  cbv zeta.
  unfold Handlers.delete_by_file_id, mbind, io_bind, on_db,
    DB.delete_record_by_telegram_file_id.
  cbn [Spec.stored Spec.askable]. rewrite rowcount_existsb.
  destruct (existsb (DB.has_file_id file_id) (DB.rows (db w))) eqn:Hhit.
  - reflexivity.
  - rewrite (delete_where_miss _ _ Hhit), with_db_same. reflexivity.
Qed.

(** The handler does what the priority list says: the first way that
    names a record decides, and the store is asked about that record
    only; when it cannot be asked, the error of the call leaves the
    handler. *)
Lemma on_delete_command_run message raw w :
  Telegram.text message = Some raw ->
  Handlers.on_delete_command message w
  = (Spec.delete_result (Spec.delete_outcome (db w) message),
     Spec.after_delete (Spec.delete_outcome (db w) message) w).
Proof.
  intros Htext.
  unfold Handlers.on_delete_command, Spec.delete_outcome, Spec.resolve,
    Spec.trailing_id, Spec.replied_voice, Spec.replied_summary.
  rewrite Htext. cbn [mbind option_bind].
  destruct (search_trailing_id (strip raw)) as [digits|]; cbn [Spec.first_match].
  { apply delete_by_id_run. }
  destruct (Telegram.reply_to_message message) as [reply|];
    cbn [mbind option_bind Spec.first_match]; [|reflexivity].
  destruct (Telegram.reply_voice reply) as [voice|];
    cbn [mbind option_bind Spec.first_match].
  { apply delete_by_file_id_run. }
  destruct (Telegram.reply_text reply) as [reply_text|];
    cbn [mbind option_bind Spec.first_match]; [|reflexivity].
  destruct (match_leading_id reply_text) as [digits|];
    cbn [mbind option_bind Spec.first_match]; [|reflexivity].
  apply delete_by_id_run.
Qed.

(** *** What the patterns match *)

Lemma rev_is_reverse {A : Type} (l : list A) : rev l = reverse l.
Proof. unfold reverse. apply rev_alt. Qed.

Lemma leading_digits_split (l : str) :
  exists rest : str,
    l = leading_digits l ++ rest
    /\ forallb isdecimal (leading_digits l) = true
    /\ (forall c, head rest = Some c -> isdecimal c = false).
Proof.
  induction l as [|c l (rest & Hl & Hall & Hhead)].
  - exists []. repeat split. intros c Hc. discriminate.
  - cbn [leading_digits]. destruct (isdecimal c) eqn:Hc.
    + exists rest. split; [cbn; f_equal; exact Hl|].
      split; [cbn; rewrite Hc; exact Hall | exact Hhead].
    + exists (c :: l). split; [reflexivity|]. split; [reflexivity|].
      intros c' Hc'. cbn in Hc'. congruence.
Qed.

(** The digit run a text ends with: the text is some [before] followed
    by it, and [before] does not end in a digit. *)
Lemma trailing_digits_split (s : str) :
  exists before : str,
    s = before ++ trailing_digits s
    /\ forallb isdecimal (trailing_digits s) = true
    /\ (forall b, last before = Some b -> isdecimal b = false).
Proof.
  unfold trailing_digits.
  destruct (leading_digits_split (rev s)) as (rest & Hsplit & Hall & Hhead).
  exists (rev rest). split; [|split].
  - rewrite <- rev_app_distr, <- Hsplit, rev_involutive. reflexivity.
  - apply forallb_forall. intros c Hin. apply in_rev in Hin.
    rewrite forallb_forall in Hall. apply Hall. exact Hin.
  - intros b Hb. apply Hhead. rewrite rev_is_reverse, last_reverse in Hb.
    exact Hb.
Qed.

Lemma trailing_digits_of_last (s : str) c :
  last s = Some c ->
  trailing_digits s = [] <-> isdecimal c = false.
Proof.
  intros Hlast. apply last_Some in Hlast as [s' ->].
  unfold trailing_digits. rewrite rev_app_distr. cbn [rev app leading_digits].
  destruct (isdecimal c); split; try reflexivity; try discriminate.
  intros Hnil. apply (f_equal (@length _)) in Hnil.
  rewrite length_rev in Hnil. cbn in Hnil. lia.
Qed.

Lemma lstrip_suffix (s : str) : exists spaces, s = spaces ++ lstrip s.
Proof.
  induction s as [|c s [spaces IH]]; [exists []; reflexivity|].
  cbn [lstrip]. destruct (isspace c).
  - exists (c :: spaces). cbn. f_equal. exact IH.
  - exists []. reflexivity.
Qed.

Lemma lstrip_head (s : str) c : head (lstrip s) = Some c -> isspace c = false.
Proof.
  induction s as [|x s IH]; [discriminate|].
  cbn [lstrip]. destruct (isspace x) eqn:Hx; [exact IH|].
  cbn. intros [= <-]. exact Hx.
Qed.

(** A stripped text does not end in white space, a line break
    included. *)
Lemma strip_last (s : str) c : last (strip s) = Some c -> isspace c = false.
Proof.
  unfold strip. intros Hlast.
  destruct (lstrip_suffix (rstrip s)) as [spaces Hsplit].
  assert (Hl : last (rstrip s) = Some c).
  { rewrite Hsplit. rewrite last_app, Hlast. reflexivity. }
  unfold rstrip in Hl. rewrite rev_is_reverse, last_reverse in Hl.
  apply lstrip_head in Hl. exact Hl.
Qed.

Lemma before_final_newline_stripped (s : str) :
  before_final_newline (strip s) = strip s.
Proof.
  unfold before_final_newline.
  destruct (rev (strip s)) as [|c r] eqn:Hrev; [reflexivity|].
  assert (Hlast : last (strip s) = Some c).
  { rewrite <- (rev_involutive (strip s)), Hrev. cbn [rev]. apply last_snoc. }
  apply strip_last in Hlast.
  destruct c as [|p]; [reflexivity|].
  repeat (destruct p as [p|p|]; try reflexivity). discriminate.
Qed.

(** After stripping, the first pattern finds the digit run at the end
    of the text, if there is one. *)
Lemma search_trailing_id_stripped (raw : str) :
  search_trailing_id (strip raw)
  = match trailing_digits (strip raw) with
    | [] => None
    | digits => Some digits
    end.
Proof.
  unfold search_trailing_id. rewrite before_final_newline_stripped. reflexivity.
Qed.

Lemma trailing_id_of_last message raw :
  Telegram.text message = Some raw ->
  Spec.trailing_id message
  = match trailing_digits (strip raw) with
    | [] => None
    | digits => Some (Spec.ById (int digits))
    end.
Proof.
  intros Htext. unfold Spec.trailing_id. rewrite Htext. cbn [mbind option_bind].
  rewrite search_trailing_id_stripped.
  destruct (trailing_digits (strip raw)); reflexivity.
Qed.

Lemma answered_inj n n' w : Spec.answered n w = Spec.answered n' w -> n = n'.
Proof.
  intros Heq. apply (f_equal outbox) in Heq. cbn in Heq.
  apply app_inv_head in Heq. congruence.
Qed.

(** C4, as the code has it.  The handler takes the first of three ways
    that names a record: a number at the very end of the text, [#]
    before it or not; else the voice message replied to, by its file
    id; else the [#id] a replied-to text starts with.  The text is
    stripped of surrounding white space first: a stripped text that
    ends in a digit names the record its final digit run spells, and a
    stripped text that ends in any other character names none this
    way, so that without a reply the answer is the usage notice.  The
    handler ends as the outcome for the record so named says; a number
    too large for SQLite to take makes the store's call raise
    [OverflowError], which leaves the handler with nothing answered. *)
Theorem delete_target_priority (message : Telegram.Message) (raw : str)
    (w : World) :
  Telegram.text message = Some raw ->
  Handlers.on_delete_command message w
  = (Spec.delete_result (Spec.delete_outcome (db w) message),
     Spec.after_delete (Spec.delete_outcome (db w) message) w)
  /\ (forall record_id : Z,
        Spec.resolve message = Some (Spec.ById record_id) ->
        (fits_int64 record_id = true ->
         fst (Handlers.on_delete_command message w) = Returned tt)
        /\ (fits_int64 record_id = false ->
            Handlers.on_delete_command message w = (Raised OverflowError, w)))
  /\ (forall t, Spec.trailing_id message = Some t ->
        Spec.resolve message = Some t)
  /\ (Spec.trailing_id message = None ->
      forall t, Spec.replied_voice message = Some t ->
        Spec.resolve message = Some t)
  /\ (Spec.trailing_id message = None ->
      Spec.replied_voice message = None ->
      Spec.resolve message = Spec.replied_summary message)
  /\ (forall c, last (strip raw) = Some c -> isdecimal c = true ->
      exists before digits : str,
        strip raw = before ++ digits
        /\ digits <> []
        /\ forallb isdecimal digits = true
        /\ (forall b, last before = Some b -> isdecimal b = false)
        /\ Spec.trailing_id message = Some (Spec.ById (int digits)))
  /\ ((forall c, last (strip raw) = Some c -> isdecimal c = false) ->
      Spec.trailing_id message = None
      /\ (Telegram.reply_to_message message = None ->
          Handlers.on_delete_command message w
          = (Returned tt, Spec.answered Telegram.DELETE_USAGE w))).
Proof.
  intros Htext.
  pose proof (on_delete_command_run message raw w Htext) as Hrun.
  pose proof (trailing_id_of_last message raw Htext) as Hfirst.
  split; [exact Hrun|]. split; [|split; [|split; [|split; [|split]]]].
  - intros record_id Ht. rewrite Hrun. unfold Spec.delete_outcome. rewrite Ht.
    cbn [Spec.stored Spec.askable].
    split; intros Hfits; rewrite Hfits; cbn [andb]; [|reflexivity].
    destruct (existsb _ _); reflexivity.
  - intros t Ht. unfold Spec.resolve. rewrite Ht. reflexivity.
  - intros Hnone t Ht. unfold Spec.resolve. rewrite Hnone, Ht. reflexivity.
  - intros Hnone Hvoice. unfold Spec.resolve. rewrite Hnone, Hvoice.
    cbn [Spec.first_match]. destruct (Spec.replied_summary message); reflexivity.
  - intros c Hlast Hc.
    destruct (trailing_digits_split (strip raw)) as (before & Hsplit & Hall & Hb).
    exists before, (trailing_digits (strip raw)).
    assert (Hne : trailing_digits (strip raw) <> []).
    { intros Hnil. apply (trailing_digits_of_last _ _ Hlast) in Hnil. congruence. }
    split; [exact Hsplit|]. split; [exact Hne|]. split; [exact Hall|].
    split; [exact Hb|]. rewrite Hfirst.
    destruct (trailing_digits (strip raw)); [contradiction | reflexivity].
  - intros Hlast.
    assert (Hnil : trailing_digits (strip raw) = []).
    { destruct (last (strip raw)) as [c|] eqn:Hc.
      - apply (trailing_digits_of_last _ _ Hc). apply Hlast. reflexivity.
      - apply last_None in Hc. rewrite Hc. reflexivity. }
    assert (Hnone : Spec.trailing_id message = None)
      by (rewrite Hfirst, Hnil; reflexivity).
    split; [exact Hnone|]. intros Hreply. rewrite Hrun.
    unfold Spec.delete_outcome, Spec.resolve, Spec.replied_voice,
      Spec.replied_summary.
    rewrite Hnone, Hreply. reflexivity.
Qed.

Lemma delete_target_priority_witness :
  Telegram.text (Sample.plain "delete #42 now") = Some (lit "delete #42 now")
  /\ Handlers.on_delete_command (Sample.plain "delete #42 now")
       (Sample.fresh Sample.offline)
     = (Returned tt,
        Spec.answered Telegram.DELETE_USAGE (Sample.fresh Sample.offline)).
Proof.
  split; [reflexivity|].
  destruct (delete_target_priority (Sample.plain "delete #42 now")
              (lit "delete #42 now") (Sample.fresh Sample.offline) eq_refl)
    as (_ & _ & _ & _ & _ & _ & Hlast).
  apply Hlast; [|reflexivity].
  intros c Hc. vm_compute in Hc. injection Hc as <-. reflexivity.
Defined.

(** C4 as stated fails on trailing white space: ["/delete 42 "] has a
    character after its digit run, yet the number is taken, and with
    no reply and no record 42 the answer is "not found", not the usage
    notice. *)
Lemma trailing_space_is_stripped :
  Spec.digits_then_others (lit "/delete 42 ")
  /\ Telegram.reply_to_message (Sample.plain "/delete 42 ") = None
  /\ Spec.trailing_id (Sample.plain "/delete 42 ") = Some (Spec.ById 42)
  /\ Handlers.on_delete_command (Sample.plain "/delete 42 ")
       (Sample.fresh Sample.offline)
     = (Returned tt,
        Spec.answered Telegram.MSG_DELETE_NOT_FOUND (Sample.fresh Sample.offline))
  /\ Spec.answered Telegram.MSG_DELETE_NOT_FOUND (Sample.fresh Sample.offline)
     <> Spec.answered Telegram.DELETE_USAGE (Sample.fresh Sample.offline).
Proof.
  split.
  { exists (lit "/delete "), (lit "42"), (lit " ").
    split; [reflexivity|]. split; [discriminate|]. split; [reflexivity|].
    split; [discriminate | reflexivity]. }
  split; [reflexivity|]. split; [vm_compute; reflexivity|].
  split; [vm_compute; reflexivity|].
  intros Heq. apply answered_inj in Heq. discriminate.
Qed.




(** ** Ingesting a voice message *)

Lemma on_voice_short_run (self : Handlers.TelegramBot)
    (message : Telegram.Message) (sent_at : str) (voice : Telegram.Voice)
    (ogg_bytes : Telegram.bytes) (text : str) (w : World) :
  Telegram.voice message = Some voice ->
  download (env w) (Telegram.file_id voice) = Some ogg_bytes ->
  transcribe_ogg_bytes (env w) ogg_bytes = Some text ->
  len text < 5 ->
  Handlers.on_voice self message sent_at w
  = (Returned tt,
     Spec.edited Telegram.RECOGNITION_FAILED
       (Spec.answered Telegram.MSG_VOICE_PROCESSING w)).
Proof.
  intros Hvoice Hget Hstt Hshort.
  unfold Handlers.on_voice. rewrite Hvoice.
  rewrite bind_run. cbn [send modify]. unfold try_except.
  rewrite bind_run. unfold Handlers.download_voice at 1.
  rewrite bind_run. cbn [gets env with_outbox]. rewrite Hget. cbn [mret io_ret].
  rewrite bind_run. unfold Handlers.transcribe at 1.
  rewrite bind_run. cbn [gets env with_outbox]. rewrite Hstt. cbn [mret io_ret].
  destruct (Z.ltb_spec (len text) 5) as [_|Hge]; [reflexivity | lia].
Qed.

(** X24. In both packaged handlers, when the transcript has fewer than 5
    characters [on_voice] rewrites its progress message to the
    recognition-failure notice and returns: the store is as it was and
    no generation request was made. *)
Theorem short_transcript_is_dropped (self : Handlers.TelegramBot)
    (message : Telegram.Message) (sent_at : str) (voice : Telegram.Voice)
    (ogg_bytes : Telegram.bytes) (text : str) (w : World) :
  Telegram.voice message = Some voice ->
  download (env w) (Telegram.file_id voice) = Some ogg_bytes ->
  transcribe_ogg_bytes (env w) ogg_bytes = Some text ->
  len text < 5 ->
  Handlers.on_voice self message sent_at w
  = (Returned tt,
     Spec.edited Telegram.RECOGNITION_FAILED
       (Spec.answered Telegram.MSG_VOICE_PROCESSING w))
  /\ db (snd (Handlers.on_voice self message sent_at w)) = db w
  /\ requests (snd (Handlers.on_voice self message sent_at w)) = requests w
  /\ outbox (snd (Handlers.on_voice self message sent_at w))
     = outbox w ++ [Telegram.Answer Telegram.MSG_VOICE_PROCESSING;
                    Telegram.EditText Telegram.RECOGNITION_FAILED].
Proof.
  intros Hvoice Hget Hstt Hshort.
  rewrite (on_voice_short_run self message sent_at voice ogg_bytes text w
             Hvoice Hget Hstt Hshort).
  split; [reflexivity|]. split; [reflexivity|].
  split; [reflexivity|]. cbn. rewrite <- app_assoc. reflexivity.
Qed.

Lemma short_transcript_is_dropped_witness :
  len (lit "hm") < 5
  /\ Handlers.on_voice Sample.bot Sample.voice_note
       (lit "2025-05-01T10:00:00+00:00") (Sample.fresh (Sample.hears (lit "hm")))
     = (Returned tt,
        Spec.edited Telegram.RECOGNITION_FAILED
          (Spec.answered Telegram.MSG_VOICE_PROCESSING
             (Sample.fresh (Sample.hears (lit "hm"))))).
Proof.
  split; [reflexivity|].
  apply (short_transcript_is_dropped Sample.bot Sample.voice_note
           (lit "2025-05-01T10:00:00+00:00")
           {| Telegram.file_id := lit "AwACAgIAAx" |}
           [79; 103; 103; 83]%N (lit "hm")
           (Sample.fresh (Sample.hears (lit "hm")))); reflexivity.
Defined.

(** ** The edit dialog *)

Lemma present_id_positive d record_id :
  DB.wf d -> Spec.present d record_id -> record_id <> 0.
Proof.
  intros [_ _ Hseq _] (r & Hin & Hid).
  rewrite Forall_forall in Hseq. specialize (Hseq r Hin). lia.
Qed.

Lemma pending_of (record_id : Z) (new_text : str) :
  record_id <> 0 -> new_text <> [] ->
  Handlers.pending
    {| Sys.record_id := Some record_id; Sys.new_text := Some new_text |}
  = Some (record_id, new_text).
Proof.
  intros Hid Htext. unfold Handlers.pending; cbn.
  destruct (Z.eqb_spec record_id 0); [contradiction|].
  destruct new_text; [contradiction | reflexivity].
Qed.

Lemma apply_edit_run (record_id : Z) (new_text : str) (w : World) :
  user_data w
  = {| Sys.record_id := Some record_id; Sys.new_text := Some new_text |} ->
  record_id <> 0 -> new_text <> [] -> Spec.present (db w) record_id ->
  Handlers.apply_edit w
  = (Returned tt,
     Spec.edited Telegram.MSG_SUMMARY_UPDATED
       (with_db (fst (DB.update_summary (db w) record_id new_text)) w)).
Proof.
  intros Hud Hid Htext Hpres. unfold Handlers.apply_edit.
  run_gets.
  rewrite Hud, (pending_of _ _ Hid Htext).
  rewrite bind_run. unfold on_db, DB.update_summary.
  apply rowcount_present in Hpres. rewrite Hpres. reflexivity.
Qed.

Lemma apply_note_run (record_id : Z) (new_text : str) (w : World) :
  user_data w
  = {| Sys.record_id := Some record_id; Sys.new_text := Some new_text |} ->
  record_id <> 0 -> new_text <> [] -> Spec.present (db w) record_id ->
  Handlers.apply_note w
  = (Returned tt,
     Spec.edited Telegram.MSG_NOTE_ADDED
       (with_db (fst (DB.add_note_to_record (db w) record_id new_text)) w)).
Proof.
  intros Hud Hid Htext Hpres. unfold Handlers.apply_note.
  run_gets.
  rewrite Hud, (pending_of _ _ Hid Htext).
  rewrite bind_run. unfold on_db, DB.add_note_to_record.
  apply rowcount_present in Hpres. rewrite Hpres. reflexivity.
Qed.

(** While the timeout is not due, the timeout job changes nothing. *)
Lemma expire_early now w :
  (forall due, timeout_due w = Some due -> now < due) ->
  Ptb.expire now w = (Returned tt, w).
Proof.
  intros Hdue. unfold Ptb.expire, modify. f_equal.
  destruct (state w); [reflexivity|].
  destruct (timeout_due w) as [due|]; [|reflexivity].
  specialize (Hdue due eq_refl).
  destruct (Z.leb_spec due now); [lia | reflexivity].
Qed.

(** With no session open, a button does nothing under either dialog. *)
Lemma idle_ignores_buttons w now data :
  state w = IDLE ->
  Ptb.edit_handler now (Handlers.CallbackQuery data) w = (Returned tt, w)
  /\ Aiogram.dispatch (Handlers.CallbackQuery data) w = (Returned tt, w).
Proof.
  intros Hidle. split.
  - unfold Ptb.edit_handler. rewrite bind_run.
    assert (Hexp : Ptb.expire now w = (Returned tt, w)).
    { unfold Ptb.expire, modify. rewrite Hidle. reflexivity. }
    rewrite Hexp, bind_run. unfold gets. cbv beta iota.
    rewrite Hidle. reflexivity.
  - unfold Aiogram.dispatch. run_gets.
    rewrite Hidle. reflexivity.
Qed.

Lemma updated_rows_carry hit set d (r : DB.Row) :
  r ∈ DB.rows (DB.update_where hit set d) ->
  exists r0, r0 ∈ DB.rows d /\ r = (if hit r0 then set r0 else r0).
Proof.
  unfold DB.update_where; cbn [DB.rows]. change (List.map ?f ?l) with (f <$> l).
  intros Hin. apply list_elem_of_fmap in Hin as (r0 & -> & Hin). eauto.
Qed.

Lemma update_where_present hit set d record_id :
  (forall r, DB.id (set r) = DB.id r) ->
  Spec.present d record_id ->
  Spec.present (DB.update_where hit set d) record_id.
Proof.
  intros Hid (r & Hin & Hr). unfold Spec.present, DB.update_where; cbn [DB.rows].
  change (List.map ?f ?l) with (f <$> l).
  exists (if hit r then set r else r). split.
  - apply list_elem_of_fmap. eauto.
  - destruct (hit r); [rewrite Hid|]; exact Hr.
Qed.

Lemma button_edit : bool_decide (lit "edit" = lit "edit") = true.
Proof. apply bool_decide_true. reflexivity. Qed.

Lemma button_note :
  bool_decide (lit "note" = lit "edit") = false
  /\ bool_decide (lit "note" = lit "note") = true.
Proof.
  split; [apply bool_decide_false; discriminate | apply bool_decide_true; reflexivity].
Qed.

Lemma button_cancel :
  bool_decide (lit "cancel" = lit "edit") = false
  /\ bool_decide (lit "cancel" = lit "note") = false
  /\ bool_decide (lit "cancel" = lit "cancel") = true.
Proof.
  split; [apply bool_decide_false; discriminate|].
  split; [apply bool_decide_false; discriminate | apply bool_decide_true; reflexivity].
Qed.

(** How a button is routed while the choice is awaited. *)
Lemma ptb_button_route now data w :
  state w = AWAITING_CHOICE ->
  (forall due, timeout_due w = Some due -> now < due) ->
  Ptb.edit_handler now (Handlers.CallbackQuery data) w
  = (if bool_decide (data = lit "edit")
     then Ptb.handle_edit_summary_callback ≫= Ptb.settle now
     else if bool_decide (data = lit "note")
     then Ptb.handle_add_note_callback ≫= Ptb.settle now
     else if bool_decide (data = lit "cancel")
     then Ptb.handle_cancel_callback ≫= Ptb.settle now
     else mret tt) w.
Proof.
  intros Hst Hdue. unfold Ptb.edit_handler.
  rewrite bind_run, (expire_early _ _ Hdue), bind_run.
  unfold gets. cbv beta iota. rewrite Hst. reflexivity.
Qed.

Lemma aiogram_button_route data w :
  state w = AWAITING_CHOICE ->
  Aiogram.dispatch (Handlers.CallbackQuery data) w
  = (if bool_decide (data = lit "edit")
     then Aiogram.handle_edit_summary_callback
     else if bool_decide (data = lit "note")
     then Aiogram.handle_add_note_callback
     else if bool_decide (data = lit "cancel")
     then Aiogram.handle_cancel_callback
     else mret tt) w.
Proof.
  intros Hst. unfold Aiogram.dispatch. rewrite bind_run.
  unfold gets. cbv beta iota. rewrite Hst. reflexivity.
Qed.

(** C8. A session that awaits the choice and holds a record id and a
    text, for a record the store has: the edit button puts the text in
    that record's [summarized], the note button puts it in its [note],
    the cancel button leaves the store alone; each rewrites the prompt
    to its confirmation, drops the pending data and closes the session.
    Under either dialog a closed session ignores every button, so the
    choice takes effect once at most. *)
Theorem choice_is_applied_once (record_id : Z) (pending_text : str) (now : Z)
    (w : World) :
  state w = AWAITING_CHOICE ->
  user_data w
  = {| Sys.record_id := Some record_id; Sys.new_text := Some pending_text |} ->
  pending_text <> [] ->
  DB.wf (db w) ->
  Spec.present (db w) record_id ->
  (forall due, timeout_due w = Some due -> now < due) ->
  let ptb (data : string) :=
    snd (Ptb.edit_handler now (Handlers.CallbackQuery (lit data)) w) in
  let aiogram (data : string) :=
    snd (Aiogram.dispatch (Handlers.CallbackQuery (lit data)) w) in
  let edited_db := fst (DB.update_summary (db w) record_id pending_text) in
  let noted_db := fst (DB.add_note_to_record (db w) record_id pending_text) in
  (Spec.closed_with Telegram.MSG_SUMMARY_UPDATED edited_db w (ptb "edit")
   /\ Spec.closed_with Telegram.MSG_SUMMARY_UPDATED edited_db w (aiogram "edit"))
  /\ (Spec.closed_with Telegram.MSG_NOTE_ADDED noted_db w (ptb "note")
      /\ Spec.closed_with Telegram.MSG_NOTE_ADDED noted_db w (aiogram "note"))
  /\ (Spec.closed_with Telegram.CHOICE_CANCELLED (db w) w (ptb "cancel")
      /\ Spec.closed_with Telegram.CHOICE_CANCELLED (db w) w (aiogram "cancel"))
  /\ (Spec.present edited_db record_id
      /\ forall r : DB.Row, r ∈ DB.rows edited_db ->
           DB.id r = record_id -> DB.summarized r = pending_text)
  /\ (Spec.present noted_db record_id
      /\ forall r : DB.Row, r ∈ DB.rows noted_db ->
           DB.id r = record_id -> DB.note r = Some pending_text)
  /\ (forall w' : World, state w' = IDLE ->
      forall (now' : Z) (data : str),
        Ptb.edit_handler now' (Handlers.CallbackQuery data) w' = (Returned tt, w')
        /\ Aiogram.dispatch (Handlers.CallbackQuery data) w' = (Returned tt, w')).
Proof.
  intros Hst Hud Htext Hwf Hpres Hdue ptb aiogram edited_db noted_db.
  pose proof (present_id_positive _ _ Hwf Hpres) as Hid.
  pose proof (apply_edit_run _ _ _ Hud Hid Htext Hpres) as Hedit.
  pose proof (apply_note_run _ _ _ Hud Hid Htext Hpres) as Hnote.
  destruct button_note as [Hn1 Hn2]. destruct button_cancel as (Hc1 & Hc2 & Hc3).
  split; [|split; [|split; [|split; [|split]]]].
  - split.
    + subst ptb. cbv beta. rewrite (ptb_button_route _ _ _ Hst Hdue), button_edit.
      unfold Ptb.handle_edit_summary_callback. rewrite !bind_run, Hedit.
      repeat split.
    + subst aiogram. cbv beta. rewrite (aiogram_button_route _ _ Hst), button_edit.
      unfold Aiogram.handle_edit_summary_callback. rewrite !bind_run, Hedit.
      repeat split.
  - split.
    + subst ptb. cbv beta. rewrite (ptb_button_route _ _ _ Hst Hdue), Hn1, Hn2.
      unfold Ptb.handle_add_note_callback. rewrite !bind_run, Hnote.
      repeat split.
    + subst aiogram. cbv beta. rewrite (aiogram_button_route _ _ Hst), Hn1, Hn2.
      unfold Aiogram.handle_add_note_callback. rewrite !bind_run, Hnote.
      repeat split.
  - split.
    + subst ptb. cbv beta.
      rewrite (ptb_button_route _ _ _ Hst Hdue), Hc1, Hc2, Hc3.
      repeat split.
    + subst aiogram. cbv beta.
      rewrite (aiogram_button_route _ _ Hst), Hc1, Hc2, Hc3.
      repeat split.
  - split.
    + apply update_where_present; [reflexivity | exact Hpres].
    + intros r Hin Hr. apply updated_rows_carry in Hin as (r0 & Hin0 & ->).
      destruct (DB.has_id record_id r0) eqn:Hhit; [reflexivity|].
      apply has_id_true in Hr. congruence.
  - split.
    + apply update_where_present; [reflexivity | exact Hpres].
    + intros r Hin Hr. apply updated_rows_carry in Hin as (r0 & Hin0 & ->).
      destruct (DB.has_id record_id r0) eqn:Hhit; [reflexivity|].
      apply has_id_true in Hr. congruence.
  - intros w' Hidle now' data. apply idle_ignores_buttons. exact Hidle.
Qed.

Lemma choice_is_applied_once_witness :
  (state Sample.awaiting = AWAITING_CHOICE
   /\ user_data Sample.awaiting
      = {| Sys.record_id := Some 1; Sys.new_text := Some (lit "better summary") |}
   /\ timeout_due Sample.awaiting = Some 300)
  /\ Spec.closed_with Telegram.MSG_SUMMARY_UPDATED
       (fst (DB.update_summary (db Sample.awaiting) 1 (lit "better summary")))
       Sample.awaiting
       (snd (Ptb.edit_handler 10 (Handlers.CallbackQuery (lit "edit"))
               Sample.awaiting))
  /\ DB.summarized <$>
       DB.rows (db (snd (Ptb.edit_handler 10 (Handlers.CallbackQuery (lit "edit"))
                           Sample.awaiting)))
     = [lit "better summary"].
Proof.
  split; [repeat split|]. split; [|vm_compute; reflexivity].
  refine (proj1 (proj1 (choice_is_applied_once 1 (lit "better summary") 10
                          Sample.awaiting _ _ _ _ _ _))).
  - reflexivity.
  - reflexivity.
  - discriminate.
  - exact (save_message_wf DB.empty (lit "AwACAgIAAx") (lit "the whole talk")
             (lit "old summary") (lit "2025-05-01T10:00:00+00:00") 7
             (Some (lit "ann")) wf_empty).
  - eexists. split; [apply list_elem_of_here | reflexivity].
  - intros due Hdue. vm_compute in Hdue. injection Hdue as <-. reflexivity.
Defined.

(** X4. When the first request fails, the apology is out of bounds and a
    second attempt is allowed, the second attempt is made; if its
    answer can be read and is in bounds, its text is the summary, after
    two requests. *)
Theorem retry_after_fault (self : LLM.LLMHandler) (text : str) (w : World) :
  2 <= LLM.max_tries self ->
  Spec.backend_faults self (env w) (length (requests w)) (Spec.prompt_for text)
  = true ->
  LLM.accepted self text (len LLM.APOLOGY) = false ->
  Spec.backend_malformed self (env w) (length (requests w) + 1)
    (Spec.prompt_for text) = false ->
  LLM.accepted self text
    (len (Spec.attempt self text (env w) (length (requests w) + 1))) = true ->
  LLM.summarize self text w
  = (Returned (Spec.attempt self text (env w) (length (requests w) + 1)),
     Spec.after_requests (Spec.prompt_for text) 2 w).
Proof.
  intros Htries Hfault Hrejected Hread Haccepted.
  destruct (summarize_run self text w) as (j & Hj & Hrej & Hlast).
  assert (Hzero : Spec.attempt self text (env w) (length (requests w) + 0)
                  = LLM.APOLOGY).
  { rewrite Nat.add_0_r. apply attempt_of_fault. exact Hfault. }
  assert (Hzero' : Spec.backend_malformed self (env w)
                     (length (requests w) + 0) (Spec.prompt_for text) = false).
  { rewrite Nat.add_0_r. apply fault_is_readable. exact Hfault. }
  destruct j as [|[|j]].
  - exfalso. destruct Hlast as [[Hb _] | (_ & _ & Hlast)]; [congruence|].
    rewrite Hzero in Hlast. destruct Hlast as [Hok | Hend]; [congruence | lia].
  - destruct Hlast as [[Hb _] | (_ & Hrun & _)]; [congruence | exact Hrun].
  - exfalso. destruct (Hrej 1%nat ltac:(lia)) as [_ Hno]. congruence.
Qed.

Lemma retry_after_fault_witness :
  LLM.summarize (Handlers.llm Sample.bot) (lit "hello there")
    (Sample.fresh (Sample.recovers (repeat 65%N 200)))
  = (Returned (repeat 65%N 200),
     Spec.after_requests (Spec.prompt_for (lit "hello there")) 2
       (Sample.fresh (Sample.recovers (repeat 65%N 200)))).
Proof.
  refine (eq_trans
            (retry_after_fault (Handlers.llm Sample.bot) (lit "hello there")
               (Sample.fresh (Sample.recovers (repeat 65%N 200))) _ _ _ _ _) _).
  - vm_compute. discriminate.
  - reflexivity.
  - vm_compute. reflexivity.
  - reflexivity.
  - vm_compute. reflexivity.
  - vm_compute. reflexivity.
Defined.

(** ** Session expiry *)

(** C9, where the code departs from it.  Under aiogram nothing ends a
    session but a button: the reply opens it, the edit button arrives
    301 seconds later (or at any other time), and the record's summary
    is overwritten.  The same updates under python-telegram-bot leave
    the record alone. *)
Lemma aiogram_session_outlives_timeout :
  DB.summarized <$> DB.rows (db Sample.one_record) = [lit "old summary"]
  /\ DB.summarized <$>
       DB.rows (db (snd (Aiogram.run Sample.late_choice Sample.one_record)))
     = [lit "better summary"]
  /\ (forall later : Z,
        DB.summarized <$>
          DB.rows (db (snd (Aiogram.run
                              [ (0, Handlers.TextReply
                                      (Sample.reply_to_summary "better summary"));
                                (later, Handlers.CallbackQuery (lit "edit")) ]
                              Sample.one_record)))
        = [lit "better summary"])
  /\ DB.summarized <$>
       DB.rows (db (snd (Ptb.run Sample.late_choice Sample.one_record)))
     = [lit "old summary"].
Proof.
  split; [reflexivity|]. split; [vm_compute; reflexivity|].
  split; [intros later; vm_compute; reflexivity | vm_compute; reflexivity].
Qed.

(** Once the timeout is due, the timeout job has closed the session. *)
Lemma expire_late now due w :
  state w = AWAITING_CHOICE -> timeout_due w = Some due -> due <= now ->
  Ptb.expire now w = (Returned tt, with_timeout_due None (with_state IDLE w)).
Proof.
  intros Hst Hdue Hlate. unfold Ptb.expire, modify. rewrite Hst, Hdue.
  destruct (Z.leb_spec due now); [reflexivity | lia].
Qed.

(** X1. Under python-telegram-bot a session opened at time [now] is over
    once [now + 300] is reached: a button pressed then finds no
    session, and the store is as it was when the reply came in. *)
Theorem ptb_session_expires (message : Telegram.Message) (record_id : Z)
    (now later : Z) (data : str) (w : World) :
  state w = IDLE ->
  Handlers.replied_summary_id message = Some record_id ->
  (exists row, DB.fetch_record_by_id (db w) record_id = Returned (Some row)) ->
  now + Ptb.conversation_timeout <= later ->
  let opened := snd (Ptb.edit_handler now (Handlers.TextReply message) w) in
  let pressed :=
    snd (Ptb.edit_handler later (Handlers.CallbackQuery data) opened) in
  (state opened = AWAITING_CHOICE
   /\ timeout_due opened = Some (now + 300)
   /\ user_data opened
      = {| Sys.record_id := Some record_id;
           Sys.new_text := Telegram.text message |})
  /\ state pressed = IDLE
  /\ db pressed = db w.
Proof.
  intros Hidle Hreply [row Hrow] Hlate opened pressed.
  assert (Hopen : opened
    = with_timeout_due (Some (now + 300))
        (with_state AWAITING_CHOICE
           (Spec.answered Telegram.MSG_EDIT_OR_ADD_NOTE_PROMPT
              (with_user_data
                 {| Sys.record_id := Some record_id;
                    Sys.new_text := Telegram.text message |} w)))).
  { subst opened. unfold Ptb.edit_handler. rewrite bind_run.
    assert (Hexp : Ptb.expire now w = (Returned tt, w)).
    { unfold Ptb.expire, modify. rewrite Hidle. reflexivity. }
    rewrite Hexp, bind_run. unfold gets. cbv beta iota. rewrite Hidle.
    rewrite bind_run. unfold Ptb.on_reply_to_summary_for_edit.
    rewrite Hreply, bind_run. unfold query. cbv beta iota. rewrite Hrow.
    reflexivity. }
  split; [rewrite Hopen; repeat split|].
  subst pressed. rewrite Hopen. unfold Ptb.edit_handler.
  rewrite bind_run.
  rewrite (expire_late later (now + 300)); [|reflexivity|reflexivity|exact Hlate].
  run_gets. split; reflexivity.
Qed.

Lemma ptb_session_expires_witness :
  0 + Ptb.conversation_timeout <= 301
  /\ db (snd (Ptb.edit_handler 301 (Handlers.CallbackQuery (lit "edit"))
                (snd (Ptb.edit_handler 0
                        (Handlers.TextReply
                           (Sample.reply_to_summary "better summary"))
                        Sample.one_record))))
     = db Sample.one_record.
Proof.
  split; [unfold Ptb.conversation_timeout; lia|].
  refine (proj2 (proj2 (ptb_session_expires
                          (Sample.reply_to_summary "better summary") 1 0 301
                          (lit "edit") Sample.one_record _ _ _ _))).
  - reflexivity.
  - reflexivity.
  - eexists. reflexivity.
  - unfold Ptb.conversation_timeout. lia.
Defined.



(** X9. Under aiogram a further reply to a summary while the choice is
    awaited replaces the pending data and keeps the session open. *)
Theorem aiogram_reply_replaces_pending (message : Telegram.Message)
    (record_id : Z) (w : World) :
  Handlers.replied_summary_id message = Some record_id ->
  (exists row, DB.fetch_record_by_id (db w) record_id = Returned (Some row)) ->
  Aiogram.dispatch (Handlers.TextReply message) w
  = (Returned tt,
     Spec.answered Telegram.MSG_EDIT_OR_ADD_NOTE_PROMPT
       (with_user_data
          {| Sys.record_id := Some record_id;
             Sys.new_text := Telegram.text message |}
          (with_state AWAITING_CHOICE w))).
Proof.
  intros Hreply [row Hrow]. unfold Aiogram.dispatch,
    Aiogram.on_reply_to_summary_for_edit.
  rewrite Hreply, bind_run. unfold query. cbv beta iota. rewrite Hrow.
  reflexivity.
Qed.

Lemma aiogram_reply_replaces_pending_witness :
  user_data
    (snd (Aiogram.dispatch
            (Handlers.TextReply (Sample.reply_to_summary "third try"))
            Sample.awaiting))
  = {| Sys.record_id := Some 1; Sys.new_text := Some (lit "third try") |}.
Proof.
  rewrite (aiogram_reply_replaces_pending
             (Sample.reply_to_summary "third try") 1 Sample.awaiting).
  - reflexivity.
  - reflexivity.
  - eexists. reflexivity.
Defined.

(** ** More about the store and the pipeline *)

Lemma delete_record_by_id_wf (d : DB.Database) (record_id : Z) :
  DB.wf d -> DB.wf (fst (DB.delete_record_by_id d record_id)).
Proof.
  intros Hwf. unfold DB.delete_record_by_id.
  destruct (fits_int64 record_id); [apply delete_where_wf|]; exact Hwf.
Qed.

(** X2. Every operation of the store keeps the table well formed: ids and
    file ids stay unique, and no id exceeds the sequence counter. *)
Theorem store_stays_well_formed (d : DB.Database) (file_id text summary
    sent_at : str) (user_id record_id : Z) (username : option str) :
  DB.wf d ->
  DB.wf (fst (DB.save_message d file_id text summary sent_at user_id username))
  /\ DB.wf (fst (DB.delete_record_by_id d record_id))
  /\ DB.wf (fst (DB.delete_record_by_telegram_file_id d file_id))
  /\ DB.wf (fst (DB.update_summary d record_id summary))
  /\ DB.wf (fst (DB.add_note_to_record d record_id text)).
Proof.
  intros Hwf. split; [apply save_message_wf; exact Hwf|].
  split; [apply delete_record_by_id_wf; exact Hwf|].
  split; [apply delete_where_wf; exact Hwf|].
  split; apply update_where_wf; try reflexivity; exact Hwf.
Qed.

Lemma store_stays_well_formed_witness :
  DB.wf DB.empty
  /\ DB.wf (fst (DB.save_message DB.empty (lit "AwACAgIAAx") (lit "talk")
                   (lit "short") (lit "2025-05-01T10:00:00+00:00") 7 None)).
Proof.
  split; [exact wf_empty|].
  exact (proj1 (store_stays_well_formed DB.empty (lit "AwACAgIAAx") (lit "talk")
                  (lit "short") (lit "2025-05-01T10:00:00+00:00") 7 1 None
                  wf_empty)).
Defined.

(** X3. A transcript of 5 characters or more goes on: it is summarised,
    and what [summarize] returns is stored with the transcript under
    the voice message's file id.  The message that was to show the
    summary is never sent, since the call that edits the progress
    message raises: the handler catches that and rewrites the progress
    message to the failure notice, as it does, with nothing stored,
    when [summarize] itself raises. *)
Theorem long_transcript_is_stored (self : Handlers.TelegramBot)
    (message : Telegram.Message) (sent_at : str) (voice : Telegram.Voice)
    (ogg_bytes : Telegram.bytes) (text : str) (w : World) :
  Telegram.voice message = Some voice ->
  download (env w) (Telegram.file_id voice) = Some ogg_bytes ->
  transcribe_ogg_bytes (env w) ogg_bytes = Some text ->
  5 <= len text ->
  let ran := Handlers.on_voice self message sent_at w in
  let summarized :=
    LLM.summarize (Handlers.llm self) text
      (Spec.answered Telegram.MSG_VOICE_PROCESSING w) in
  fst ran = Returned tt
  /\ outbox (snd ran)
     = outbox w ++ [Telegram.Answer Telegram.MSG_VOICE_PROCESSING;
                    Telegram.EditText Telegram.PROCESSING_FAILED]
  /\ (exists calls : nat,
        (1 <= calls)%nat
        /\ requests (snd ran)
           = requests w ++ repeat (Spec.prompt_for text) calls)
  /\ (forall summary : str,
        fst summarized = Returned summary ->
        db (snd ran)
        = fst (DB.save_message (db w) (Telegram.file_id voice) text summary
                 sent_at
                 (Telegram.user_id (Telegram.from_user message))
                 (Telegram.username (Telegram.from_user message))))
  /\ (forall e : exn, fst summarized = Raised e -> db (snd ran) = db w).
Proof.
  intros Hvoice Hget Hstt Hlong ran summarized.
  destruct (summarize_requests (Handlers.llm self) text
              (Spec.answered Telegram.MSG_VOICE_PROCESSING w))
    as (j & _ & Hreq).
  fold summarized in Hreq.
  assert (Hrun : ran
    = (Returned tt,
       Spec.edited Telegram.PROCESSING_FAILED
         (match fst summarized with
          | Returned summary =>
              with_db
                (fst (DB.save_message (db w) (Telegram.file_id voice) text
                        summary sent_at
                        (Telegram.user_id (Telegram.from_user message))
                        (Telegram.username (Telegram.from_user message))))
                (snd summarized)
          | Raised _ => snd summarized
          end))).
  { subst ran. unfold Handlers.on_voice. rewrite Hvoice.
    rewrite bind_run. cbn [send modify]. unfold try_except.
    rewrite bind_run. unfold Handlers.download_voice at 1.
    rewrite bind_run. cbn [gets env with_outbox]. rewrite Hget. cbn [mret io_ret].
    rewrite bind_run. unfold Handlers.transcribe at 1.
    rewrite bind_run. cbn [gets env with_outbox]. rewrite Hstt. cbn [mret io_ret].
    destruct (Z.ltb_spec (len text) 5) as [Hlt|_]; [lia|].
    rewrite bind_run. fold (Spec.answered Telegram.MSG_VOICE_PROCESSING w).
    fold summarized.
    assert (Hdb : db (snd summarized) = db w) by (rewrite Hreq; reflexivity).
    destruct summarized as [[summary | e] w1]; cbn [fst snd] in *;
      [|reflexivity].
    rewrite bind_run. unfold on_db. rewrite Hdb.
    destruct (DB.save_message (db w) (Telegram.file_id voice) text summary
                sent_at (Telegram.user_id (Telegram.from_user message))
                (Telegram.username (Telegram.from_user message)))
      as [d record_id].
    reflexivity. }
  rewrite Hrun. cbn [fst snd].
  split; [reflexivity|]. split; [|split; [|split]].
  - destruct (fst summarized); cbn; rewrite Hreq; cbn;
      rewrite <- app_assoc; reflexivity.
  - exists (S j). split; [lia|].
    destruct (fst summarized); cbn; rewrite Hreq; reflexivity.
  - intros summary Hs. rewrite Hs. reflexivity.
  - intros e He. rewrite He. cbn. rewrite Hreq. reflexivity.
Qed.

Lemma long_transcript_is_stored_witness :
  5 <= len (lit "hello there")
  /\ DB.summarized <$>
       DB.rows (db (snd (Handlers.on_voice Sample.bot Sample.voice_note
                           (lit "2025-05-01T10:00:00+00:00")
                           (Sample.fresh
                              (Sample.answers (lit "hello there")
                                 (repeat 65%N 200))))))
     = [repeat 65%N 200].
Proof.
  split; [vm_compute; discriminate|].
  destruct (long_transcript_is_stored Sample.bot Sample.voice_note
              (lit "2025-05-01T10:00:00+00:00")
              {| Telegram.file_id := lit "AwACAgIAAx" |}
              [79; 103; 103; 83]%N (lit "hello there")
              (Sample.fresh (Sample.answers (lit "hello there")
                               (repeat 65%N 200)))
              eq_refl eq_refl eq_refl)
    as (_ & _ & _ & Hstored & _).
  - vm_compute. discriminate.
  - rewrite (Hstored (repeat 65%N 200)); vm_compute; reflexivity.
Defined.

(** ** The prototype *)

Lemma prototype_generate_run (self : LLM.LLMHandler) (text : str) (w : World) :
  Prototype._generate self text w
  = (prototype_attempt self text (env w) (length (requests w)),
     Spec.after_requests (Spec.prototype_prompt_for text) 1 w).
Proof.
  unfold Prototype._generate, prototype_attempt.
  fold (Spec.prototype_prompt_for text). rewrite bind_run.
  destruct (LLM.use_local self).
  - unfold Prototype._ollama_call. rewrite bind_run. unfold LLM.post_ollama.
    destruct (ollama (env w) (length (requests w))
                (Spec.prototype_prompt_for text)); reflexivity.
  - unfold Prototype._openai_call. rewrite bind_run. unfold LLM.create_openai.
    destruct (openai (env w) (length (requests w))
                (Spec.prototype_prompt_for text)); reflexivity.
Qed.

(** The prototype's loop, run for [S n] iterations: it stops at some
    attempt [j], every earlier one having returned a text that was
    rejected; attempt [j] raised, or its text was accepted, or it was
    the last. *)
Lemma prototype_attempts_run (self : LLM.LLMHandler) (text : str) (n : nat) :
  forall (w : World) (last : option str),
  exists j : nat,
    (j <= n)%nat
    /\ (forall i : nat, (i < j)%nat ->
          exists s : str,
            prototype_attempt self text (env w) (length (requests w) + i)
            = Returned s
            /\ LLM.accepted self text (len s) = false)
    /\ Prototype.attempts self text (S n) last w
       = (result_map Some
            (prototype_attempt self text (env w) (length (requests w) + j)),
          Spec.after_requests (Spec.prototype_prompt_for text) (S j) w)
    /\ ((exists e : exn,
           prototype_attempt self text (env w) (length (requests w) + j)
           = Raised e)
        \/ (exists s : str,
              prototype_attempt self text (env w) (length (requests w) + j)
              = Returned s
              /\ (LLM.accepted self text (len s) = true \/ j = n))).
Proof.
  induction n as [|n IH]; intros w last.
  - exists 0%nat. rewrite Nat.add_0_r.
    split; [lia|]. split; [intros i Hi; lia|].
    cbn [Prototype.attempts]. rewrite bind_run, prototype_generate_run.
    destruct (prototype_attempt self text (env w) (length (requests w)))
      as [s|e]; [|split; [reflexivity | left; eauto]].
    split; [destruct (LLM.accepted self text (len s)); reflexivity|].
    right. exists s. split; [reflexivity | right; reflexivity].
  - cbn [Prototype.attempts]. rewrite bind_run, prototype_generate_run.
    destruct (prototype_attempt self text (env w) (length (requests w)))
      as [s|e] eqn:Hs.
    2:{ exists 0%nat. rewrite Nat.add_0_r, Hs.
        split; [lia|]. split; [intros i Hi; lia|].
        split; [reflexivity | left; eauto]. }
    destruct (LLM.accepted self text (len s)) eqn:Hacc.
    + exists 0%nat. rewrite Nat.add_0_r, Hs.
      split; [lia|]. split; [intros i Hi; lia|].
      split; [reflexivity|]. right. exists s. split; [reflexivity | left; exact Hacc].
    + destruct (IH (Spec.after_requests (Spec.prototype_prompt_for text) 1 w)
                  (Some s))
        as (j & Hj & Hrej & Hrun & Hlast).
      rewrite after_requests_env, after_requests_length in *.
      exists (S j).
      replace (length (requests w) + S j)%nat
        with (length (requests w) + 1 + j)%nat by lia.
      split; [lia|]. split; [|split].
      * intros i Hi. destruct i as [|i].
        -- rewrite Nat.add_0_r. exists s. split; [exact Hs | exact Hacc].
        -- replace (length (requests w) + S i)%nat
             with (length (requests w) + 1 + i)%nat by lia.
           apply Hrej. lia.
      * change (Prototype.attempts self text (S n) (Some s)
                  (Spec.after_requests (Spec.prototype_prompt_for text) 1 w)
                = (result_map Some
                     (prototype_attempt self text (env w)
                        (length (requests w) + 1 + j)),
                   Spec.after_requests (Spec.prototype_prompt_for text)
                     (S (S j)) w)).
        rewrite Hrun, after_requests_more. reflexivity.
      * destruct Hlast as [Hraised | (s' & Hs' & Hlast)]; [left; exact Hraised|].
        right. exists s'. split; [exact Hs'|].
        destruct Hlast as [Hok | ->]; [left; exact Hok | right; reflexivity].
Qed.

(** The prototype's [summarize] as a whole. *)
Lemma prototype_summarize_run (self : LLM.LLMHandler) (text : str) (w : World) :
  exists j : nat,
    (S j <= Z.to_nat (LLM.max_tries self))%nat
    /\ (forall i : nat, (i < j)%nat ->
          exists s : str,
            prototype_attempt self text (env w) (length (requests w) + i)
            = Returned s
            /\ LLM.accepted self text (len s) = false)
    /\ Prototype.summarize self text w
       = (prototype_attempt self text (env w) (length (requests w) + j),
          Spec.after_requests (Spec.prototype_prompt_for text) (S j) w)
    /\ ((exists e : exn,
           prototype_attempt self text (env w) (length (requests w) + j)
           = Raised e)
        \/ (exists s : str,
              prototype_attempt self text (env w) (length (requests w) + j)
              = Returned s
              /\ (LLM.accepted self text (len s) = true
                  \/ S j = Z.to_nat (LLM.max_tries self)))).
Proof.
  pose proof (max_tries_pos self) as Hpos.
  destruct (Z.to_nat (LLM.max_tries self)) as [|n] eqn:Hn; [lia|].
  destruct (prototype_attempts_run self text n w None)
    as (j & Hj & Hrej & Hrun & Hlast).
  exists j. split; [lia|]. split; [exact Hrej|]. split.
  - unfold Prototype.summarize. rewrite bind_run, Hn, Hrun.
    destruct (prototype_attempt self text (env w) (length (requests w) + j));
      reflexivity.
  - destruct Hlast as [Hraised | (s & Hs & Hlast)]; [left; exact Hraised|].
    right. exists s. split; [exact Hs|].
    destruct Hlast as [Hok | ->]; [left; exact Hok | right; reflexivity].
Qed.

(** X5. In the prototype a failing backend call is not caught: the first
    attempt that fails ends [summarize] with the exception. *)
Theorem prototype_fault_propagates (self : LLM.LLMHandler) (text : str)
    (w : World) :
  Spec.backend_faults self (env w) (length (requests w))
    (Spec.prototype_prompt_for text)
  = true ->
  exists e : exn,
    Prototype.summarize self text w
    = (Raised e, Spec.after_requests (Spec.prototype_prompt_for text) 1 w).
Proof.
  intros Hfault.
  assert (Hfirst : exists e : exn,
            prototype_attempt self text (env w) (length (requests w))
            = Raised e).
  { unfold prototype_attempt, Spec.backend_faults in *.
    destruct (LLM.use_local self).
    - destruct (ollama (env w) (length (requests w))
                  (Spec.prototype_prompt_for text));
        try discriminate; eauto.
    - destruct (openai (env w) (length (requests w))
                  (Spec.prototype_prompt_for text));
        try discriminate; eauto. }
  destruct Hfirst as [e He]. exists e.
  destruct (prototype_summarize_run self text w) as (j & _ & Hrej & Hrun & _).
  destruct j as [|j].
  - rewrite Nat.add_0_r, He in Hrun. exact Hrun.
  - destruct (Hrej 0%nat ltac:(lia)) as (s & Hs & _).
    rewrite Nat.add_0_r in Hs. congruence.
Qed.

Lemma prototype_fault_propagates_witness :
  exists e : exn,
    Prototype.summarize (Handlers.llm Sample.bot) (lit "hello there")
      (Sample.fresh Sample.offline)
    = (Raised e,
       Spec.after_requests (Spec.prototype_prompt_for (lit "hello there")) 1
         (Sample.fresh Sample.offline)).
Proof.
  apply (prototype_fault_propagates (Handlers.llm Sample.bot)
           (lit "hello there") (Sample.fresh Sample.offline)).
  reflexivity.
Defined.

(** ** Listing the summaries of a day *)

Lemma str_leb_total (a b : str) :
  Listing.str_leb a b = true \/ Listing.str_leb b a = true.
Proof.
  revert b. induction a as [|x a IH]; intros [|y b]; cbn; auto.
  destruct (N.ltb_spec x y), (N.ltb_spec y x), (N.eqb_spec x y), (N.eqb_spec y x);
    auto; lia.
Qed.

Lemma str_leb_trans (a b c : str) :
  Listing.str_leb a b = true -> Listing.str_leb b c = true ->
  Listing.str_leb a c = true.
Proof.
  revert b c. induction a as [|x a IH]; intros [|y b] [|z c]; cbn; auto;
    try discriminate.
  destruct (N.ltb_spec x y), (N.ltb_spec y z), (N.ltb_spec x z),
    (N.eqb_spec x y), (N.eqb_spec y z), (N.eqb_spec x z);
    auto; try discriminate; try lia.
  apply IH.
Qed.

#[local] Existing Instance Listing.earlier_dec.

#[local] Instance earlier_total : Total Listing.earlier.
Proof. intros r1 r2. apply str_leb_total. Qed.

#[local] Instance earlier_trans : Transitive Listing.earlier.
Proof. intros r1 r2 r3. apply str_leb_trans. Qed.

(** A decimal digit is an ASCII digit or lies beyond ASCII. *)
Lemma isdecimal_range (c : char) :
  isdecimal c = true -> (48 <= c <= 57)%N \/ (1632 <= c)%N.
Proof.
  unfold isdecimal, decimal_value.
  destruct (List.find (fun z => in_range z (z + 9) c) decimal_zeros)
    as [z|] eqn:Hfind; [|discriminate].
  intros _. apply List.find_some in Hfind as [Hin Hrange].
  unfold in_range in Hrange. apply andb_true_iff in Hrange as [Hlo Hhi].
  apply N.leb_le in Hlo, Hhi.
  assert (Hz : z = 48%N \/ (1632 <= z)%N).
  { clear -Hin. unfold decimal_zeros in Hin. cbn [In] in Hin.
    repeat (destruct Hin as [<- | Hin]; [first [left; reflexivity | right; lia]|]).
    contradiction. }
  destruct Hz as [-> | Hz]; [left | right]; lia.
Qed.

Lemma literal_outside_letters (p : char) :
  p <> 37%N -> p <> 95%N -> ~ (65 <= p <= 90)%N -> ~ (97 <= p <= 122)%N ->
  literal p.
Proof.
  intros H1 H2 Hup Hlow. split; [exact H1|]. split; [exact H2|].
  intros c. unfold Listing.fold_case, in_range.
  destruct (N.leb_spec 65 p), (N.leb_spec p 90), (N.leb_spec 65 c),
    (N.leb_spec c 90); cbn; split; intros; subst; try lia; try reflexivity.
Qed.

Lemma like_any (s : str) : Listing.like [37%N] s = true.
Proof.
  induction s as [|c s IH]; [reflexivity|].
  cbn in *. exact IH.
Qed.

(** For a pattern of literal characters followed by [%], LIKE is the
    prefix test. *)
Lemma like_literal_prefix (d s : str) :
  Forall literal d ->
  Listing.like (d ++ [37%N]) s = true <-> d `prefix_of` s.
Proof.
  intros Hd. revert s. induction Hd as [|p d (Hp1 & Hp2 & Hfold) Hd IH]; intros s.
  - cbn [app]. rewrite like_any. split; [intros _; apply prefix_nil | reflexivity].
  - cbn [app Listing.like].
    destruct (N.eqb_spec p 37); [contradiction|].
    destruct s as [|c s].
    + split; [discriminate|]. intros [k Hk]. discriminate.
    + destruct (N.eqb_spec p 95); [contradiction|]. cbn [orb].
      rewrite andb_true_iff, IH, N.eqb_eq, Hfold. split.
      * intros [-> Hpre]. apply prefix_cons. exact Hpre.
      * intros Hpre. split.
        -- eapply prefix_cons_inv_1. exact Hpre.
        -- eapply prefix_cons_inv_2. exact Hpre.
Qed.

Lemma decimal_literal (c : char) : isdecimal c = true -> literal c.
Proof.
  intros Hc. apply isdecimal_range in Hc.
  apply literal_outside_letters; lia.
Qed.

Lemma before_final_newline_split (s : str) :
  s = before_final_newline s \/ s = before_final_newline s ++ [10%N].
Proof.
  unfold before_final_newline.
  destruct (rev s) as [|c r] eqn:Hrev; [left; reflexivity|].
  destruct (N.eq_dec c 10%N) as [->|Hne].
  - right. rewrite <- (rev_involutive s), Hrev. reflexivity.
  - left. destruct c as [|p]; [reflexivity|].
    repeat (destruct p as [p|p|]; try reflexivity). contradiction.
Qed.

(** An accepted date has nothing in it that LIKE reads as a wildcard
    or folds. *)
Lemma date_is_literal (date_str : str) :
  Listing.is_date date_str = true -> Forall literal date_str.
Proof.
  unfold Listing.is_date. intros Hdate.
  assert (Hnl : literal 10%N) by (apply literal_outside_letters; lia).
  assert (Hbody : Forall literal (before_final_newline date_str)).
  { destruct (before_final_newline date_str)
      as [|y1 [|y2 [|y3 [|y4 [|h1 [|m1 [|m2 [|h2 [|d1 [|d2 [|x l]]]]]]]]]]];
      try discriminate.
    repeat (apply andb_true_iff in Hdate as [Hdate ?]).
    assert (Hdash : literal 45%N) by (apply literal_outside_letters; lia).
    repeat match goal with
           | H : (_ =? 45)%N = true |- _ => apply N.eqb_eq in H; subst
           end.
    repeat (apply List.Forall_cons;
      [first [exact Hdash | apply decimal_literal; assumption]|]).
    apply List.Forall_nil. }
  destruct (before_final_newline_split date_str) as [Heq | Heq].
  - rewrite Heq. exact Hbody.
  - rewrite Heq. apply Forall_app. split; [exact Hbody|].
    apply List.Forall_cons; [exact Hnl | apply List.Forall_nil].
Qed.

Lemma filter_bool_prop {A : Type} (f : A -> bool) (P : A -> Prop)
    `{forall x, Decision (P x)} (l : list A) :
  (forall x, f x = true <-> P x) -> List.filter f l = filter P l.
Proof.
  intros Hfp. induction l as [|x l IH]; [reflexivity|].
  cbn [List.filter]. rewrite filter_cons.
  destruct (decide (P x)) as [HP | HP].
  - apply Hfp in HP. rewrite HP. f_equal. exact IH.
  - destruct (f x) eqn:Hfx; [apply Hfp in Hfx; contradiction | exact IH].
Qed.

(** A sort the engine could use. *)
Lemma merge_sort_sorts : Listing.sorts (merge_sort Listing.earlier).
Proof.
  intros l. split; [apply merge_sort_Permutation|].
  apply StronglySorted_merge_sort; apply _.
Qed.

(** X10.  For a date the command accepts, the listing is made of exactly
    the records whose time stamp starts with that date, each once, in
    ascending order of time stamp, whichever way the engine orders
    records of equal time stamp; a record contributes its summary line
    and, when its note is not empty, a note line right after it.
    Without such a record the answer says so.  Both variants answer
    alike. *)
Theorem sum_lists_the_day (order_by_sent_at : Listing.sorter)
    (db : DB.Database) (date_str : str) :
  Listing.sorts order_by_sent_at ->
  Listing.is_date date_str = true ->
  exists found : list DB.Row,
    found ≡ₚ of_day date_str db
    /\ StronglySorted Listing.earlier found
    /\ Listing.fetch_summaries_by_date order_by_sent_at db date_str
       = selected <$> found
    /\ Listing.answer_for order_by_sent_at db date_str
        = match found with
          | [] => Listing.MSG_NO_SUMMARIES_FOR_DATE date_str
          | _ => Listing.LISTING (found ≫= fun r => Listing.lines_of (selected r))
          end
    /\ (forall text today : str,
          Listing.second_part (strip text) = Some date_str ->
          Listing.Ptb.on_sum_command order_by_sent_at db text today
          = Listing.answer_for order_by_sent_at db date_str)
    /\ (forall today : str,
          Listing.Aiogram.on_sum_command order_by_sent_at db (Some date_str)
            today
          = Listing.answer_for order_by_sent_at db date_str).
Proof.
  intros Hsorts Hdate.
  pose proof (date_is_literal date_str Hdate) as Hlit.
  exists (order_by_sent_at (of_day date_str db)).
  assert (Hfetch : Listing.fetch_summaries_by_date order_by_sent_at db date_str
                   = selected <$> order_by_sent_at (of_day date_str db)).
  { unfold Listing.fetch_summaries_by_date, of_day.
    rewrite (filter_bool_prop _ (fun r => date_str `prefix_of` DB.sent_at r));
      [reflexivity|].
    intros r. apply like_literal_prefix. exact Hlit. }
  split; [apply Hsorts|].
  split; [apply Hsorts|].
  split; [exact Hfetch|].
  split; [|split].
  - unfold Listing.answer_for. rewrite Hfetch.
    destruct (order_by_sent_at (of_day date_str db)) as [|r l];
      [reflexivity|].
    change (Listing.LISTING ((selected <$> r :: l) ≫= Listing.lines_of)
            = Listing.LISTING
                ((r :: l) ≫= fun r => Listing.lines_of (selected r))).
    f_equal. generalize (r :: l). intros rows.
    induction rows as [|x rows IH]; [reflexivity|].
    cbn [fmap list_fmap]. rewrite !bind_cons. f_equal. exact IH.
  - intros text today Hpart. unfold Listing.Ptb.on_sum_command.
    rewrite Hpart, Hdate. reflexivity.
  - intros today. unfold Listing.Aiogram.on_sum_command.
    destruct date_str as [|c a]; [discriminate Hdate|].
    rewrite Hdate. reflexivity.
Qed.

Lemma sum_lists_the_day_witness :
  exists found : list DB.Row,
    found ≡ₚ of_day (lit "2025-05-01") (db Sample.one_record)
    /\ StronglySorted Listing.earlier found
    /\ Listing.fetch_summaries_by_date (merge_sort Listing.earlier)
         (db Sample.one_record) (lit "2025-05-01")
        = selected <$> found
    /\ Listing.answer_for (merge_sort Listing.earlier) (db Sample.one_record)
         (lit "2025-05-01")
        = match found with
          | [] => Listing.MSG_NO_SUMMARIES_FOR_DATE (lit "2025-05-01")
          | _ => Listing.LISTING (found ≫= fun r => Listing.lines_of (selected r))
          end
    /\ (forall text today : str,
          Listing.second_part (strip text) = Some (lit "2025-05-01") ->
          Listing.Ptb.on_sum_command (merge_sort Listing.earlier)
            (db Sample.one_record) text today
          = Listing.answer_for (merge_sort Listing.earlier)
              (db Sample.one_record) (lit "2025-05-01"))
    /\ (forall today : str,
          Listing.Aiogram.on_sum_command (merge_sort Listing.earlier)
            (db Sample.one_record) (Some (lit "2025-05-01")) today
          = Listing.answer_for (merge_sort Listing.earlier)
              (db Sample.one_record) (lit "2025-05-01")).
Proof.
  apply (sum_lists_the_day (merge_sort Listing.earlier) (db Sample.one_record)
           (lit "2025-05-01")).
  - exact merge_sort_sorts.
  - reflexivity.
Defined.

(** ** Reading back what the bot wrote *)

Lemma decimal_value_digit (d : Z) :
  0 <= d <= 9 -> decimal_value (Render.digit d) = Some d.
Proof.
  intros Hd.
  assert (Hcases : d = 0 \/ d = 1 \/ d = 2 \/ d = 3 \/ d = 4 \/ d = 5
                   \/ d = 6 \/ d = 7 \/ d = 8 \/ d = 9) by lia.
  repeat (destruct Hcases as [-> | Hcases]; [reflexivity|]).
  subst d. reflexivity.
Qed.

Lemma isdecimal_digit (d : Z) : 0 <= d <= 9 -> isdecimal (Render.digit d) = true.
Proof.
  intros Hd. unfold isdecimal. rewrite decimal_value_digit by exact Hd.
  reflexivity.
Qed.

Lemma int_snoc (ds : str) (c : char) :
  int (ds ++ [c]) = 10 * int ds + default 0 (decimal_value c).
Proof. unfold int. rewrite fold_left_app. reflexivity. Qed.

Lemma int_digit (d : Z) : 0 <= d <= 9 -> int [Render.digit d] = d.
Proof.
  intros Hd. change [Render.digit d] with ([] ++ [Render.digit d]).
  rewrite int_snoc, decimal_value_digit by exact Hd. reflexivity.
Qed.

(** With fuel for every division, [decimal] writes digits that [int]
    reads back. *)
Lemma decimal_spec (fuel : nat) (n : Z) :
  0 <= n -> Z.log2 n <= Z.of_nat fuel ->
  int (Render.decimal fuel n) = n
  /\ Forall (fun c => isdecimal c = true) (Render.decimal fuel n)
  /\ Render.decimal fuel n <> [].
Proof.
  revert n. induction fuel as [|fuel IH]; intros n Hn Hlog.
  - assert (Hsmall : n < 2).
    { destruct (Z.eq_dec n 0) as [-> | Hnz]; [lia|].
      change 2 with (2 ^ 1). apply Z.log2_lt_pow2; lia. }
    cbn [Render.decimal]. rewrite Z.mod_small by lia.
    split; [apply int_digit; lia|].
    split; [|discriminate].
    apply List.Forall_cons; [apply isdecimal_digit; lia | apply List.Forall_nil].
  - cbn [Render.decimal]. destruct (Z.ltb_spec n 10) as [Hlt | Hge].
    + split; [apply int_digit; lia|].
      split; [|discriminate].
      apply List.Forall_cons; [apply isdecimal_digit; lia | apply List.Forall_nil].
    + assert (Hq : 0 < n / 10) by (apply Z.div_str_pos; lia).
      assert (Hqlog : Z.log2 (n / 10) <= Z.of_nat fuel).
      { assert (Hn2 : n < 2 ^ (Z.of_nat (S fuel) + 1))
          by (apply Z.log2_lt_pow2; lia).
        replace (Z.of_nat (S fuel) + 1) with (Z.succ (Z.of_nat fuel + 1)) in Hn2
          by lia.
        rewrite Z.pow_succ_r in Hn2 by lia.
        assert (Hpow : 0 < 2 ^ (Z.of_nat fuel + 1))
          by (apply Z.pow_pos_nonneg; lia).
        assert (Hlt : n / 10 < 2 ^ (Z.of_nat fuel + 1))
          by (apply Z.div_lt_upper_bound; lia).
        apply Z.log2_lt_pow2 in Hlt; lia. }
      destruct (IH (n / 10) ltac:(lia) Hqlog) as (Hint & Hall & Hne).
      pose proof (Z.mod_pos_bound n 10 ltac:(lia)) as Hmod.
      split; [|split].
      * rewrite int_snoc, Hint, decimal_value_digit by lia.
        change (default 0 (Some (n mod 10))) with (n mod 10).
        pose proof (Z.div_mod n 10 ltac:(lia)). lia.
      * apply Forall_app. split; [exact Hall|].
        apply List.Forall_cons; [apply isdecimal_digit; lia | apply List.Forall_nil].
      * intros Heq. apply app_eq_nil in Heq as [_ Heq]. discriminate.
Qed.

Lemma str_of_int_spec (n : Z) :
  0 <= n ->
  int (Render.str_of_int n) = n
  /\ Forall (fun c => isdecimal c = true) (Render.str_of_int n)
  /\ Render.str_of_int n <> [].
Proof.
  intros Hn. unfold Render.str_of_int.
  destruct (Z.ltb_spec n 0); [lia|].
  apply decimal_spec; [exact Hn|].
  pose proof (Z.log2_nonneg n). lia.
Qed.

Lemma leading_digits_app (ds rest : str) :
  Forall (fun c => isdecimal c = true) ds ->
  (forall c, head rest = Some c -> isdecimal c = false) ->
  leading_digits (ds ++ rest) = ds.
Proof.
  intros Hds Hrest. induction Hds as [|c ds Hc Hds IH].
  - cbn [app]. destruct rest as [|c r]; [reflexivity|].
    cbn [leading_digits]. rewrite (Hrest c eq_refl). reflexivity.
  - cbn [app leading_digits]. rewrite Hc, IH. reflexivity.
Qed.

Lemma match_leading_id_written (record_id : Z) (rest : str) :
  0 <= record_id ->
  (forall c, head rest = Some c -> isdecimal c = false) ->
  match_leading_id ([35%N] ++ Render.str_of_int record_id ++ rest)
  = Some (Render.str_of_int record_id).
Proof.
  intros Hid Hrest. destruct (str_of_int_spec record_id Hid) as (_ & Hall & Hne).
  cbn [app match_leading_id]. rewrite leading_digits_app by assumption.
  destruct (Render.str_of_int record_id); [contradiction|reflexivity].
Qed.

Lemma trailing_digits_app (before ds : str) :
  Forall (fun c => isdecimal c = true) ds ->
  (forall b, last before = Some b -> isdecimal b = false) ->
  trailing_digits (before ++ ds) = ds.
Proof.
  intros Hds Hlast. unfold trailing_digits.
  rewrite rev_app_distr, leading_digits_app.
  - apply rev_involutive.
  - apply List.Forall_forall. intros c Hin. rewrite List.Forall_forall in Hds.
    apply Hds. apply in_rev. exact Hin.
  - intros c Hc. apply Hlast.
    rewrite <- last_reverse, <- rev_is_reverse, rev_involutive in Hc.
    exact Hc.
Qed.

(** X11.  The id the bot writes at the head of a summary message is the
    id it reads back.  For a record id that is not negative, the decimal
    text [format] writes is read by [int] as that id; a reply to the
    summary message as the bot words it is taken as naming that record,
    by the edit dialog and, when the text of the reply ends in no
    number, by the delete command; and a delete command whose stripped
    text ends in the written id, with no digit before it, names that
    record. *)
Theorem written_id_is_read_back (record_id : Z) (summary : str) :
  0 <= record_id ->
  int (Render.str_of_int record_id) = record_id
  /\ (forall text : option str,
        Handlers.replied_summary_id
          (Render.reply_to (Render.SUMMARY_REPLY_HEADER record_id summary) text)
        = Some record_id)
  /\ (forall raw : str,
        search_trailing_id (strip raw) = None ->
        Spec.resolve
          (Render.reply_to (Render.SUMMARY_REPLY_HEADER record_id summary)
             (Some raw))
        = Some (Spec.ById record_id))
  /\ (forall (message : Telegram.Message) (raw before : str),
        Telegram.text message = Some raw ->
        strip raw = before ++ Render.str_of_int record_id ->
        (forall b, last before = Some b -> isdecimal b = false) ->
        Spec.trailing_id message = Some (Spec.ById record_id)).
Proof.
  intros Hid. destruct (str_of_int_spec record_id Hid) as (Hint & Hall & Hne).
  assert (Hread : match_leading_id
                    (Render.SUMMARY_REPLY_HEADER record_id summary)
                  = Some (Render.str_of_int record_id)).
  { unfold Render.SUMMARY_REPLY_HEADER.
    apply match_leading_id_written; [exact Hid|].
    intros c [= <-]. reflexivity. }
  split; [exact Hint|]. split; [|split].
  - intros text. unfold Handlers.replied_summary_id, Render.reply_to.
    cbn [Telegram.reply_to_message Telegram.reply_text mbind option_bind].
    rewrite Hread. cbn [fmap option_fmap option_map]. rewrite Hint.
    reflexivity.
  - intros raw Hnone.
    unfold Spec.resolve, Spec.trailing_id, Spec.replied_voice,
      Spec.replied_summary, Render.reply_to.
    cbn [Telegram.text Telegram.reply_to_message Telegram.reply_text
         Telegram.reply_voice mbind option_bind].
    rewrite Hnone, Hread. cbn [mbind option_bind Spec.first_match].
    rewrite Hint. reflexivity.
  - intros message raw before Htext Hsplit Hlast.
    rewrite (trailing_id_of_last message raw Htext), Hsplit.
    rewrite trailing_digits_app by assumption.
    destruct (Render.str_of_int record_id); [contradiction|].
    rewrite Hint. reflexivity.
Qed.

Lemma written_id_is_read_back_witness :
  int (Render.str_of_int 12) = 12
  /\ (forall text : option str,
        Handlers.replied_summary_id
          (Render.reply_to (Render.SUMMARY_REPLY_HEADER 12 (lit "talk")) text)
        = Some 12)
  /\ (forall raw : str,
        search_trailing_id (strip raw) = None ->
        Spec.resolve
          (Render.reply_to (Render.SUMMARY_REPLY_HEADER 12 (lit "talk"))
             (Some raw))
        = Some (Spec.ById 12))
  /\ (forall (message : Telegram.Message) (raw before : str),
        Telegram.text message = Some raw ->
        strip raw = before ++ Render.str_of_int 12 ->
        (forall b, last before = Some b -> isdecimal b = false) ->
        Spec.trailing_id message = Some (Spec.ById 12)).
Proof. apply (written_id_is_read_back 12 (lit "talk")). lia. Defined.

(** ** Histories of the store *)

Lemma extends_refl (d : DB.Database) : extends d d.
Proof.
  split; [lia|]. intros r Hin _. exists r. repeat split. exact Hin.
Qed.

Lemma extends_trans (d1 d2 d3 : DB.Database) :
  extends d1 d2 -> extends d2 d3 -> extends d1 d3.
Proof.
  intros [Hseq12 H12] [Hseq23 H23]. split; [lia|].
  intros r3 Hin3 Hid3.
  destruct (H23 r3 Hin3 ltac:(lia)) as (r2 & Hin2 & Hid2 & Hfid2).
  destruct (H12 r2 Hin2 ltac:(lia)) as (r1 & Hin1 & Hid1 & Hfid1).
  exists r1. split; [exact Hin1|]. split; congruence.
Qed.

Lemma update_where_extends hit set (d : DB.Database) :
  (forall r, DB.id (set r) = DB.id r) ->
  (forall r, DB.telegram_file_id (set r) = DB.telegram_file_id r) ->
  extends d (DB.update_where hit set d).
Proof.
  intros Hid Hfid. split; [cbn; lia|].
  intros r' Hin _. unfold DB.update_where in Hin; cbn [DB.rows] in Hin.
  apply list_elem_of_In, in_map_iff in Hin as (r & <- & Hin).
  exists r. split; [apply list_elem_of_In; exact Hin|].
  destruct (hit r); auto.
Qed.

Lemma delete_where_extends hit (d : DB.Database) :
  extends d (DB.delete_where hit d).
Proof.
  split; [cbn; lia|].
  intros r' Hin _. unfold DB.delete_where in Hin; cbn [DB.rows] in Hin.
  apply list_elem_of_In, filter_In in Hin as [Hin _].
  exists r'. split; [apply list_elem_of_In; exact Hin|]. split; reflexivity.
Qed.

Lemma step_extends (d : DB.Database) (o : Trace.op) :
  extends d (Trace.step d o).
Proof.
  destruct o as [file_id text summary sent_at user_id username
                | record_id | file_id | record_id new_summary | record_id note];
    cbn [Trace.step].
  - unfold DB.save_message.
    destruct (List.find (DB.has_file_id file_id) (DB.rows d)); cbn [fst].
    + destruct (update_where_extends (DB.has_file_id file_id)
                  (DB.set_excluded text summary sent_at user_id username) d
                  ltac:(reflexivity) ltac:(reflexivity)) as [_ Hrows].
      split; [cbn; lia | exact Hrows].
    + split; [cbn; lia|]. cbn [DB.rows DB.seq]. intros r' Hin Hid.
      apply elem_of_app in Hin as [Hin | Hin].
      * exists r'. split; [exact Hin|]. split; reflexivity.
      * apply list_elem_of_singleton in Hin. subst r'. cbn in Hid. lia.
  - unfold DB.delete_record_by_id.
    destruct (fits_int64 record_id); cbn [fst];
      [apply delete_where_extends | apply extends_refl].
  - apply delete_where_extends.
  - apply update_where_extends; reflexivity.
  - apply update_where_extends; reflexivity.
Qed.

Lemma step_wf (d : DB.Database) (o : Trace.op) :
  DB.wf d -> DB.wf (Trace.step d o).
Proof.
  intros Hwf. destruct o; cbn [Trace.step].
  - apply save_message_wf. exact Hwf.
  - apply delete_record_by_id_wf. exact Hwf.
  - apply delete_where_wf. exact Hwf.
  - apply update_where_wf; try reflexivity. exact Hwf.
  - apply update_where_wf; try reflexivity. exact Hwf.
Qed.

Lemma run_extends (ops : list Trace.op) (d : DB.Database) :
  DB.wf d -> DB.wf (Trace.run ops d) /\ extends d (Trace.run ops d).
Proof.
  revert d. induction ops as [|o ops IH]; intros d Hwf.
  - split; [exact Hwf | apply extends_refl].
  - cbn [Trace.run fold_left].
    destruct (IH (Trace.step d o) (step_wf d o Hwf)) as [Hwf' Hext].
    split; [exact Hwf'|].
    eapply extends_trans; [apply step_extends | exact Hext].
Qed.

(** X12.  Record ids are never reused.  Whatever saves, deletions and
    updates follow, the table stays well formed, and a record found
    afterwards under an id the table had handed out before is a record
    the table held then, for the same voice message: the id of a deleted
    record does not come back, and no id passes to another voice
    message. *)
Theorem ids_are_never_reused (d : DB.Database) (ops : list Trace.op) :
  DB.wf d ->
  let later := Trace.run ops d in
  DB.wf later
  /\ DB.seq d <= DB.seq later
  /\ (forall r' : DB.Row,
        r' ∈ DB.rows later -> DB.id r' <= DB.seq d ->
        exists r : DB.Row,
          r ∈ DB.rows d
          /\ DB.id r = DB.id r'
          /\ DB.telegram_file_id r = DB.telegram_file_id r')
  /\ (forall r r' : DB.Row,
        r ∈ DB.rows d -> r' ∈ DB.rows later -> DB.id r' = DB.id r ->
        DB.telegram_file_id r' = DB.telegram_file_id r)
  /\ (forall record_id : Z,
        record_id <= DB.seq d ->
        DB.fetch_record_by_id d record_id = Returned None ->
        DB.fetch_record_by_id later record_id = Returned None).
Proof.
  intros Hwf later. destruct (run_extends ops d Hwf) as [Hwf' [Hseq Hext]].
  fold later in Hwf', Hseq, Hext.
  split; [exact Hwf'|]. split; [exact Hseq|]. split; [exact Hext|]. split.
  - intros r r' Hin Hin' Hid.
    assert (Hle : DB.id r' <= DB.seq d).
    { pose proof (DB.wf_seq d Hwf) as Hall. rewrite Forall_forall in Hall.
      specialize (Hall r Hin). lia. }
    destruct (Hext r' Hin' Hle) as (r0 & Hin0 & Hid0 & Hfid0).
    assert (r0 = r) as ->; [|congruence].
    apply list_elem_of_lookup_1 in Hin as [i Hi].
    apply list_elem_of_lookup_1 in Hin0 as [j Hj].
    assert (j = i) as ->; [|congruence].
    apply (NoDup_lookup (DB.id <$> DB.rows d) j i (DB.id r) (DB.wf_ids d Hwf)).
    + rewrite list_lookup_fmap, Hj. cbn. congruence.
    + rewrite list_lookup_fmap, Hi. reflexivity.
  - intros record_id Hle Hnone. unfold DB.fetch_record_by_id in *.
    destruct (fits_int64 record_id); [|discriminate].
    injection Hnone as Hnone.
    destruct (List.find (DB.has_id record_id) (DB.rows later)) as [r'|] eqn:Hfind;
      [|reflexivity].
    exfalso. apply List.find_some in Hfind as [Hin' Hhit].
    unfold DB.has_id in Hhit. apply Z.eqb_eq in Hhit.
    destruct (Hext r' ltac:(apply list_elem_of_In; exact Hin') ltac:(lia))
      as (r & Hin & Hid & _).
    apply list_elem_of_In in Hin.
    pose proof (List.find_none _ _ Hnone r Hin) as Hmiss.
    unfold DB.has_id in Hmiss. apply Z.eqb_neq in Hmiss. lia.
Qed.

Lemma ids_are_never_reused_witness :
  DB.wf (db Sample.one_record)
  /\ forall record_id : Z,
       record_id <= DB.seq (db Sample.one_record) ->
       DB.fetch_record_by_id (db Sample.one_record) record_id = Returned None ->
       DB.fetch_record_by_id
         (Trace.run
            [Trace.DeleteById 1;
             Trace.Save (lit "BQACAgIAAx") (lit "another talk")
               (lit "summary") (lit "2025-05-02T08:00:00+00:00") 7 None]
            (db Sample.one_record))
         record_id
       = Returned None.
Proof.
  assert (Hwf : DB.wf (db Sample.one_record)).
  { apply save_message_wf. exact wf_empty. }
  split; [exact Hwf|].
  apply (ids_are_never_reused (db Sample.one_record)
           [Trace.DeleteById 1;
            Trace.Save (lit "BQACAgIAAx") (lit "another talk")
              (lit "summary") (lit "2025-05-02T08:00:00+00:00") 7 None]
           Hwf).
Defined.

(** ** Saving, fetching, deleting and updating *)

Lemma find_map_kept {A : Type} (P : A -> bool) (g : A -> A) (l : list A) :
  (forall x, P (g x) = P x) ->
  List.find P (List.map g l) = g <$> List.find P l.
Proof.
  intros Hkeep. induction l as [|x l IH]; [reflexivity|].
  cbn [List.map List.find]. rewrite Hkeep. destruct (P x); [reflexivity | exact IH].
Qed.

Lemma find_snoc {A : Type} (P : A -> bool) (l : list A) (x : A) :
  List.find P (l ++ [x])
  = match List.find P l with
    | Some y => Some y
    | None => if P x then Some x else None
    end.
Proof.
  induction l as [|y l IH]; [reflexivity|].
  cbn [app List.find]. destruct (P y); [reflexivity | exact IH].
Qed.

Lemma find_filter_kept {A : Type} (P Q : A -> bool) (l : list A) :
  (forall x, P x = true -> Q x = true) ->
  List.find P (List.filter Q l) = List.find P l.
Proof.
  intros Himp. induction l as [|x l IH]; [reflexivity|].
  cbn [List.filter List.find]. destruct (P x) eqn:HP.
  - rewrite (Himp x HP). cbn [List.find]. rewrite HP. reflexivity.
  - destruct (Q x); [cbn [List.find]; rewrite HP|]; exact IH.
Qed.

Lemma find_filter_out {A : Type} (P : A -> bool) (l : list A) :
  List.find P (List.filter (fun x => negb (P x)) l) = None.
Proof.
  induction l as [|x l IH]; [reflexivity|].
  cbn [List.filter]. destruct (P x) eqn:HP; cbn [negb]; [exact IH|].
  cbn [List.find]. rewrite HP. exact IH.
Qed.

Lemma find_id_unique (l : list DB.Row) (r : DB.Row) :
  NoDup (DB.id <$> l) -> r ∈ l ->
  List.find (DB.has_id (DB.id r)) l = Some r.
Proof.
  intros Hnd Hin. induction l as [|x l IH]; [inversion Hin|].
  cbn [fmap list_fmap] in Hnd. apply NoDup_cons in Hnd as [Hnot Hrest].
  cbn [List.find]. unfold DB.has_id at 1.
  apply elem_of_cons in Hin as [-> | Hin].
  - rewrite Z.eqb_refl. reflexivity.
  - destruct (Z.eqb_spec (DB.id x) (DB.id r)) as [Heq | _]; [|auto].
    exfalso. apply Hnot. rewrite Heq. apply list_elem_of_fmap_2. exact Hin.
Qed.

Lemma find_id_beyond (l : list DB.Row) (bound record_id : Z) :
  Forall (fun r => 1 <= DB.id r <= bound) l -> bound < record_id ->
  List.find (DB.has_id record_id) l = None.
Proof.
  intros Hall Hlt. induction Hall as [|x l Hx Hall IH]; [reflexivity|].
  cbn [List.find]. unfold DB.has_id at 1.
  destruct (Z.eqb_spec (DB.id x) record_id); [lia | exact IH].
Qed.

(** The save in terms of the rows it leaves. *)
Lemma save_message_finds (d : DB.Database)
    (file_id text summary sent_at : str) (user_id : Z) (username : option str) :
  DB.wf d ->
  let saved := DB.save_message d file_id text summary sent_at user_id username in
  let record :=
    {| DB.id := snd saved;
       DB.telegram_file_id := file_id;
       DB.text := text;
       DB.summarized := summary;
       DB.note := DB.fetch_record_by_telegram_file_id d file_id ≫= DB.note;
       DB.sent_at := sent_at;
       DB.user_id := user_id;
       DB.username := username |} in
  List.find (DB.has_file_id file_id) (DB.rows (fst saved)) = Some record
  /\ List.find (DB.has_id (snd saved)) (DB.rows (fst saved)) = Some record
  /\ (forall other : str,
        other <> file_id ->
        List.find (DB.has_file_id other) (DB.rows (fst saved))
        = List.find (DB.has_file_id other) (DB.rows d))
  /\ (forall other : Z,
        other <> snd saved ->
        List.find (DB.has_id other) (DB.rows (fst saved))
        = List.find (DB.has_id other) (DB.rows d)).
Proof.
  intros Hwf. cbv zeta.
  unfold DB.fetch_record_by_telegram_file_id, DB.save_message.
  destruct (List.find (DB.has_file_id file_id) (DB.rows d)) as [old|] eqn:Hfind;
    cbn [fst snd DB.update_where DB.rows mbind option_bind].
  - destruct (find_file_id_some _ _ _ Hfind) as [Hin Hfid].
    set (g := fun r : DB.Row =>
                if DB.has_file_id file_id r
                then DB.set_excluded text summary sent_at user_id username r
                else r).
    assert (Hgid : forall x, DB.id (g x) = DB.id x)
      by (intros x; unfold g; destruct (DB.has_file_id file_id x); reflexivity).
    assert (Hgfid : forall x, DB.telegram_file_id (g x) = DB.telegram_file_id x)
      by (intros x; unfold g; destruct (DB.has_file_id file_id x); reflexivity).
    assert (Hgold : g old
                    = {| DB.id := DB.id old;
                         DB.telegram_file_id := file_id;
                         DB.text := text;
                         DB.summarized := summary;
                         DB.note := DB.note old;
                         DB.sent_at := sent_at;
                         DB.user_id := user_id;
                         DB.username := username |}).
    { unfold g, DB.has_file_id. rewrite bool_decide_true by exact Hfid.
      unfold DB.set_excluded. rewrite Hfid. reflexivity. }
    split; [|split; [|split]].
    + rewrite find_map_kept, Hfind by
        (intros x; unfold DB.has_file_id; rewrite Hgfid; reflexivity).
      cbn [fmap option_fmap option_map]. rewrite Hgold. reflexivity.
    + rewrite find_map_kept by
        (intros x; unfold DB.has_id; rewrite Hgid; reflexivity).
      rewrite (find_id_unique _ old (DB.wf_ids d Hwf) Hin).
      cbn [fmap option_fmap option_map]. rewrite Hgold. reflexivity.
    + intros other Hother.
      rewrite find_map_kept by
        (intros x; unfold DB.has_file_id; rewrite Hgfid; reflexivity).
      destruct (List.find (DB.has_file_id other) (DB.rows d)) as [x|] eqn:Hx;
        [|reflexivity].
      destruct (find_file_id_some _ _ _ Hx) as [_ Hxf].
      cbn [fmap option_fmap option_map]. unfold g, DB.has_file_id.
      rewrite bool_decide_false by congruence. reflexivity.
    + intros other Hother.
      rewrite find_map_kept by
        (intros x; unfold DB.has_id; rewrite Hgid; reflexivity).
      destruct (List.find (DB.has_id other) (DB.rows d)) as [x|] eqn:Hx;
        [|reflexivity].
      apply List.find_some in Hx as [Hxin Hxid].
      unfold DB.has_id in Hxid. apply Z.eqb_eq in Hxid.
      cbn [fmap option_fmap option_map]. unfold g, DB.has_file_id.
      destruct (bool_decide_reflect (DB.telegram_file_id x = file_id))
        as [Hxf|]; [|reflexivity].
      exfalso. apply Hother. rewrite <- Hxid.
      apply list_elem_of_In, list_elem_of_lookup_1 in Hxin as [i Hi].
      apply list_elem_of_lookup_1 in Hin as [j Hj].
      assert (i = j) as ->; [|congruence].
      apply (NoDup_lookup (DB.telegram_file_id <$> DB.rows d) i j file_id
               (DB.wf_file_ids d Hwf)).
      * rewrite list_lookup_fmap, Hi. cbn. congruence.
      * rewrite list_lookup_fmap, Hj. cbn. congruence.
  - rewrite !find_snoc, Hfind.
    rewrite (find_id_beyond (DB.rows d) (DB.seq d) (DB.seq d + 1))
      by (try apply (DB.wf_seq d Hwf); lia).
    unfold DB.has_file_id at 1, DB.has_id at 1. cbn [DB.telegram_file_id DB.id].
    rewrite bool_decide_true by reflexivity. rewrite Z.eqb_refl.
    split; [reflexivity|]. split; [reflexivity|]. split.
    + intros other Hother. rewrite find_snoc.
      unfold DB.has_file_id at 2. cbn [DB.telegram_file_id].
      rewrite bool_decide_false by congruence.
      destruct (List.find (DB.has_file_id other) (DB.rows d)); reflexivity.
    + intros other Hother. rewrite find_snoc.
      unfold DB.has_id at 2. cbn [DB.id].
      destruct (Z.eqb_spec (DB.seq d + 1) other); [congruence|].
      destruct (List.find (DB.has_id other) (DB.rows d)); reflexivity.
Qed.

(** X13.  What was saved is found again.  After a save into a well-formed
    table, the record fetched under the file id and the record fetched
    under the returned id are one and the same: it carries the saved
    text, summary, time stamp and author, and the note the voice
    message's record had before, none if it had no record.  Fetches
    under any other file id or any other id give what they gave
    before. *)
Theorem saved_message_is_found (d : DB.Database)
    (file_id text summary sent_at : str) (user_id : Z) (username : option str) :
  DB.wf d ->
  let saved := DB.save_message d file_id text summary sent_at user_id username in
  let record :=
    {| DB.id := snd saved;
       DB.telegram_file_id := file_id;
       DB.text := text;
       DB.summarized := summary;
       DB.note := DB.fetch_record_by_telegram_file_id d file_id ≫= DB.note;
       DB.sent_at := sent_at;
       DB.user_id := user_id;
       DB.username := username |} in
  DB.fetch_record_by_telegram_file_id (fst saved) file_id = Some record
  /\ DB.fetch_record_by_id (fst saved) (snd saved)
     = (if fits_int64 (snd saved) then Returned (Some record)
        else Raised OverflowError)
  /\ (forall other : str,
        other <> file_id ->
        DB.fetch_record_by_telegram_file_id (fst saved) other
        = DB.fetch_record_by_telegram_file_id d other)
  /\ (forall other : Z,
        other <> snd saved ->
        DB.fetch_record_by_id (fst saved) other = DB.fetch_record_by_id d other).
Proof.
  intros Hwf saved record.
  destruct (save_message_finds d file_id text summary sent_at user_id username
              Hwf) as (Hfile & Hid & Hfiles & Hids).
  fold saved in Hfile, Hid, Hfiles, Hids. fold record in Hfile, Hid.
  split; [exact Hfile|]. split; [|split; [exact Hfiles|]].
  - unfold DB.fetch_record_by_id. rewrite Hid. reflexivity.
  - intros other Hother. unfold DB.fetch_record_by_id.
    rewrite (Hids other Hother). reflexivity.
Qed.

Lemma saved_message_is_found_witness :
  DB.wf (db Sample.one_record)
  /\ DB.fetch_record_by_id
       (fst (DB.save_message (db Sample.one_record) (lit "AwACAgIAAx")
               (lit "heard again") (lit "new summary")
               (lit "2025-05-02T09:30:00+00:00") 8 None))
       1
     = Returned
         (Some {| DB.id := 1;
               DB.telegram_file_id := lit "AwACAgIAAx";
               DB.text := lit "heard again";
               DB.summarized := lit "new summary";
               DB.note := None;
               DB.sent_at := lit "2025-05-02T09:30:00+00:00";
               DB.user_id := 8;
               DB.username := None |}).
Proof.
  assert (Hwf : DB.wf (db Sample.one_record)).
  { apply save_message_wf. exact wf_empty. }
  split; [exact Hwf|].
  exact (proj1 (proj2 (saved_message_is_found (db Sample.one_record)
                         (lit "AwACAgIAAx") (lit "heard again")
                         (lit "new summary") (lit "2025-05-02T09:30:00+00:00")
                         8 None Hwf))).
Defined.

Lemma find_existsb {A : Type} (P : A -> bool) (l : list A) :
  is_Some (List.find P l) <-> existsb P l = true.
Proof.
  induction l as [|x l IH]; cbn [List.find existsb].
  - split; [intros [y Hy]; discriminate | discriminate].
  - destruct (P x); cbn [orb]; [|exact IH].
    split; [reflexivity | intros _; eexists; reflexivity].
Qed.

Lemma existsb_filter_out {A : Type} (P : A -> bool) (l : list A) :
  existsb P (List.filter (fun x => negb (P x)) l) = false.
Proof.
  induction l as [|x l IH]; [reflexivity|].
  cbn [List.filter]. destruct (P x) eqn:HP; cbn [negb]; [exact IH|].
  cbn [existsb]. rewrite HP. exact IH.
Qed.

Lemma delete_where_spec (hit : DB.Row -> bool) (d : DB.Database) :
  ((0 <? DB.rowcount hit d) = true <-> is_Some (List.find hit (DB.rows d)))
  /\ List.find hit (DB.rows (DB.delete_where hit d)) = None
  /\ (forall r : DB.Row,
        r ∈ DB.rows (DB.delete_where hit d) <-> r ∈ DB.rows d /\ hit r = false)
  /\ DB.delete_where hit (DB.delete_where hit d) = DB.delete_where hit d
  /\ (0 <? DB.rowcount hit (DB.delete_where hit d)) = false.
Proof.
  split; [rewrite rowcount_existsb; symmetry; apply find_existsb|].
  split; [apply find_filter_out|].
  split.
  { intros r. unfold DB.delete_where; cbn [DB.rows].
    rewrite !list_elem_of_In, filter_In, negb_true_iff. reflexivity. }
  split.
  - apply delete_where_miss. apply existsb_filter_out.
  - rewrite rowcount_existsb. apply existsb_filter_out.
Qed.

(** X14.  A deleted record is gone, and nothing else is.  Deleting by
    file id, or by an id SQLite can take, reports success exactly when
    a record was there to fetch; afterwards the fetch under that key
    finds nothing, every other record is still there and is fetched as
    before, and a second deletion under the same key reports failure
    and changes nothing.  For an id SQLite cannot take, both the
    deletion and the fetch raise [OverflowError] and the table is as it
    was. *)
Theorem deleted_record_is_gone (d : DB.Database) (record_id : Z)
    (file_id : str) :
  let by_id := DB.delete_record_by_id d record_id in
  let by_file := DB.delete_record_by_telegram_file_id d file_id in
  (fits_int64 record_id = true ->
   (snd by_id = Returned true
    <-> exists r, DB.fetch_record_by_id d record_id = Returned (Some r))
   /\ (snd by_id = Returned false
       <-> DB.fetch_record_by_id d record_id = Returned None)
   /\ DB.fetch_record_by_id (fst by_id) record_id = Returned None
   /\ (forall r : DB.Row,
         r ∈ DB.rows (fst by_id) <-> r ∈ DB.rows d /\ DB.id r <> record_id)
   /\ DB.delete_record_by_id (fst by_id) record_id
      = (fst by_id, Returned false))
  /\ (fits_int64 record_id = false ->
      by_id = (d, Raised OverflowError)
      /\ DB.fetch_record_by_id d record_id = Raised OverflowError)
  /\ (forall other : Z,
        other <> record_id ->
        DB.fetch_record_by_id (fst by_id) other
        = DB.fetch_record_by_id d other)
  /\ ((snd by_file = true
       <-> is_Some (DB.fetch_record_by_telegram_file_id d file_id))
      /\ DB.fetch_record_by_telegram_file_id (fst by_file) file_id = None
      /\ (forall other : str,
            other <> file_id ->
            DB.fetch_record_by_telegram_file_id (fst by_file) other
            = DB.fetch_record_by_telegram_file_id d other)
      /\ (forall r : DB.Row,
            r ∈ DB.rows (fst by_file)
            <-> r ∈ DB.rows d /\ DB.telegram_file_id r <> file_id)
      /\ DB.delete_record_by_telegram_file_id (fst by_file) file_id
         = (fst by_file, false)).
Proof.
  cbv zeta.
  unfold DB.delete_record_by_id, DB.delete_record_by_telegram_file_id,
    DB.fetch_record_by_id, DB.fetch_record_by_telegram_file_id.
  split; [|split; [|split]].
  - intros Hfits. rewrite Hfits. cbn [fst snd].
    destruct (delete_where_spec (DB.has_id record_id) d)
      as (Hcount & Hgone & Hrows & Hagain & Hzero).
    assert (Hboth :
      (Returned (0 <? DB.rowcount (DB.has_id record_id) d) = Returned true
       <-> exists r, Returned (List.find (DB.has_id record_id) (DB.rows d))
                     = Returned (Some r))
      /\ (Returned (0 <? DB.rowcount (DB.has_id record_id) d) = Returned false
          <-> @Returned (option DB.Row)
                (List.find (DB.has_id record_id) (DB.rows d))
              = Returned None)).
    { destruct Hcount as [Hc1 Hc2].
      destruct (List.find (DB.has_id record_id) (DB.rows d)) as [r|] eqn:Hr.
      - rewrite Hc2 by (eexists; reflexivity).
        split; split; try discriminate; eauto.
      - destruct (0 <? DB.rowcount (DB.has_id record_id) d) eqn:Hc.
        + destruct (Hc1 eq_refl) as [r Hsome]. discriminate.
        + split; split; try discriminate; try reflexivity.
          intros [r Hsome]. discriminate. }
    destruct Hboth as [Hyes Hno].
    split; [exact Hyes|]. split; [exact Hno|]. split; [|split].
    + rewrite Hgone. reflexivity.
    + intros r. rewrite Hrows. unfold DB.has_id. rewrite Z.eqb_neq. reflexivity.
    + rewrite Hagain, Hzero. reflexivity.
  - intros Hfits. rewrite Hfits. split; reflexivity.
  - intros other Hother.
    destruct (fits_int64 record_id); cbn [fst]; [|reflexivity].
    destruct (fits_int64 other); [|reflexivity]. f_equal.
    apply find_filter_kept.
    intros x Hx. unfold DB.has_id in *. apply Z.eqb_eq in Hx.
    apply negb_true_iff, Z.eqb_neq. lia.
  - cbn [fst snd].
    destruct (delete_where_spec (DB.has_file_id file_id) d)
      as (Hcount & Hgone & Hrows & Hagain & Hzero).
    split; [exact Hcount|]. split; [exact Hgone|]. split; [|split].
    + intros other Hother. apply find_filter_kept.
      intros x Hx. unfold DB.has_file_id in *. apply bool_decide_eq_true in Hx.
      apply negb_true_iff, bool_decide_eq_false. congruence.
    + intros r. rewrite Hrows. unfold DB.has_file_id.
      rewrite bool_decide_eq_false. reflexivity.
    + rewrite Hagain, Hzero. reflexivity.
Qed.

Lemma update_where_twice hit set1 set2 (d : DB.Database) :
  (forall r, hit (set1 r) = hit r) ->
  DB.update_where hit set2 (DB.update_where hit set1 d)
  = DB.update_where hit (fun r => set2 (set1 r)) d.
Proof.
  intros Hkeep. unfold DB.update_where; cbn [DB.rows DB.seq]. f_equal.
  rewrite map_map. apply map_ext. intros r.
  destruct (hit r) eqn:Hr; [rewrite Hkeep, Hr | rewrite Hr]; reflexivity.
Qed.

Lemma update_where_swap hit1 hit2 set1 set2 (d : DB.Database) :
  (forall r, hit1 (set2 r) = hit1 r) ->
  (forall r, hit2 (set1 r) = hit2 r) ->
  (forall r, hit1 r = true -> hit2 r = true -> set2 (set1 r) = set1 (set2 r)) ->
  DB.update_where hit2 set2 (DB.update_where hit1 set1 d)
  = DB.update_where hit1 set1 (DB.update_where hit2 set2 d).
Proof.
  intros H12 H21 Hcomm. unfold DB.update_where; cbn [DB.rows DB.seq]. f_equal.
  rewrite !map_map. apply map_ext. intros r.
  destruct (hit1 r) eqn:H1, (hit2 r) eqn:H2;
    rewrite ?H12, ?H21, ?H1, ?H2; auto.
Qed.

Lemma rowcount_update_where hit hit' set (d : DB.Database) :
  (forall r, hit (set r) = hit r) ->
  DB.rowcount hit (DB.update_where hit' set d) = DB.rowcount hit d.
Proof.
  intros Hkeep. unfold DB.rowcount, DB.update_where; cbn [DB.rows]. f_equal.
  induction (DB.rows d) as [|r l IH]; [reflexivity|].
  cbn [List.map List.filter].
  replace (hit (if hit' r then set r else r)) with (hit r)
    by (destruct (hit' r); [rewrite Hkeep|]; reflexivity).
  destruct (hit r); cbn [length]; lia.
Qed.

(** X15.  How edits of a record compose.  Of two new summaries for one
    record the later one stands, as if the earlier had never been
    written; a new summary and a note for one record, and any two edits
    of different records, give the same table in either order; an edit
    does not change what a later edit reports; and after an edit the
    record is fetched with the new summary or note and its other columns
    as they were. *)
Theorem edits_compose (d : DB.Database) (record_id other : Z)
    (summary1 summary2 note : str) :
  let once := DB.update_summary d record_id summary1 in
  DB.update_summary (fst once) record_id summary2
  = (fst (DB.update_summary d record_id summary2), snd once)
  /\ fst (DB.add_note_to_record (fst once) other note)
     = fst (DB.update_summary
              (fst (DB.add_note_to_record d other note)) record_id summary1)
  /\ (other <> record_id ->
      fst (DB.update_summary (fst once) other summary2)
      = fst (DB.update_summary
               (fst (DB.update_summary d other summary2)) record_id summary1))
  /\ snd (DB.add_note_to_record (fst once) other note)
     = snd (DB.add_note_to_record d other note)
  /\ DB.fetch_record_by_id (fst once) record_id
     = result_map (fmap (DB.set_summarized summary1))
         (DB.fetch_record_by_id d record_id)
  /\ DB.fetch_record_by_id (fst (DB.add_note_to_record d record_id note))
       record_id
     = result_map (fmap (DB.set_note note))
         (DB.fetch_record_by_id d record_id).
Proof.
  cbv zeta.
  unfold DB.update_summary, DB.add_note_to_record, DB.fetch_record_by_id;
    cbn [fst snd].
  split; [|split; [|split; [|split; [|split]]]].
  - rewrite update_where_twice, rowcount_update_where by reflexivity.
    reflexivity.
  - apply update_where_swap; reflexivity.
  - intros Hother. apply update_where_swap; try reflexivity.
    intros r H1 H2. unfold DB.has_id in *. apply Z.eqb_eq in H1, H2. lia.
  - rewrite rowcount_update_where by reflexivity. reflexivity.
  - unfold DB.update_where; cbn [DB.rows].
    destruct (fits_int64 record_id); [|reflexivity]. cbn [result_map]. f_equal.
    rewrite find_map_kept
      by (intros x; destruct (DB.has_id record_id x) eqn:Hx; exact Hx).
    destruct (List.find (DB.has_id record_id) (DB.rows d)) as [r|] eqn:Hfind;
      [|reflexivity].
    apply List.find_some in Hfind as [_ Hhit].
    cbn [fmap option_fmap option_map]. rewrite Hhit. reflexivity.
  - unfold DB.update_where; cbn [DB.rows].
    destruct (fits_int64 record_id); [|reflexivity]. cbn [result_map]. f_equal.
    rewrite find_map_kept
      by (intros x; destruct (DB.has_id record_id x) eqn:Hx; exact Hx).
    destruct (List.find (DB.has_id record_id) (DB.rows d)) as [r|] eqn:Hfind;
      [|reflexivity].
    apply List.find_some in Hfind as [_ Hhit].
    cbn [fmap option_fmap option_map]. rewrite Hhit. reflexivity.
Qed.

(** ** The edit dialog at its edges *)

Lemma fetch_none_rowcount (d : DB.Database) (record_id : Z) :
  DB.fetch_record_by_id d record_id = Returned None ->
  (0 <? DB.rowcount (DB.has_id record_id) d) = false.
Proof.
  intros Hnone. rewrite rowcount_existsb.
  destruct (existsb (DB.has_id record_id) (DB.rows d)) eqn:Hex; [|reflexivity].
  apply find_existsb in Hex. unfold DB.fetch_record_by_id in Hnone.
  destruct (fits_int64 record_id); [|discriminate].
  injection Hnone as Hnone.
  rewrite Hnone in Hex. destruct Hex as [r Hr]. discriminate.
Qed.

(** The notice a choice ends with when it has nothing to apply to. *)
Lemma apply_edit_miss (w : World) :
  (forall record_id new_text,
     Handlers.pending (user_data w) = Some (record_id, new_text) ->
     DB.fetch_record_by_id (db w) record_id = Returned None) ->
  Handlers.apply_edit w
  = (Returned tt,
     Spec.edited
       (match Handlers.pending (user_data w) with
        | Some _ => Telegram.MSG_DELETE_NOT_FOUND
        | None => Telegram.CHOICE_FAILED
        end) w).
Proof.
  intros Hgone. unfold Handlers.apply_edit. run_gets.
  destruct (Handlers.pending (user_data w)) as [[record_id new_text]|];
    [|reflexivity].
  rewrite bind_run. unfold on_db, DB.update_summary.
  rewrite (fetch_none_rowcount _ _ (Hgone _ _ eq_refl)).
  rewrite update_where_miss by (apply fetch_none_rowcount; eauto).
  rewrite with_db_same. reflexivity.
Qed.

Lemma apply_note_miss (w : World) :
  (forall record_id new_text,
     Handlers.pending (user_data w) = Some (record_id, new_text) ->
     DB.fetch_record_by_id (db w) record_id = Returned None) ->
  Handlers.apply_note w
  = (Returned tt,
     Spec.edited
       (match Handlers.pending (user_data w) with
        | Some _ => Telegram.MSG_DELETE_NOT_FOUND
        | None => Telegram.CHOICE_FAILED
        end) w).
Proof.
  intros Hgone. unfold Handlers.apply_note. run_gets.
  destruct (Handlers.pending (user_data w)) as [[record_id new_text]|];
    [|reflexivity].
  rewrite bind_run. unfold on_db, DB.add_note_to_record.
  rewrite (fetch_none_rowcount _ _ (Hgone _ _ eq_refl)).
  rewrite update_where_miss by (apply fetch_none_rowcount; eauto).
  rewrite with_db_same. reflexivity.
Qed.

(** X16.  A choice that has nothing to apply to changes nothing.  While
    the choice is awaited, if the record named by the pending data is no
    longer in the store, the edit button and the note button rewrite the
    prompt to "not found"; if the pending data holds no usable id and
    text, they rewrite it to the error notice.  Either way the store is
    as it was, the pending data is dropped and the session is closed,
    under both dialogs. *)
Theorem choice_without_record (now : Z) (w : World) :
  state w = AWAITING_CHOICE ->
  (forall due, timeout_due w = Some due -> now < due) ->
  (forall record_id new_text,
     Handlers.pending (user_data w) = Some (record_id, new_text) ->
     DB.fetch_record_by_id (db w) record_id = Returned None) ->
  let notice :=
    match Handlers.pending (user_data w) with
    | Some _ => Telegram.MSG_DELETE_NOT_FOUND
    | None => Telegram.CHOICE_FAILED
    end in
  let ptb (data : string) :=
    snd (Ptb.edit_handler now (Handlers.CallbackQuery (lit data)) w) in
  let aiogram (data : string) :=
    snd (Aiogram.dispatch (Handlers.CallbackQuery (lit data)) w) in
  Spec.closed_with notice (db w) w (ptb "edit")
  /\ Spec.closed_with notice (db w) w (aiogram "edit")
  /\ Spec.closed_with notice (db w) w (ptb "note")
  /\ Spec.closed_with notice (db w) w (aiogram "note").
Proof.
  intros Hst Hdue Hgone notice ptb aiogram.
  pose proof (apply_edit_miss w Hgone) as Hedit.
  pose proof (apply_note_miss w Hgone) as Hnote.
  fold notice in Hedit, Hnote.
  destruct button_note as [Hn1 Hn2].
  split; [|split; [|split]].
  - subst ptb. cbv beta. rewrite (ptb_button_route _ _ _ Hst Hdue), button_edit.
    unfold Ptb.handle_edit_summary_callback. rewrite !bind_run, Hedit.
    repeat split.
  - subst aiogram. cbv beta. rewrite (aiogram_button_route _ _ Hst), button_edit.
    unfold Aiogram.handle_edit_summary_callback. rewrite !bind_run, Hedit.
    repeat split.
  - subst ptb. cbv beta. rewrite (ptb_button_route _ _ _ Hst Hdue), Hn1, Hn2.
    unfold Ptb.handle_add_note_callback. rewrite !bind_run, Hnote.
    repeat split.
  - subst aiogram. cbv beta. rewrite (aiogram_button_route _ _ Hst), Hn1, Hn2.
    unfold Aiogram.handle_add_note_callback. rewrite !bind_run, Hnote.
    repeat split.
Qed.

Lemma choice_without_record_witness :
  Spec.closed_with Telegram.MSG_DELETE_NOT_FOUND DB.empty
    (with_db DB.empty Sample.awaiting)
    (snd (Ptb.edit_handler 10 (Handlers.CallbackQuery (lit "edit"))
            (with_db DB.empty Sample.awaiting))).
Proof.
  refine (proj1 (choice_without_record 10 (with_db DB.empty Sample.awaiting)
                   _ _ _)).
  - reflexivity.
  - intros due Hdue. vm_compute in Hdue. injection Hdue as <-. lia.
  - intros record_id new_text Hpending. vm_compute in Hpending.
    injection Hpending as <- _. reflexivity.
Defined.

Lemma expire_idle (now : Z) (w : World) :
  state w = IDLE -> Ptb.expire now w = (Returned tt, w).
Proof.
  intros Hst. unfold Ptb.expire, modify. rewrite Hst. reflexivity.
Qed.

Lemma ptb_reply_route (now : Z) (message : Telegram.Message) (w : World) :
  state w = IDLE ->
  Ptb.edit_handler now (Handlers.TextReply message) w
  = (Ptb.on_reply_to_summary_for_edit message ≫= Ptb.settle now) w.
Proof.
  intros Hst. unfold Ptb.edit_handler.
  rewrite bind_run, (expire_idle _ _ Hst), bind_run.
  unfold gets. cbv beta iota. rewrite Hst. reflexivity.
Qed.

(** X17.  A reply opens the dialog only when it answers a summary of a
    stored record.  With no session open: a reply to anything that does
    not start with [#] and a number is answered with the usage notice; a
    reply to a text that names a record the store does not hold is
    answered "not found"; in both cases no session is opened and
    nothing else changes.  A reply to the summary of a stored record is
    answered with the prompt, the session awaits the choice with that
    id and the text of the reply pending, and under
    python-telegram-bot the timeout is armed for 300 seconds.  When the
    number is one SQLite cannot take, the fetch raises: the error
    leaves the handler, nothing is answered and nothing changes. *)
Theorem reply_opens_dialog (message : Telegram.Message) (now : Z) (w : World) :
  state w = IDLE ->
  let ptb := snd (Ptb.edit_handler now (Handlers.TextReply message) w) in
  let aiogram := snd (Aiogram.dispatch (Handlers.TextReply message) w) in
  (Handlers.replied_summary_id message = None ->
   declined_with Telegram.EDIT_USAGE w ptb
   /\ declined_with Telegram.EDIT_USAGE w aiogram)
  /\ (forall record_id : Z,
        Handlers.replied_summary_id message = Some record_id ->
        DB.fetch_record_by_id (db w) record_id = Returned None ->
        declined_with Telegram.MSG_DELETE_NOT_FOUND w ptb
        /\ declined_with Telegram.MSG_DELETE_NOT_FOUND w aiogram)
  /\ (forall record_id : Z,
        Handlers.replied_summary_id message = Some record_id ->
        (exists row,
           DB.fetch_record_by_id (db w) record_id = Returned (Some row)) ->
        opened_for record_id (Telegram.text message) w ptb
        /\ timeout_due ptb = Some (now + 300)
        /\ opened_for record_id (Telegram.text message) w aiogram
        /\ timeout_due aiogram = timeout_due w)
  /\ (forall record_id : Z,
        Handlers.replied_summary_id message = Some record_id ->
        fits_int64 record_id = false ->
        Ptb.edit_handler now (Handlers.TextReply message) w
        = (Raised OverflowError, w)
        /\ Aiogram.dispatch (Handlers.TextReply message) w
           = (Raised OverflowError, w)).
Proof.
  intros Hst ptb aiogram. subst ptb aiogram.
  rewrite (ptb_reply_route _ _ _ Hst).
  unfold Aiogram.dispatch, Ptb.on_reply_to_summary_for_edit,
    Aiogram.on_reply_to_summary_for_edit.
  split; [|split; [|split]].
  - intros Hnone. rewrite Hnone. split.
    + rewrite !bind_run. repeat split.
    + repeat split. exact Hst.
  - intros record_id Hsome Hgone. rewrite Hsome. split.
    + rewrite !bind_run. unfold query. cbv beta iota. rewrite Hgone.
      rewrite !bind_run. repeat split.
    + rewrite bind_run. unfold query. cbv beta iota. rewrite Hgone.
      repeat split. exact Hst.
  - intros record_id Hsome [r Hr]. rewrite Hsome. split; [|split; [|split]].
    + rewrite !bind_run. unfold query. cbv beta iota. rewrite Hr.
      rewrite !bind_run. repeat split.
    + rewrite !bind_run. unfold query. cbv beta iota. rewrite Hr.
      rewrite !bind_run. reflexivity.
    + rewrite bind_run. unfold query. cbv beta iota. rewrite Hr.
      rewrite !bind_run. repeat split.
    + rewrite bind_run. unfold query. cbv beta iota. rewrite Hr.
      rewrite !bind_run. reflexivity.
  - intros record_id Hsome Hfits. rewrite Hsome.
    rewrite !bind_run. unfold query, DB.fetch_record_by_id. cbv beta iota.
    rewrite Hfits. split; reflexivity.
Qed.

Lemma reply_opens_dialog_witness :
  opened_for 1 (Some (lit "better summary")) Sample.one_record
    (snd (Ptb.edit_handler 0
            (Handlers.TextReply (Sample.reply_to_summary "better summary"))
            Sample.one_record))
  /\ timeout_due
       (snd (Ptb.edit_handler 0
               (Handlers.TextReply (Sample.reply_to_summary "better summary"))
               Sample.one_record))
     = Some (0 + 300).
Proof.
  destruct (reply_opens_dialog (Sample.reply_to_summary "better summary") 0
              Sample.one_record eq_refl)
    as (_ & _ & Hopen & _).
  destruct (Hopen 1 eq_refl ltac:(eexists; reflexivity))
    as (Hptb & Hdue & _).
  split; [exact Hptb | exact Hdue].
Defined.

(** ** Deleting for good *)

Lemma stored_names (d : DB.Database) (t : Spec.target) :
  Spec.stored d t = Spec.askable t && existsb (names t) (DB.rows d).
Proof. destruct t; reflexivity. Qed.

Lemma without_names (d : DB.Database) (t : Spec.target) :
  Spec.without d t = DB.delete_where (names t) d.
Proof. destruct t; reflexivity. Qed.

(** X18.  A delete command that names a stored record removes that
    record and no other.  The store afterwards is the store before
    without the rows the target names, still well formed if it was; the
    answer is the confirmation; and the same command sent again finds
    nothing to delete, is answered "not found" and leaves the store as
    it is. *)
Theorem delete_removes_the_target (message : Telegram.Message) (raw : str)
    (t : Spec.target) (w : World) :
  Telegram.text message = Some raw ->
  Spec.resolve message = Some t ->
  Spec.stored (db w) t = true ->
  let after := snd (Handlers.on_delete_command message w) in
  (forall r : DB.Row,
     r ∈ DB.rows (db after) <-> r ∈ DB.rows (db w) /\ names t r = false)
  /\ Spec.stored (db after) t = false
  /\ (DB.wf (db w) -> DB.wf (db after))
  /\ outbox after = outbox w ++ [Telegram.Answer (confirmation t)]
  /\ Handlers.on_delete_command message after
     = (Returned tt, Spec.answered Telegram.MSG_DELETE_NOT_FOUND after).
Proof.
  intros Htext Hres Hstored after.
  assert (Hafter : after
                   = Spec.answered (confirmation t)
                       (with_db (Spec.without (db w) t) w)).
  { subst after. rewrite (on_delete_command_run message raw w Htext).
    unfold Spec.delete_outcome. rewrite Hres, Hstored.
    destruct t; reflexivity. }
  assert (Haskable : Spec.askable t = true).
  { rewrite stored_names in Hstored. apply andb_true_iff in Hstored. tauto. }
  assert (Hdb : db after = DB.delete_where (names t) (db w)).
  { rewrite Hafter, <- without_names. reflexivity. }
  destruct (delete_where_spec (names t) (db w))
    as (_ & _ & Hrows & _ & Hzero).
  assert (Hgone : Spec.stored (db after) t = false).
  { rewrite stored_names, Hdb, <- rowcount_existsb, Hzero.
    apply andb_false_r. }
  split; [rewrite Hdb; exact Hrows|].
  split; [exact Hgone|].
  split; [intros Hwf; rewrite Hdb; apply delete_where_wf; exact Hwf|].
  split; [rewrite Hafter; reflexivity|].
  rewrite (on_delete_command_run message raw after Htext).
  unfold Spec.delete_outcome. rewrite Hres, Hgone, Haskable. reflexivity.
Qed.

Lemma delete_removes_the_target_witness :
  Spec.stored (db Sample.one_record) (Spec.ById 1) = true
  /\ Handlers.on_delete_command (Sample.plain "/delete 1")
       (snd (Handlers.on_delete_command (Sample.plain "/delete 1")
               Sample.one_record))
     = (Returned tt,
        Spec.answered Telegram.MSG_DELETE_NOT_FOUND
          (snd (Handlers.on_delete_command (Sample.plain "/delete 1")
                  Sample.one_record))).
Proof.
  split; [reflexivity|].
  apply (delete_removes_the_target (Sample.plain "/delete 1")
           (lit "/delete 1") (Spec.ById 1) Sample.one_record);
    reflexivity.
Defined.

(** ** Failures while a voice message is handled *)

(** X19.  A failure on the way to the transcript is reported and leaves
    no trace.  When the download of the voice file fails, or the
    download succeeds and the transcription fails, [on_voice] returns
    normally: it has announced the processing, then rewritten that
    message to the failure notice; the store is as it was and no
    generation request was made. *)
Theorem voice_failure_is_contained (self : Handlers.TelegramBot)
    (message : Telegram.Message) (sent_at : str) (voice : Telegram.Voice)
    (w : World) :
  Telegram.voice message = Some voice ->
  (download (env w) (Telegram.file_id voice) = None
   \/ exists ogg_bytes : Telegram.bytes,
        download (env w) (Telegram.file_id voice) = Some ogg_bytes
        /\ transcribe_ogg_bytes (env w) ogg_bytes = None) ->
  let ran := Handlers.on_voice self message sent_at w in
  ran = (Returned tt,
         Spec.edited Telegram.PROCESSING_FAILED
           (Spec.answered Telegram.MSG_VOICE_PROCESSING w))
  /\ db (snd ran) = db w
  /\ requests (snd ran) = requests w
  /\ outbox (snd ran)
     = outbox w ++ [Telegram.Answer Telegram.MSG_VOICE_PROCESSING;
                    Telegram.EditText Telegram.PROCESSING_FAILED].
Proof.
  intros Hvoice Hfail ran.
  assert (Hrun : ran
                 = (Returned tt,
                    Spec.edited Telegram.PROCESSING_FAILED
                      (Spec.answered Telegram.MSG_VOICE_PROCESSING w))).
  { subst ran. unfold Handlers.on_voice. rewrite Hvoice.
    rewrite bind_run. cbn [send modify]. unfold try_except.
    rewrite bind_run. unfold Handlers.download_voice at 1.
    rewrite bind_run. cbn [gets env with_outbox].
    destruct Hfail as [Hget | (ogg_bytes & Hget & Hstt)].
    - rewrite Hget. reflexivity.
    - rewrite Hget. cbn [mret io_ret].
      rewrite bind_run. unfold Handlers.transcribe at 1.
      rewrite bind_run. cbn [gets env with_outbox]. rewrite Hstt.
      reflexivity. }
  rewrite Hrun. split; [reflexivity|]. split; [reflexivity|].
  split; [reflexivity|]. cbn. rewrite <- app_assoc. reflexivity.
Qed.

Lemma voice_failure_is_contained_witness :
  Handlers.on_voice Sample.bot Sample.voice_note
    (lit "2025-05-01T10:00:00+00:00") (Sample.fresh Sample.offline)
  = (Returned tt,
     Spec.edited Telegram.PROCESSING_FAILED
       (Spec.answered Telegram.MSG_VOICE_PROCESSING
          (Sample.fresh Sample.offline))).
Proof.
  refine (proj1 (voice_failure_is_contained Sample.bot Sample.voice_note
                   (lit "2025-05-01T10:00:00+00:00")
                   {| Telegram.file_id := lit "AwACAgIAAx" |}
                   (Sample.fresh Sample.offline) eq_refl _)).
  left. reflexivity.
Defined.

(** ** What the summariser hands back *)

Lemma lstrip_fixed (s : str) :
  (forall c, head s = Some c -> isspace c = false) -> lstrip s = s.
Proof.
  destruct s as [|c s]; [reflexivity|].
  intros Hhead. cbn [lstrip]. rewrite (Hhead c eq_refl). reflexivity.
Qed.

Lemma rstrip_fixed (s : str) :
  (forall c, last s = Some c -> isspace c = false) -> rstrip s = s.
Proof.
  intros Hlast. unfold rstrip. rewrite lstrip_fixed; [apply rev_involutive|].
  intros c Hc. apply Hlast.
  rewrite <- last_reverse, <- rev_is_reverse, rev_involutive in Hc. exact Hc.
Qed.

Lemma strip_head (s : str) c : head (strip s) = Some c -> isspace c = false.
Proof. unfold strip. apply lstrip_head. Qed.

Lemma strip_fixed (s : str) : strip (strip s) = strip s.
Proof.
  unfold strip at 1. rewrite rstrip_fixed by apply strip_last.
  apply lstrip_fixed. apply strip_head.
Qed.

(** X20.  A summary comes back trimmed, and producing it touches nothing
    but the log of requests.  Whatever the backend answers, a text
    [summarize] returns has no white space at either end, so stripping
    it again changes nothing; [summarize] does return one unless an
    answer of Ollama's cannot be read; and in every case the store, the
    messages sent, the session and its pending data are as they
    were. *)
Theorem summary_is_stripped (self : LLM.LLMHandler) (text : str) (w : World) :
  exists (r : result str) (w' : World),
    LLM.summarize self text w = (r, w')
    /\ (forall s : str,
          r = Returned s ->
          strip s = s
          /\ (forall c, head s = Some c -> isspace c = false)
          /\ (forall c, last s = Some c -> isspace c = false))
    /\ ((forall k : nat,
           Spec.backend_malformed self (env w) k (Spec.prompt_for text) = false) ->
        exists s : str, r = Returned s)
    /\ env w' = env w
    /\ db w' = db w
    /\ outbox w' = outbox w
    /\ state w' = state w
    /\ user_data w' = user_data w
    /\ timeout_due w' = timeout_due w.
Proof.
  destruct (summarize_run self text w)
    as (j & _ & _ & [[Hb Hrun] | (Hb & Hrun & _)]).
  - eexists. eexists. split; [exact Hrun|].
    split; [intros s Hs; discriminate|].
    split; [intros Hread; rewrite Hread in Hb; discriminate|].
    repeat split.
  - eexists. eexists. split; [exact Hrun|].
    split.
    { intros s [= <-]. unfold Spec.attempt.
      split; [apply strip_fixed|]. split; [apply strip_head | apply strip_last]. }
    split; [intros _; eauto|].
    repeat split.
Qed.

(** ** The prototype beside the package *)

(** When the backend does not fail and answers both wordings alike, an
    attempt of the prototype yields what the package's attempt does. *)
Lemma prototype_attempt_agrees (self : LLM.LLMHandler) (text : str) (e : Env)
    (k : nat) :
  ollama e k (Spec.prototype_prompt_for text) = ollama e k (Spec.prompt_for text) ->
  openai e k (Spec.prototype_prompt_for text) = openai e k (Spec.prompt_for text) ->
  Spec.backend_faults self e k (Spec.prompt_for text) = false ->
  prototype_attempt self text e k
  = (if Spec.backend_malformed self e k (Spec.prompt_for text)
     then Raised AttributeError
     else Returned (Spec.attempt self text e k)).
Proof.
  intros Hollama Hopenai Hok.
  unfold prototype_attempt, Spec.attempt, Spec.backend_malformed,
    Spec.backend_text.
  rewrite Hok. unfold Spec.backend_faults in Hok. rewrite Hollama, Hopenai.
  destruct (LLM.use_local self); cbn [andb].
  - destruct (ollama e k (Spec.prompt_for text)); try discriminate; reflexivity.
  - destruct (openai e k (Spec.prompt_for text)); try discriminate; reflexivity.
Qed.

Lemma prototype_attempts_agree (self : LLM.LLMHandler) (text : str) (n : nat) :
  forall (w1 w2 : World) (last : option str),
    env w1 = env w2 ->
    length (requests w1) = length (requests w2) ->
    (forall k : nat,
       ollama (env w2) k (Spec.prototype_prompt_for text)
       = ollama (env w2) k (Spec.prompt_for text)
       /\ openai (env w2) k (Spec.prototype_prompt_for text)
          = openai (env w2) k (Spec.prompt_for text)
       /\ Spec.backend_faults self (env w2) k (Spec.prompt_for text) = false) ->
    exists m : nat,
      (m <= n)%nat /\ (1 <= n -> 1 <= m)%nat
      /\ fst (Prototype.attempts self text n last w1)
         = fst (LLM.attempts self text n last w2)
      /\ snd (Prototype.attempts self text n last w1)
         = Spec.after_requests (Spec.prototype_prompt_for text) m w1
      /\ snd (LLM.attempts self text n last w2)
         = Spec.after_requests (Spec.prompt_for text) m w2.
Proof.
  induction n as [|n IH]; intros w1 w2 last Henv Hlen Hsame.
  - exists 0%nat. split; [lia|]. split; [lia|].
    split; [reflexivity|]. split; destruct w1, w2; cbn;
      unfold Spec.after_requests, with_requests; cbn;
      rewrite app_nil_r; reflexivity.
  - rewrite attempts_step, generate_run.
    cbn [Prototype.attempts]. rewrite bind_run, prototype_generate_run.
    destruct (Hsame (length (requests w2))) as (Ho & Hc & Hok).
    rewrite Henv, Hlen.
    rewrite (prototype_attempt_agrees self text _ _ Ho Hc Hok).
    destruct (Spec.backend_malformed self (env w2) (length (requests w2))
                (Spec.prompt_for text)).
    { exists 1%nat. split; [lia|]. split; [lia|]. repeat split. }
    destruct (LLM.accepted self text
                (len (Spec.attempt self text (env w2) (length (requests w2))))).
    { exists 1%nat. split; [lia|]. split; [lia|]. repeat split. }
    destruct (IH (Spec.after_requests (Spec.prototype_prompt_for text) 1 w1)
                (Spec.after_requests (Spec.prompt_for text) 1 w2)
                (Some (Spec.attempt self text (env w2) (length (requests w2)))))
      as (m & Hm & _ & Hfst & Hsnd1 & Hsnd2).
    + rewrite !after_requests_env. exact Henv.
    + rewrite !after_requests_length, Hlen. reflexivity.
    + intros k. rewrite after_requests_env. apply Hsame.
    + exists (S m). split; [lia|]. split; [lia|].
      split; [exact Hfst|].
      rewrite Hsnd1, Hsnd2, !after_requests_more. split; reflexivity.
Qed.

(** X21.  While the backend does not fail and answers the prototype's
    wording of the prompt as it answers the package's, the prototype's
    [summarize] ends as the packaged one does, with the same summary or
    the same error, after as many requests; the requests differ in
    their wording only. *)
Theorem prototype_agrees_without_faults (self : LLM.LLMHandler) (text : str)
    (w : World) :
  (forall k : nat,
     ollama (env w) k (Spec.prototype_prompt_for text)
     = ollama (env w) k (Spec.prompt_for text)
     /\ openai (env w) k (Spec.prototype_prompt_for text)
        = openai (env w) k (Spec.prompt_for text)
     /\ Spec.backend_faults self (env w) k (Spec.prompt_for text) = false) ->
  fst (Prototype.summarize self text w) = fst (LLM.summarize self text w)
  /\ exists m : nat,
       (1 <= m)%nat
       /\ snd (Prototype.summarize self text w)
          = Spec.after_requests (Spec.prototype_prompt_for text) m w
       /\ snd (LLM.summarize self text w)
          = Spec.after_requests (Spec.prompt_for text) m w.
Proof.
  intros Hsame. pose proof (max_tries_pos self) as Hpos.
  destruct (prototype_attempts_agree self text (Z.to_nat (LLM.max_tries self))
              w w None eq_refl eq_refl Hsame)
    as (m & _ & Hm & Hfst & Hsnd1 & Hsnd2).
  unfold Prototype.summarize, LLM.summarize. rewrite !bind_run.
  destruct (Prototype.attempts self text (Z.to_nat (LLM.max_tries self)) None w)
    as [r1 w1].
  destruct (LLM.attempts self text (Z.to_nat (LLM.max_tries self)) None w)
    as [r2 w2].
  cbn [fst snd] in Hfst, Hsnd1, Hsnd2. subst r2 w1 w2.
  split.
  - destruct r1 as [[s|]|e]; reflexivity.
  - exists m. split; [lia|]. destruct r1 as [[s|]|e]; split; reflexivity.
Qed.

Lemma prototype_agrees_without_faults_witness :
  fst (Prototype.summarize (Handlers.llm Sample.bot) (lit "hello there")
         (Sample.fresh (Sample.answers (lit "hello there") (repeat 65%N 200))))
  = fst (LLM.summarize (Handlers.llm Sample.bot) (lit "hello there")
           (Sample.fresh (Sample.answers (lit "hello there")
                            (repeat 65%N 200)))).
Proof.
  refine (proj1 (prototype_agrees_without_faults (Handlers.llm Sample.bot)
                   (lit "hello there")
                   (Sample.fresh (Sample.answers (lit "hello there")
                                    (repeat 65%N 200))) _)).
  intros k. repeat split.
Defined.

(** The prototype's [on_voice] once the transcript is there: whatever
    its length, it is handed to [summarize], and what comes back is
    stored and sent. *)
Lemma prototype_on_voice_run (self : Handlers.TelegramBot)
    (message : Telegram.Message) (sent_at : str) (voice : Telegram.Voice)
    (ogg_bytes : Telegram.bytes) (text : str) (w : World) :
  Telegram.voice message = Some voice ->
  download (env w) (Telegram.file_id voice) = Some ogg_bytes ->
  transcribe_ogg_bytes (env w) ogg_bytes = Some text ->
  exists j : nat,
    snd (Prototype.summarize (Handlers.llm self) text w)
    = Spec.after_requests (Spec.prototype_prompt_for text) (S j) w
    /\ Prototype.on_voice self message sent_at w
       = match fst (Prototype.summarize (Handlers.llm self) text w) with
         | Returned summary =>
             (Returned tt,
              Spec.answered
                (Telegram.FILE_SUMMARY (Telegram.file_id voice) summary)
                (with_db
                   (Prototype.save_message (db w) (Telegram.file_id voice) text
                      summary sent_at
                      (Telegram.user_id (Telegram.from_user message))
                      (Telegram.username (Telegram.from_user message)))
                   (Spec.after_requests (Spec.prototype_prompt_for text) (S j)
                      w)))
         | Raised e =>
             (Raised e,
              Spec.after_requests (Spec.prototype_prompt_for text) (S j) w)
         end.
Proof.
  intros Hvoice Hget Hstt.
  destruct (prototype_summarize_run (Handlers.llm self) text w)
    as (j & _ & _ & Hrun & _).
  exists j. split; [rewrite Hrun; reflexivity|].
  unfold Prototype.on_voice. rewrite Hvoice.
  rewrite bind_run. unfold Handlers.download_voice at 1.
  rewrite bind_run. cbn [gets]. rewrite Hget. cbn [mret io_ret].
  rewrite bind_run. unfold Handlers.transcribe at 1.
  rewrite bind_run. cbn [gets]. rewrite Hstt. cbn [mret io_ret].
  rewrite bind_run, Hrun. cbn [fst].
  destruct (prototype_attempt (Handlers.llm self) text (env w)
              (length (requests w) + j)); reflexivity.
Qed.

(** X6. The prototype has no minimum length.  Whatever the transcript,
    one of fewer than 5 characters and the empty one included, the
    prototype's [on_voice] hands it to [summarize], which makes at
    least one request; the summary [summarize] returns is stored with
    the transcript under the voice message's file id and sent as the
    answer, and an error of [summarize] leaves the handler with
    nothing stored and nothing sent. *)
Theorem prototype_stores_short_transcript (self : Handlers.TelegramBot)
    (message : Telegram.Message) (sent_at : str) (voice : Telegram.Voice)
    (ogg_bytes : Telegram.bytes) (text : str) (w : World) :
  Telegram.voice message = Some voice ->
  download (env w) (Telegram.file_id voice) = Some ogg_bytes ->
  transcribe_ogg_bytes (env w) ogg_bytes = Some text ->
  let ran := Prototype.on_voice self message sent_at w in
  let summarized := Prototype.summarize (Handlers.llm self) text w in
  (exists calls : nat,
     (1 <= calls)%nat
     /\ requests (snd ran)
        = requests w ++ repeat (Spec.prototype_prompt_for text) calls)
  /\ (forall summary : str,
        fst summarized = Returned summary ->
        ran
        = (Returned tt,
           Spec.answered
             (Telegram.FILE_SUMMARY (Telegram.file_id voice) summary)
             (with_db
                (Prototype.save_message (db w) (Telegram.file_id voice) text
                   summary sent_at
                   (Telegram.user_id (Telegram.from_user message))
                   (Telegram.username (Telegram.from_user message)))
                (snd summarized))))
  /\ (forall e : exn,
        fst summarized = Raised e ->
        ran = (Raised e, snd summarized)
        /\ db (snd ran) = db w
        /\ outbox (snd ran) = outbox w).
Proof.
  intros Hvoice Hget Hstt ran summarized.
  destruct (prototype_on_voice_run self message sent_at voice ogg_bytes text w
              Hvoice Hget Hstt) as (j & Hsnd & Hrun).
  fold ran in Hrun. fold summarized in Hsnd, Hrun.
  split; [|split].
  - exists (S j). split; [lia|]. rewrite Hrun.
    destruct (fst summarized); reflexivity.
  - intros summary Hs. rewrite Hrun, Hs, Hsnd. reflexivity.
  - intros e He. rewrite Hrun, He, Hsnd. repeat split.
Qed.

Lemma prototype_stores_short_transcript_witness :
  Prototype.on_voice Sample.bot Sample.voice_note
    (lit "2025-05-01T10:00:00+00:00")
    (Sample.fresh (Sample.answers (lit "") (repeat 65%N 200)))
  = (Returned tt,
     Spec.answered
       (Telegram.FILE_SUMMARY (lit "AwACAgIAAx") (repeat 65%N 200))
       (with_db
          (Prototype.save_message DB.empty (lit "AwACAgIAAx") (lit "")
             (repeat 65%N 200) (lit "2025-05-01T10:00:00+00:00") 7
             (Some (lit "ann")))
          (snd (Prototype.summarize (Handlers.llm Sample.bot) (lit "")
                  (Sample.fresh (Sample.answers (lit "") (repeat 65%N 200))))))).
Proof.
  refine (proj1 (proj2 (prototype_stores_short_transcript Sample.bot
                          Sample.voice_note (lit "2025-05-01T10:00:00+00:00")
                          {| Telegram.file_id := lit "AwACAgIAAx" |}
                          [79; 103; 103; 83]%N (lit "")
                          (Sample.fresh
                             (Sample.answers (lit "") (repeat 65%N 200)))
                          eq_refl eq_refl eq_refl))
            (repeat 65%N 200) _).
  vm_compute. reflexivity.
Defined.

(** C7, where the code departs from it.  The two packaged handlers stop
    at a transcript of fewer than 5 characters; the prototype's
    [on_voice] has no such test.  On the same voice message it calls
    the summariser, with at least one request, and when a summary comes
    back it stores the short transcript with it and answers with the
    summary, not with a recognition-failure notice. *)
Theorem prototype_keeps_short_transcript (self : Handlers.TelegramBot)
    (message : Telegram.Message) (sent_at : str) (voice : Telegram.Voice)
    (ogg_bytes : Telegram.bytes) (text : str) (w : World) :
  Telegram.voice message = Some voice ->
  download (env w) (Telegram.file_id voice) = Some ogg_bytes ->
  transcribe_ogg_bytes (env w) ogg_bytes = Some text ->
  len text < 5 ->
  let packaged := Handlers.on_voice self message sent_at w in
  let prototype := Prototype.on_voice self message sent_at w in
  (packaged
   = (Returned tt,
      Spec.edited Telegram.RECOGNITION_FAILED
        (Spec.answered Telegram.MSG_VOICE_PROCESSING w))
   /\ db (snd packaged) = db w
   /\ requests (snd packaged) = requests w)
  /\ (exists calls : nat,
        (1 <= calls)%nat
        /\ requests (snd prototype)
           = requests w ++ repeat (Spec.prototype_prompt_for text) calls)
  /\ (forall summary : str,
        fst (Prototype.summarize (Handlers.llm self) text w) = Returned summary ->
        fst prototype = Returned tt
        /\ db (snd prototype)
           = Prototype.save_message (db w) (Telegram.file_id voice) text
               summary sent_at
               (Telegram.user_id (Telegram.from_user message))
               (Telegram.username (Telegram.from_user message))
        /\ outbox (snd prototype)
           = outbox w
             ++ [Telegram.Answer
                   (Telegram.FILE_SUMMARY (Telegram.file_id voice) summary)]).
Proof.
  intros Hvoice Hget Hstt Hshort packaged prototype.
  split.
  { subst packaged.
    rewrite (on_voice_short_run self message sent_at voice ogg_bytes text w
               Hvoice Hget Hstt Hshort).
    repeat split. }
  destruct (prototype_on_voice_run self message sent_at voice ogg_bytes text w
              Hvoice Hget Hstt) as (j & Hsnd & Hrun).
  fold prototype in Hrun.
  split.
  - exists (S j). split; [lia|]. rewrite Hrun.
    destruct (fst (Prototype.summarize (Handlers.llm self) text w));
      reflexivity.
  - intros summary Hs. rewrite Hrun, Hs. repeat split.
Qed.

Lemma prototype_keeps_short_transcript_witness :
  len (lit "hm") < 5
  /\ DB.text <$>
       DB.rows (db (snd (Prototype.on_voice Sample.bot Sample.voice_note
                           (lit "2025-05-01T10:00:00+00:00")
                           (Sample.fresh
                              (Sample.answers (lit "hm") (repeat 65%N 200))))))
     = [lit "hm"]
  /\ db (snd (Handlers.on_voice Sample.bot Sample.voice_note
                (lit "2025-05-01T10:00:00+00:00")
                (Sample.fresh (Sample.answers (lit "hm") (repeat 65%N 200)))))
     = DB.empty.
Proof.
  split; [reflexivity|].
  destruct (prototype_keeps_short_transcript Sample.bot Sample.voice_note
              (lit "2025-05-01T10:00:00+00:00")
              {| Telegram.file_id := lit "AwACAgIAAx" |}
              [79; 103; 103; 83]%N (lit "hm")
              (Sample.fresh (Sample.answers (lit "hm") (repeat 65%N 200)))
              eq_refl eq_refl eq_refl eq_refl)
    as ((_ & Hkept & _) & _ & Hstored).
  destruct (Hstored (repeat 65%N 200) ltac:(vm_compute; reflexivity))
    as (_ & Hdb & _).
  split; [rewrite Hdb; reflexivity | exact Hkept].
Defined.

(** X7. On a conflict the prototype's upsert keeps the author columns
    the record had; the packaged store replaces them.  A row that holds
    the file id being saved stays at its position with its id, file id
    and note; both upserts replace its text, summary and time stamp;
    the prototype leaves [user_id] and [username] as they were, the
    package sets them to the new values. *)
Theorem prototype_upsert_keeps_author (d : DB.Database)
    (file_id text summary sent_at : str) (user_id : Z) (username : option str)
    (i : nat) (old : DB.Row) :
  DB.rows d !! i = Some old ->
  DB.telegram_file_id old = file_id ->
  DB.rows (Prototype.save_message d file_id text summary sent_at user_id
             username) !! i
  = Some {| DB.id := DB.id old;
            DB.telegram_file_id := file_id;
            DB.text := text;
            DB.summarized := summary;
            DB.note := DB.note old;
            DB.sent_at := sent_at;
            DB.user_id := DB.user_id old;
            DB.username := DB.username old |}
  /\ DB.rows (fst (DB.save_message d file_id text summary sent_at user_id
                     username)) !! i
     = Some {| DB.id := DB.id old;
               DB.telegram_file_id := file_id;
               DB.text := text;
               DB.summarized := summary;
               DB.note := DB.note old;
               DB.sent_at := sent_at;
               DB.user_id := user_id;
               DB.username := username |}.
Proof.
  intros Hi Hfid.
  assert (Hhit : DB.has_file_id file_id old = true)
    by (unfold DB.has_file_id; apply bool_decide_eq_true; exact Hfid).
  unfold Prototype.save_message, DB.save_message.
  destruct (List.find (DB.has_file_id file_id) (DB.rows d)) as [x|] eqn:Hfind.
  - cbn [fst DB.rows]. rewrite !update_where_lookup, Hi.
    cbn [fmap option_fmap option_map]. rewrite Hhit.
    unfold Prototype.set_excluded, DB.set_excluded. rewrite Hfid.
    split; reflexivity.
  - exfalso. apply (find_file_id_none _ _ Hfind old); [|exact Hfid].
    eapply list_elem_of_lookup_2. exact Hi.
Qed.

Lemma prototype_upsert_keeps_author_witness :
  DB.user_id <$>
    DB.rows (Prototype.save_message (db Sample.one_record) (lit "AwACAgIAAx")
               (lit "two") (lit "2") (lit "2025-05-01T10:05:00") 8 None) !! 0%nat
  = Some 7
  /\ DB.user_id <$>
       DB.rows (fst (DB.save_message (db Sample.one_record) (lit "AwACAgIAAx")
                       (lit "two") (lit "2") (lit "2025-05-01T10:05:00") 8
                       None)) !! 0%nat
     = Some 8.
Proof.
  destruct (prototype_upsert_keeps_author (db Sample.one_record)
              (lit "AwACAgIAAx") (lit "two") (lit "2")
              (lit "2025-05-01T10:05:00") 8 None 0%nat
              {| DB.id := 1;
                 DB.telegram_file_id := lit "AwACAgIAAx";
                 DB.text := lit "the whole talk";
                 DB.summarized := lit "old summary";
                 DB.note := None;
                 DB.sent_at := lit "2025-05-01T10:00:00+00:00";
                 DB.user_id := 7;
                 DB.username := Some (lit "ann") |}
              eq_refl eq_refl)
    as [Hproto Hpack].
  split; [rewrite Hproto | rewrite Hpack]; reflexivity.
Defined.


Lemma prototype_save_message_wf (d : DB.Database)
    (file_id text summary sent_at : str) (user_id : Z) (username : option str) :
  DB.wf d ->
  DB.wf (Prototype.save_message d file_id text summary sent_at user_id username).
Proof.
  intros Hwf.
  pose proof (save_message_wf d file_id text summary sent_at user_id username
                Hwf) as Hpack.
  unfold Prototype.save_message, DB.save_message in *.
  destruct (List.find (DB.has_file_id file_id) (DB.rows d)); cbn [fst] in *;
    [|exact Hpack].
  apply (wf_next_id (DB.update_where _ _ d)).
  apply update_where_wf; [reflexivity | reflexivity | exact Hwf].
Qed.

(** C6, where the code departs from it.  The packaged store replaces the
    author columns on a conflict and returns the record's id; the
    prototype's [save_message] returns nothing, and its conflict update
    names [text], [summarized] and [sent_at] only.  Persisting twice
    under one file id there leaves one record with that file id whose
    text, summary and time stamp are the second call's, and whose
    [user_id] and [username] are still what they were after the first
    call: the first call's own when the voice message was new. *)
Theorem prototype_upsert_keeps_first_author (d : DB.Database) (file_id : str)
    (text1 summary1 sent_at1 : str) (user_id1 : Z) (username1 : option str)
    (text2 summary2 sent_at2 : str) (user_id2 : Z) (username2 : option str) :
  DB.wf d ->
  let first :=
    Prototype.save_message d file_id text1 summary1 sent_at1 user_id1
      username1 in
  let second :=
    Prototype.save_message first file_id text2 summary2 sent_at2 user_id2
      username2 in
  exists (i : nat) (old : DB.Row),
    DB.rows first !! i = Some old
    /\ DB.telegram_file_id old = file_id
    /\ (DB.fetch_record_by_telegram_file_id d file_id = None ->
        DB.user_id old = user_id1 /\ DB.username old = username1)
    /\ DB.rows second
       = <[i := {| DB.id := DB.id old;
                   DB.telegram_file_id := file_id;
                   DB.text := text2;
                   DB.summarized := summary2;
                   DB.note := DB.note old;
                   DB.sent_at := sent_at2;
                   DB.user_id := DB.user_id old;
                   DB.username := DB.username old |}]> (DB.rows first)
    /\ List.filter (DB.has_file_id file_id) (DB.rows second)
       = [ {| DB.id := DB.id old;
              DB.telegram_file_id := file_id;
              DB.text := text2;
              DB.summarized := summary2;
              DB.note := DB.note old;
              DB.sent_at := sent_at2;
              DB.user_id := DB.user_id old;
              DB.username := DB.username old |} ].
Proof.
  intros Hwf first second.
  pose proof (prototype_save_message_wf d file_id text1 summary1 sent_at1
                user_id1 username1 Hwf) as Hwf1.
  fold first in Hwf1.
  pose proof (prototype_save_message_wf first file_id text2 summary2 sent_at2
                user_id2 username2 Hwf1) as Hwf2.
  fold second in Hwf2.
  assert (Hstored : exists (i : nat) (old : DB.Row),
            DB.rows first !! i = Some old
            /\ DB.telegram_file_id old = file_id
            /\ (DB.fetch_record_by_telegram_file_id d file_id = None ->
                DB.user_id old = user_id1 /\ DB.username old = username1)).
  { subst first. unfold Prototype.save_message,
      DB.fetch_record_by_telegram_file_id.
    destruct (List.find (DB.has_file_id file_id) (DB.rows d)) as [x|] eqn:Hfind;
      cbn [DB.rows].
    - destruct (find_file_id_some _ _ _ Hfind) as [Hin Hfid].
      apply list_elem_of_lookup_1 in Hin as [i Hi].
      exists i. eexists. rewrite update_where_lookup, Hi. cbn.
      split; [reflexivity|]. unfold DB.has_file_id.
      rewrite bool_decide_true by exact Hfid. cbn.
      split; [exact Hfid | discriminate].
    - exists (length (DB.rows d)). eexists.
      rewrite lookup_app_r by lia. rewrite Nat.sub_diag. cbn.
      split; [reflexivity|]. split; [reflexivity|]. intros _. split; reflexivity. }
  destruct Hstored as (i & old & Hi & Hfid & Hauthor).
  exists i, old. split; [exact Hi|]. split; [exact Hfid|].
  split; [exact Hauthor|].
  assert (Hrows : DB.rows second
                  = <[i := Prototype.set_excluded text2 summary2 sent_at2 old]>
                      (DB.rows first)).
  { subst second. unfold Prototype.save_message at 1.
    destruct (List.find (DB.has_file_id file_id) (DB.rows first)) as [x|] eqn:Hx.
    - cbn [DB.rows]. unfold DB.update_where; cbn [DB.rows].
      apply update_at_file_id;
        [apply (DB.wf_file_ids _ Hwf1) | exact Hi | exact Hfid].
    - exfalso. apply (find_file_id_none _ _ Hx old); [|exact Hfid].
      eapply list_elem_of_lookup_2. exact Hi. }
  assert (Hset : Prototype.set_excluded text2 summary2 sent_at2 old
                 = {| DB.id := DB.id old;
                      DB.telegram_file_id := file_id;
                      DB.text := text2;
                      DB.summarized := summary2;
                      DB.note := DB.note old;
                      DB.sent_at := sent_at2;
                      DB.user_id := DB.user_id old;
                      DB.username := DB.username old |}).
  { unfold Prototype.set_excluded. rewrite Hfid. reflexivity. }
  rewrite Hset in Hrows. split; [exact Hrows|].
  eapply (one_row_per_file_id file_id _ i).
  - apply (DB.wf_file_ids _ Hwf2).
  - rewrite Hrows. apply list_lookup_insert_eq. eapply lookup_lt_Some. exact Hi.
  - reflexivity.
Qed.

Lemma prototype_upsert_keeps_first_author_witness :
  DB.user_id <$>
    List.filter (DB.has_file_id (lit "AwACAgIAAx"))
      (DB.rows (Prototype.save_message
                  (Prototype.save_message DB.empty (lit "AwACAgIAAx")
                     (lit "first take") (lit "one")
                     (lit "2025-05-01T10:00:00+00:00") 7 (Some (lit "ann")))
                  (lit "AwACAgIAAx") (lit "second take") (lit "two")
                  (lit "2025-05-01T10:05:00+00:00") 8 None))
  = [7].
Proof.
  destruct (prototype_upsert_keeps_first_author DB.empty (lit "AwACAgIAAx")
              (lit "first take") (lit "one") (lit "2025-05-01T10:00:00+00:00")
              7 (Some (lit "ann"))
              (lit "second take") (lit "two") (lit "2025-05-01T10:05:00+00:00")
              8 None wf_empty)
    as (i & old & _ & _ & Hauthor & _ & Hone).
  destruct (Hauthor eq_refl) as [Huser _].
  rewrite Hone. cbn [fmap list_fmap DB.user_id]. rewrite Huser. reflexivity.
Defined.

(** ** The argument of the listing command *)

Lemma after_word_app (word rest : str) :
  Forall (fun c => isspace c = false) word ->
  (forall c, head rest = Some c -> isspace c = true) ->
  Listing.after_word (word ++ rest) = rest.
Proof.
  intros Hword Hrest. induction Hword as [|c word Hc Hword IH].
  - cbn [app]. destruct rest as [|c r]; [reflexivity|].
    cbn [Listing.after_word]. rewrite (Hrest c eq_refl). reflexivity.
  - cbn [app Listing.after_word]. rewrite Hc. exact IH.
Qed.

Lemma lstrip_app (spaces rest : str) :
  Forall (fun c => isspace c = true) spaces ->
  lstrip (spaces ++ rest) = lstrip rest.
Proof.
  intros Hspaces. induction Hspaces as [|c spaces Hc Hspaces IH]; [reflexivity|].
  cbn [app lstrip]. rewrite Hc. exact IH.
Qed.

(** X22.  Under python-telegram-bot the date of the listing command is
    what follows the command word.  For a text made of a word without
    white space, then white space, then an argument that neither starts
    nor ends with white space, the command takes that argument, white
    space inside it included, as the date: it is listed when it has the
    shape of a date and refused with the format notice otherwise.  The
    command word alone lists today's records. *)
Theorem sum_command_argument (order_by_sent_at : Listing.sorter)
    (db : DB.Database)
    (command spaces arg today : str) :
  command <> [] ->
  Forall (fun c => isspace c = false) command ->
  spaces <> [] ->
  Forall (fun c => isspace c = true) spaces ->
  arg <> [] ->
  (forall c, head arg = Some c -> isspace c = false) ->
  (forall c, last arg = Some c -> isspace c = false) ->
  Listing.second_part (strip (command ++ spaces ++ arg)) = Some arg
  /\ Listing.Ptb.on_sum_command order_by_sent_at db (command ++ spaces ++ arg) today
     = (if Listing.is_date arg then Listing.answer_for order_by_sent_at db arg
        else Listing.MSG_DATE_FORMAT_ERROR)
  /\ Listing.Ptb.on_sum_command order_by_sent_at db command today = Listing.answer_for order_by_sent_at db today.
Proof.
  intros Hcommand Hword Hne Hspaces Harg Hhead Hlast.
  assert (Hfirst : forall rest c,
            head (command ++ rest) = Some c -> isspace c = false).
  { destruct command as [|c0 word]; [contradiction|].
    intros rest c [= <-]. apply List.Forall_inv in Hword. exact Hword. }
  assert (Hstrip : strip (command ++ spaces ++ arg) = command ++ spaces ++ arg).
  { unfold strip. rewrite rstrip_fixed.
    - apply lstrip_fixed. apply Hfirst.
    - intros c Hc. apply Hlast.
      rewrite !last_app in Hc.
      destruct (last arg) as [x|] eqn:Hx; [exact Hc|].
      exfalso. apply last_None in Hx. contradiction. }
  assert (Hpart : Listing.second_part (command ++ spaces ++ arg) = Some arg).
  { unfold Listing.second_part.
    rewrite (lstrip_fixed (command ++ spaces ++ arg)) by apply Hfirst.
    rewrite after_word_app; [|exact Hword|].
    - rewrite lstrip_app by exact Hspaces.
      rewrite lstrip_fixed by exact Hhead.
      destruct arg; [contradiction | reflexivity].
    - destruct spaces as [|s spaces']; [contradiction|].
      intros c [= <-]. apply List.Forall_inv in Hspaces. exact Hspaces. }
  split; [rewrite Hstrip; exact Hpart|].
  split.
  - unfold Listing.Ptb.on_sum_command. rewrite Hstrip, Hpart. reflexivity.
  - unfold Listing.Ptb.on_sum_command.
    assert (Hsolo : strip command = command).
    { unfold strip. rewrite rstrip_fixed.
      - apply lstrip_fixed. intros c Hc. apply (Hfirst []).
        rewrite app_nil_r. exact Hc.
      - intros c Hc. rewrite List.Forall_forall in Hword. apply Hword.
        apply last_Some in Hc as [l' ->]. apply in_or_app. right. left.
        reflexivity. }
    rewrite Hsolo. unfold Listing.second_part.
    rewrite (lstrip_fixed command)
      by (intros c Hc; apply (Hfirst []); rewrite app_nil_r; exact Hc).
    rewrite <- (app_nil_r command).
    rewrite after_word_app; [reflexivity | exact Hword |].
    intros c Hc. discriminate.
Qed.

Lemma sum_command_argument_witness :
  Listing.second_part (strip (lit "/sum" ++ lit "  " ++ lit "2025-05-01"))
  = Some (lit "2025-05-01")
  /\ Listing.Ptb.on_sum_command (merge_sort Listing.earlier)
       (db Sample.one_record)
       (lit "/sum" ++ lit "  " ++ lit "2025-05-01") (lit "2025-05-03")
     = (if Listing.is_date (lit "2025-05-01")
        then Listing.answer_for (merge_sort Listing.earlier)
         (db Sample.one_record) (lit "2025-05-01")
        else Listing.MSG_DATE_FORMAT_ERROR)
  /\ Listing.Ptb.on_sum_command (merge_sort Listing.earlier)
       (db Sample.one_record) (lit "/sum")
       (lit "2025-05-03")
     = Listing.answer_for (merge_sort Listing.earlier)
         (db Sample.one_record) (lit "2025-05-03").
Proof.
  apply (sum_command_argument (merge_sort Listing.earlier)
           (db Sample.one_record) (lit "/sum") (lit "  ")
           (lit "2025-05-01") (lit "2025-05-03")).
  - discriminate.
  - repeat (apply List.Forall_cons; [reflexivity|]). apply List.Forall_nil.
  - discriminate.
  - repeat (apply List.Forall_cons; [reflexivity|]). apply List.Forall_nil.
  - discriminate.
  - intros c Hc. injection Hc as <-. reflexivity.
  - intros c Hc. vm_compute in Hc. injection Hc as <-. reflexivity.
Defined.
